(** * School management backend: authorization gates and workflows

    A shallow embedding of the request handlers of [backend/routers/*.py]
    over the tables of [backend/schemas.py], with the request bodies of
    [backend/models.py].

    Conventions.
    - A table is the list of its rows in storage order; [Query.first] and
      [Query.all] read that order.  Primary keys are integers ([Z]).
    - A handler is a function from the store (and the authenticated
      [current_user], where the route depends on [get_current_user]) to a
      [Response] and the store after the request.  A handler that raises
      commits nothing, so the store comes back unchanged.
    - [datetime.utcnow()] is the argument [now] of the handlers that stamp
      a row.
    - Some handlers of [messages.py], [registration_requests.py] and
      [assignments.py] read attributes that the classes of [schemas.py]
      and [models.py] do not have ([to_user_id], [from_user_id], [read],
      [created_at] and [message_type] of a message, [submission_text] and
      [file_path] of a submission body, [first_name] and [created_at] of a
      registration request).  Python raises [AttributeError] where such
      an attribute is read; the handler ends there as
      [Unhandled "AttributeError"], with what it evaluated before kept in
      the order of the source. *)

From Stdlib Require Import String Ascii List ZArith Bool Arith Lia.
From Stdlib Require Import DecimalString DecimalNat.
Import ListNotations.

Local Open Scope string_scope.
Local Open Scope Z_scope.

(** ** Python values *)

(** Truthiness of a [str] and of an [Optional[str]] ([if subject:]). *)
Definition truthy (s : string) : bool := negb (s =? "")%string.

Definition truthy_opt (o : option string) : bool :=
  match o with
  | Some s => truthy s
  | None => false
  end.

(** [x in [a, b, ...]] on strings. *)
Definition str_in (x : string) (l : list string) : bool :=
  existsb (String.eqb x) l.

(** [f"{n}"] for a non-negative [int]. *)
Definition str_of_nat (n : nat) : string :=
  NilEmpty.string_of_uint (Nat.to_uint n).

(** [s.split(c)[0]]: the characters before the first [c]. *)
Fixpoint split_head (c : ascii) (s : string) : string :=
  match s with
  | EmptyString => EmptyString
  | String a rest =>
      if Ascii.eqb a c then EmptyString else String a (split_head c rest)
  end.

(** ** Request bodies ([models.py]) *)

Module models.

Module UserLogin.
Record t := mk { username : string; password : string }.
End UserLogin.

Module Token.
Record t := mk { access_token : string; token_type : string }.
End Token.

Module AssignmentCreate.
Record t := mk {
  title : string;
  description : option string;
  subject : string;
  class_name : string;
  due_date : Z }.
End AssignmentCreate.

Module AssignmentSubmissionCreate.
Record t := mk { content : string; assignment_id : Z }.
End AssignmentSubmissionCreate.

Module AssignmentSubmissionGrade.
Record t := mk { grade : string; feedback : option string }.
End AssignmentSubmissionGrade.

Module MessageCreate.
Record t := mk { subject : string; content : string; receiver_id : Z }.
End MessageCreate.

Module RegistrationRequestCreate.
Record t := mk {
  username : string;
  email : string;
  name : string;
  role : string }.
End RegistrationRequestCreate.

Module RegistrationRequestUpdate.
Record t := mk { status : string }.
End RegistrationRequestUpdate.

End models.

(** ** Tables ([schemas.py]) *)

Module schemas.

Module User.
Record t := mk {
  id : Z;
  username : string;
  email : string;
  password_hash : string;
  name : string;
  role : string;
  created_at : Z }.

End User.

Module Assignment.
Record t := mk {
  id : Z;
  title : string;
  description : option string;
  subject : string;
  class_name : string;
  due_date : Z;
  created_by_id : Z;
  created_at : Z }.
End Assignment.

Module AssignmentSubmission.
Record t := mk {
  id : Z;
  assignment_id : Z;
  student_id : Z;
  content : string;
  submitted_at : Z;
  grade : option string;
  feedback : option string }.

Definition set_grade (g : option string) (f : option string) (s : t) : t :=
  mk (id s) (assignment_id s) (student_id s) (content s) (submitted_at s)
     g f.
End AssignmentSubmission.

Module Message.
Record t := mk {
  id : Z;
  sender_id : Z;
  receiver_id : Z;
  subject : string;
  content : string;
  sent_at : Z;
  is_read : bool }.

End Message.

Module RegistrationRequest.
Record t := mk {
  id : Z;
  username : string;
  email : string;
  name : string;
  role : string;
  status : string;
  requested_at : Z;
  processed_at : option Z }.

Definition set_status (s : string) (p : option Z) (r : t) : t :=
  mk (id r) (username r) (email r) (name r) (role r) s (requested_at r) p.
End RegistrationRequest.

End schemas.

Import schemas.

(** ** The store *)

Record DB := mkDB {
  users : list User.t;
  assignments : list Assignment.t;
  assignment_submissions : list AssignmentSubmission.t;
  messages : list Message.t;
  registration_requests : list RegistrationRequest.t }.

Definition empty_db : DB := mkDB [] [] [] [] [].

Definition set_users (v : list User.t) (db : DB) : DB :=
  mkDB v (assignments db) (assignment_submissions db) (messages db)
       (registration_requests db).

Definition set_assignments (v : list Assignment.t) (db : DB) : DB :=
  mkDB (users db) v (assignment_submissions db) (messages db)
       (registration_requests db).

Definition set_assignment_submissions (v : list AssignmentSubmission.t)
    (db : DB) : DB :=
  mkDB (users db) (assignments db) v (messages db) (registration_requests db).

Definition set_messages (v : list Message.t) (db : DB) : DB :=
  mkDB (users db) (assignments db) (assignment_submissions db) v
       (registration_requests db).

Definition set_registration_requests (v : list RegistrationRequest.t)
    (db : DB) : DB :=
  mkDB (users db) (assignments db) (assignment_submissions db) (messages db) v.

(** The session operations the handlers call on [db].  The store keeps each
    table's rows, gives a new row a primary key that no row of the table
    has, and enforces the column constraints declared in [schemas.py]. *)
Module Query.

Section Table.
Context {A : Type}.

(** [db.query(T).filter(p).first()] *)
Definition first (p : A -> bool) (rows : list A) : option A := find p rows.

(** [db.query(T).filter(p).all()] *)
Definition all (p : A -> bool) (rows : list A) : list A := filter p rows.

(** The number of rows that satisfy [p]. *)
Definition count (p : A -> bool) (rows : list A) : nat :=
  length (filter p rows).

(** The key given to the next row of a table. *)
Definition next_id (pk : A -> Z) (rows : list A) : Z :=
  1 + fold_right (fun r m => Z.max (pk r) m) 0 rows.

(** [db.add(row); db.commit()] *)
Definition add (row : A) (rows : list A) : list A := rows ++ [row].

(** Attribute assignment on the row fetched by primary key, committed. *)
Fixpoint update (pk : A -> Z) (k : Z) (f : A -> A) (rows : list A)
    : list A :=
  match rows with
  | [] => []
  | r :: rest =>
      if pk r =? k then f r :: rest else r :: update pk k f rest
  end.

(** [db.delete(row); db.commit()] of the row with key [k]. *)
Definition delete (pk : A -> Z) (k : Z) (rows : list A) : list A :=
  filter (fun r => negb (pk r =? k)) rows.

End Table.

(** [users.username] and [users.email] are declared [unique=True]: the
    commit of a row that repeats one of them raises [IntegrityError]. *)
Definition users_unique (us : list User.t) (u : User.t) : bool :=
  negb (existsb (fun v =>
          (User.username v =? User.username u)%string
          || (User.email v =? User.email u)%string) us).

End Query.

(** ** Responses *)

Inductive Response (A : Type) : Type :=
| Return (a : A)
| HTTPException (status_code : Z) (detail : string)
| Unhandled (exception : string).

Arguments Return {A} a.
Arguments HTTPException {A} status_code detail.
Arguments Unhandled {A} exception.

Definition HTTP_200_OK : Z := 200.
Definition HTTP_400_BAD_REQUEST : Z := 400.
Definition HTTP_401_UNAUTHORIZED : Z := 401.
Definition HTTP_403_FORBIDDEN : Z := 403.
Definition HTTP_404_NOT_FOUND : Z := 404.
Definition HTTP_500_INTERNAL_SERVER_ERROR : Z := 500.

(** The status line the transport sends for a response. *)
Definition status_of {A} (r : Response A) : Z :=
  match r with
  | Return _ => HTTP_200_OK
  | HTTPException c _ => c
  | Unhandled _ => HTTP_500_INTERNAL_SERVER_ERROR
  end.

(** The error kinds of the specification (section 7).  The handlers raise
    a conflict as HTTP 400. *)
Definition Unauthenticated {A} (r : Response A) : Prop :=
  status_of r = HTTP_401_UNAUTHORIZED.
Definition Forbidden {A} (r : Response A) : Prop :=
  status_of r = HTTP_403_FORBIDDEN.
Definition NotFound {A} (r : Response A) : Prop :=
  status_of r = HTTP_404_NOT_FOUND.
Definition Conflict {A} (r : Response A) : Prop :=
  status_of r = HTTP_400_BAD_REQUEST.

(** ** Collaborators ([auth_utils.py] is not part of the sources) *)

Class AuthUtils := {
  get_password_hash : string -> string;
  verify_password : string -> string -> bool;
  create_access_token : string -> string }.

(** ** [routers/auth.py] *)

Module auth.
Import models.

Section Handlers.
Context `{AuthUtils}.

(** [POST /api/auth/login] *)
Definition login (db : DB) (user_credentials : UserLogin.t)
    : Response Token.t * DB :=
  let user :=
    Query.first
      (fun u => (User.username u =? UserLogin.username user_credentials)%string)
      (users db) in
  match user with
  | None =>
      (HTTPException HTTP_401_UNAUTHORIZED "Invalid credentials", db)
  | Some user =>
      if negb (verify_password (UserLogin.password user_credentials)
                               (User.password_hash user))
      then (HTTPException HTTP_401_UNAUTHORIZED "Invalid credentials", db)
      else
        let access_token := create_access_token (User.username user) in
        (Return (Token.mk access_token "bearer"), db)
  end.

(** [GET /api/auth/me] *)
Definition get_current_user_info (db : DB) (current_user : User.t)
    : Response User.t * DB :=
  (Return current_user, db).

(** [GET /api/auth/users] *)
Definition get_all_users (db : DB) (current_user : User.t)
    : Response (list User.t) * DB :=
  if negb (User.role current_user =? "admin")%string
  then (HTTPException HTTP_403_FORBIDDEN "Only admins can view all users",
        db)
  else (Return (users db), db).

(** [POST /api/auth/register-request] *)
Definition create_registration_request (db : DB) (now : Z)
    (request : RegistrationRequestCreate.t)
    : Response RegistrationRequest.t * DB :=
  let existing_user :=
    Query.first
      (fun u =>
         (User.username u =? RegistrationRequestCreate.username request)%string
         || (User.email u =? RegistrationRequestCreate.email request)%string)
      (users db) in
  match existing_user with
  | Some _ =>
      (HTTPException HTTP_400_BAD_REQUEST
         "Username or email already exists", db)
  | None =>
      let existing_request :=
        Query.first
          (fun r =>
             ((RegistrationRequest.username r
                 =? RegistrationRequestCreate.username request)%string
              || (RegistrationRequest.email r
                    =? RegistrationRequestCreate.email request)%string)
             && (RegistrationRequest.status r =? "pending")%string)
          (registration_requests db) in
      match existing_request with
      | Some _ =>
          (HTTPException HTTP_400_BAD_REQUEST
             "Registration request already pending", db)
      | None =>
          let db_request :=
            RegistrationRequest.mk
              (Query.next_id RegistrationRequest.id
                 (registration_requests db))
              (RegistrationRequestCreate.username request)
              (RegistrationRequestCreate.email request)
              (RegistrationRequestCreate.name request)
              (RegistrationRequestCreate.role request)
              "pending" now None in
          (Return db_request,
           set_registration_requests
             (Query.add db_request (registration_requests db)) db)
      end
  end.

(** [GET /api/auth/register-requests] *)
Definition get_registration_requests (db : DB) (current_user : User.t)
    : Response (list RegistrationRequest.t) * DB :=
  if negb (User.role current_user =? "admin")%string
  then (HTTPException HTTP_403_FORBIDDEN
          "Only admins can view registration requests", db)
  else (Return (registration_requests db), db).

(** [PUT /api/auth/register-requests/{request_id}] *)
Definition process_registration_request (db : DB) (now : Z)
    (current_user : User.t) (request_id : Z)
    (request_update : RegistrationRequestUpdate.t)
    : Response RegistrationRequest.t * DB :=
  if negb (User.role current_user =? "admin")%string
  then (HTTPException HTTP_403_FORBIDDEN
          "Only admins can process registration requests", db)
  else
    match Query.first (fun r => RegistrationRequest.id r =? request_id)
            (registration_requests db) with
    | None =>
        (HTTPException HTTP_404_NOT_FOUND
           "Registration request not found", db)
    | Some db_request =>
        if negb (RegistrationRequest.status db_request =? "pending")%string
        then (HTTPException HTTP_400_BAD_REQUEST
                "Request has already been processed", db)
        else
          let status := RegistrationRequestUpdate.status request_update in
          let db_request' :=
            RegistrationRequest.set_status status (Some now) db_request in
          let requests' :=
            Query.update RegistrationRequest.id request_id
              (RegistrationRequest.set_status status (Some now))
              (registration_requests db) in
          if (status =? "approved")%string then
            let default_password :=
              (RegistrationRequest.username db_request ++ "123")%string in
            let new_user :=
              User.mk (Query.next_id User.id (users db))
                (RegistrationRequest.username db_request)
                (RegistrationRequest.email db_request)
                (get_password_hash default_password)
                (RegistrationRequest.name db_request)
                (RegistrationRequest.role db_request)
                now in
            if Query.users_unique (users db) new_user
            then (Return db_request',
                  set_users (Query.add new_user (users db))
                    (set_registration_requests requests' db))
            else (Unhandled "IntegrityError", db)
          else
            (Return db_request', set_registration_requests requests' db)
    end.

End Handlers.
End auth.

(** ** [routers/students.py] *)

Module students.
Import models.

(** [GET /api/students/assignments] *)
Definition get_student_assignments (db : DB) (current_user : User.t)
    : Response (list Assignment.t) * DB :=
  if negb (User.role current_user =? "student")%string
  then (HTTPException HTTP_403_FORBIDDEN
          "Only students can access this endpoint", db)
  else (Return (assignments db), db).

(** [POST /api/students/assignments/{assignment_id}/submit] *)
Definition submit_assignment (db : DB) (now : Z) (current_user : User.t)
    (assignment_id : Z) (submission : AssignmentSubmissionCreate.t)
    : Response AssignmentSubmission.t * DB :=
  if negb (User.role current_user =? "student")%string
  then (HTTPException HTTP_403_FORBIDDEN
          "Only students can submit assignments", db)
  else
    match Query.first (fun a => Assignment.id a =? assignment_id)
            (assignments db) with
    | None => (HTTPException HTTP_404_NOT_FOUND "Assignment not found", db)
    | Some _ =>
        let existing_submission :=
          Query.first
            (fun s =>
               (AssignmentSubmission.assignment_id s =? assignment_id)
               && (AssignmentSubmission.student_id s =? User.id current_user))
            (assignment_submissions db) in
        match existing_submission with
        | Some _ =>
            (HTTPException HTTP_400_BAD_REQUEST
               "Assignment already submitted", db)
        | None =>
            let db_submission :=
              AssignmentSubmission.mk
                (Query.next_id AssignmentSubmission.id
                   (assignment_submissions db))
                assignment_id
                (User.id current_user)
                (AssignmentSubmissionCreate.content submission)
                now None None in
            (Return db_submission,
             set_assignment_submissions
               (Query.add db_submission (assignment_submissions db)) db)
        end
    end.

(** [GET /api/students/submissions] *)
Definition get_student_submissions (db : DB) (current_user : User.t)
    : Response (list AssignmentSubmission.t) * DB :=
  if negb (User.role current_user =? "student")%string
  then (HTTPException HTTP_403_FORBIDDEN
          "Only students can access this endpoint", db)
  else
    (Return
       (Query.all
          (fun s => AssignmentSubmission.student_id s =? User.id current_user)
          (assignment_submissions db)),
     db).

End students.

(** ** [routers/teachers.py] *)

Module teachers.
Import models.

(** [POST /api/teachers/assignments] *)
Definition create_assignment (db : DB) (now : Z) (current_user : User.t)
    (assignment : AssignmentCreate.t) : Response Assignment.t * DB :=
  if negb (str_in (User.role current_user) ["teacher"; "admin"])
  then (HTTPException HTTP_403_FORBIDDEN
          "Only teachers and admins can create assignments", db)
  else
    let db_assignment :=
      Assignment.mk (Query.next_id Assignment.id (assignments db))
        (AssignmentCreate.title assignment)
        (AssignmentCreate.description assignment)
        (AssignmentCreate.subject assignment)
        (AssignmentCreate.class_name assignment)
        (AssignmentCreate.due_date assignment)
        (User.id current_user) now in
    (Return db_assignment,
     set_assignments (Query.add db_assignment (assignments db)) db).

(** [GET /api/teachers/assignments] *)
Definition get_teacher_assignments (db : DB) (current_user : User.t)
    : Response (list Assignment.t) * DB :=
  if negb (str_in (User.role current_user) ["teacher"; "admin"])
  then (HTTPException HTTP_403_FORBIDDEN
          "Only teachers and admins can access this endpoint", db)
  else if (User.role current_user =? "admin")%string
  then (Return (assignments db), db)
  else
    (Return
       (Query.all
          (fun a => Assignment.created_by_id a =? User.id current_user)
          (assignments db)),
     db).

(** [GET /api/teachers/assignments/{assignment_id}/submissions] *)
Definition get_assignment_submissions (db : DB) (current_user : User.t)
    (assignment_id : Z) : Response (list AssignmentSubmission.t) * DB :=
  if negb (str_in (User.role current_user) ["teacher"; "admin"])
  then (HTTPException HTTP_403_FORBIDDEN
          "Only teachers and admins can view submissions", db)
  else
    match Query.first (fun a => Assignment.id a =? assignment_id)
            (assignments db) with
    | None => (HTTPException HTTP_404_NOT_FOUND "Assignment not found", db)
    | Some assignment =>
        if (User.role current_user =? "teacher")%string
           && negb (Assignment.created_by_id assignment
                      =? User.id current_user)
        then (HTTPException HTTP_403_FORBIDDEN
                "You can only view submissions for your own assignments", db)
        else
          (Return
             (Query.all
                (fun s => AssignmentSubmission.assignment_id s
                            =? assignment_id)
                (assignment_submissions db)),
           db)
    end.

(** [PUT /api/teachers/submissions/{submission_id}/grade] *)
Definition grade_submission (db : DB) (current_user : User.t)
    (submission_id : Z) (grade_data : AssignmentSubmissionGrade.t)
    : Response AssignmentSubmission.t * DB :=
  if negb (str_in (User.role current_user) ["teacher"; "admin"])
  then (HTTPException HTTP_403_FORBIDDEN
          "Only teachers and admins can grade submissions", db)
  else
    match Query.first (fun s => AssignmentSubmission.id s =? submission_id)
            (assignment_submissions db) with
    | None => (HTTPException HTTP_404_NOT_FOUND "Submission not found", db)
    | Some submission =>
        let graded :=
          AssignmentSubmission.set_grade
            (Some (AssignmentSubmissionGrade.grade grade_data))
            (AssignmentSubmissionGrade.feedback grade_data) in
        let commit :=
          (Return (graded submission),
           set_assignment_submissions
             (Query.update AssignmentSubmission.id submission_id graded
                (assignment_submissions db)) db) in
        if (User.role current_user =? "teacher")%string then
          match Query.first
                  (fun a => Assignment.id a
                              =? AssignmentSubmission.assignment_id submission)
                  (assignments db) with
          | None => (Unhandled "AttributeError", db)
          | Some assignment =>
              if negb (Assignment.created_by_id assignment
                         =? User.id current_user)
              then (HTTPException HTTP_403_FORBIDDEN
                      "You can only grade submissions for your own assignments",
                    db)
              else commit
          end
        else commit
    end.

End teachers.

(** ** [routers/attendance.py] *)

Module attendance.

(** [GET /api/attendance/] *)
Definition get_attendance (db : DB) (current_user : User.t)
    : Response string * DB :=
  (Return "Attendance feature coming soon"%string, db).

(** [POST /api/attendance/] *)
Definition mark_attendance (db : DB) (current_user : User.t)
    : Response string * DB :=
  (Return "Attendance marking feature coming soon"%string, db).

End attendance.

(** ** [routers/assignments.py] *)

Module assignments.
Import models.

(** [POST /api/assignments/assignments/] *)
Definition create_assignment (db : DB) (now : Z) (current_user : User.t)
    (assignment : AssignmentCreate.t) : Response Assignment.t * DB :=
  if negb (str_in (User.role current_user) ["teacher"; "admin"])
  then (HTTPException HTTP_403_FORBIDDEN
          "Only teachers and admins can create assignments", db)
  else
    let db_assignment :=
      Assignment.mk (Query.next_id Assignment.id (assignments db))
        (AssignmentCreate.title assignment)
        (AssignmentCreate.description assignment)
        (AssignmentCreate.subject assignment)
        (AssignmentCreate.class_name assignment)
        (AssignmentCreate.due_date assignment)
        (User.id current_user) now in
    (Return db_assignment,
     set_assignments (Query.add db_assignment (assignments db)) db).

(** [GET /api/assignments/assignments/] *)
Definition get_assignments (db : DB) (current_user : User.t)
    (class_name : option string) (subject : option string)
    : Response (list Assignment.t) * DB :=
  let query := assignments db in
  let query :=
    if (User.role current_user =? "student")%string then
      match class_name with
      | Some c =>
          if truthy c then
            Query.all
              (fun a => (Assignment.class_name a =? c)%string
                        || (Assignment.class_name a =? "all")%string)
              query
          else query
      | None => query
      end
    else if (User.role current_user =? "teacher")%string then
      Query.all
        (fun a => Assignment.created_by_id a =? User.id current_user) query
    else query in
  let query :=
    match subject with
    | Some s =>
        if truthy s
        then Query.all (fun a => (Assignment.subject a =? s)%string) query
        else query
    | None => query
    end in
  (Return query, db).

(** [GET /api/assignments/assignments/{assignment_id}] *)
Definition get_assignment (db : DB) (current_user : User.t)
    (assignment_id : Z) : Response Assignment.t * DB :=
  match Query.first (fun a => Assignment.id a =? assignment_id)
          (assignments db) with
  | None => (HTTPException HTTP_404_NOT_FOUND "Assignment not found", db)
  | Some assignment => (Return assignment, db)
  end.

(** The fields [update_assignment] overwrites: every field of the body. *)
Definition setattrs (assignment_update : AssignmentCreate.t)
    (a : Assignment.t) : Assignment.t :=
  Assignment.mk (Assignment.id a)
    (AssignmentCreate.title assignment_update)
    (AssignmentCreate.description assignment_update)
    (AssignmentCreate.subject assignment_update)
    (AssignmentCreate.class_name assignment_update)
    (AssignmentCreate.due_date assignment_update)
    (Assignment.created_by_id a) (Assignment.created_at a).

(** [PUT /api/assignments/assignments/{assignment_id}] *)
Definition update_assignment (db : DB) (current_user : User.t)
    (assignment_id : Z) (assignment_update : AssignmentCreate.t)
    : Response Assignment.t * DB :=
  match Query.first (fun a => Assignment.id a =? assignment_id)
          (assignments db) with
  | None => (HTTPException HTTP_404_NOT_FOUND "Assignment not found", db)
  | Some assignment =>
      if negb (Assignment.created_by_id assignment =? User.id current_user)
         && negb (User.role current_user =? "admin")%string
      then (HTTPException HTTP_403_FORBIDDEN
              "You can only update your own assignments", db)
      else
        (Return (setattrs assignment_update assignment),
         set_assignments
           (Query.update Assignment.id assignment_id
              (setattrs assignment_update) (assignments db)) db)
  end.

(** [DELETE /api/assignments/assignments/{assignment_id}].
    [Assignment.submissions] is declared without a delete cascade and
    [assignment_submissions.assignment_id] is [nullable=False]: deleting
    an assignment that has submissions makes the session detach them by
    nulling that column, which the store refuses. *)
Definition delete_assignment (db : DB) (current_user : User.t)
    (assignment_id : Z) : Response string * DB :=
  match Query.first (fun a => Assignment.id a =? assignment_id)
          (assignments db) with
  | None => (HTTPException HTTP_404_NOT_FOUND "Assignment not found", db)
  | Some assignment =>
      if negb (Assignment.created_by_id assignment =? User.id current_user)
         && negb (User.role current_user =? "admin")%string
      then (HTTPException HTTP_403_FORBIDDEN
              "You can only delete your own assignments", db)
      else if existsb
                (fun s => AssignmentSubmission.assignment_id s
                            =? assignment_id)
                (assignment_submissions db)
      then (Unhandled "IntegrityError", db)
      else
        (Return "Assignment deleted successfully"%string,
         set_assignments
           (Query.delete Assignment.id assignment_id (assignments db))
           db)
  end.

(** [POST /api/assignments/assignments/{assignment_id}/submissions].
    Unlike [students.submit_assignment] this handler reads
    [submission.submission_text] and [submission.file_path]. *)
Definition submit_assignment (db : DB) (current_user : User.t)
    (assignment_id : Z) (submission : AssignmentSubmissionCreate.t)
    : Response AssignmentSubmission.t * DB :=
  if negb (User.role current_user =? "student")%string
  then (HTTPException HTTP_403_FORBIDDEN
          "Only students can submit assignments", db)
  else
    match Query.first (fun a => Assignment.id a =? assignment_id)
            (assignments db) with
    | None => (HTTPException HTTP_404_NOT_FOUND "Assignment not found", db)
    | Some _ =>
        let existing_submission :=
          Query.first
            (fun s =>
               (AssignmentSubmission.assignment_id s =? assignment_id)
               && (AssignmentSubmission.student_id s =? User.id current_user))
            (assignment_submissions db) in
        match existing_submission with
        | Some _ =>
            (HTTPException HTTP_400_BAD_REQUEST
               "Assignment already submitted", db)
        | None =>
            (* [submission_text=submission.submission_text]: an
               [AssignmentSubmissionCreate] has [content] and
               [assignment_id] only, so building the row raises. *)
            (Unhandled "AttributeError", db)
        end
    end.

(** [GET /api/assignments/assignments/{assignment_id}/submissions] *)
Definition get_assignment_submissions (db : DB) (current_user : User.t)
    (assignment_id : Z) : Response (list AssignmentSubmission.t) * DB :=
  if negb (str_in (User.role current_user) ["teacher"; "admin"])
  then (HTTPException HTTP_403_FORBIDDEN
          "Only teachers and admins can view submissions", db)
  else
    (Return
       (Query.all
          (fun s => AssignmentSubmission.assignment_id s =? assignment_id)
          (assignment_submissions db)),
     db).

End assignments.

(** ** [routers/messages.py] *)

Module messages.
Import models.

(** [POST /api/messages/messages/].  The first statement compares
    [User.id] with [message.to_user_id]; a [MessageCreate] has [subject],
    [content] and [receiver_id] only, so it raises before any query. *)
Definition send_message (db : DB) (current_user : User.t)
    (message : MessageCreate.t) : Response Message.t * DB :=
  (Unhandled "AttributeError", db).

(** [GET /api/messages/messages/].  The query is built on
    [Message.to_user_id], which the class [Message] does not have. *)
Definition get_messages (db : DB) (current_user : User.t)
    (message_type : option string) (unread_only : bool)
    : Response (list Message.t) * DB :=
  (Unhandled "AttributeError", db).

(** [GET /api/messages/messages/sent].  The query is built on
    [Message.from_user_id]. *)
Definition get_sent_messages (db : DB) (current_user : User.t)
    : Response (list Message.t) * DB :=
  (Unhandled "AttributeError", db).

(** [GET /api/messages/messages/{message_id}].  The lookup is by
    [Message.id]; the access check then reads [message.from_user_id] of
    the row found. *)
Definition get_message (db : DB) (current_user : User.t) (message_id : Z)
    : Response Message.t * DB :=
  match Query.first (fun m => Message.id m =? message_id) (messages db) with
  | None => (HTTPException HTTP_404_NOT_FOUND "Message not found", db)
  | Some message => (Unhandled "AttributeError", db)
  end.

(** [PUT /api/messages/messages/{message_id}/read].  The check reads
    [message.to_user_id] of the row found. *)
Definition mark_message_as_read (db : DB) (current_user : User.t)
    (message_id : Z) : Response string * DB :=
  match Query.first (fun m => Message.id m =? message_id) (messages db) with
  | None => (HTTPException HTTP_404_NOT_FOUND "Message not found", db)
  | Some message => (Unhandled "AttributeError", db)
  end.

(** [GET /api/messages/messages/unread/count].  The query is built on
    [Message.to_user_id]. *)
Definition get_unread_count (db : DB) (current_user : User.t)
    : Response nat * DB :=
  (Unhandled "AttributeError", db).

(** [GET /api/messages/messages/teachers], the handler as it is declared.
    The router declares [GET /{message_id}] before it, so a request on
    the path [/teachers] is taken by [get_message]'s route first. *)
Definition get_teachers (db : DB) (current_user : User.t)
    : Response (list (Z * string * string)) * DB :=
  if negb (str_in (User.role current_user) ["student"; "parent"; "admin"])
  then (HTTPException HTTP_403_FORBIDDEN "Access denied", db)
  else
    let teachers :=
      Query.all (fun u => (User.role u =? "teacher")%string) (users db) in
    (Return (map (fun t => (User.id t, User.name t, User.username t))
               teachers),
     db).

(** [POST /api/messages/messages/send-to-teacher].  Past the role gate
    the handler reads [message.to_user_id] of the [MessageCreate]. *)
Definition send_message_to_teacher (db : DB) (current_user : User.t)
    (message : MessageCreate.t) : Response Message.t * DB :=
  if negb (str_in (User.role current_user) ["student"; "parent"])
  then (HTTPException HTTP_403_FORBIDDEN
          "Only students and parents can send messages to teachers", db)
  else
    (* [if message.to_user_id:] is the first statement past the gate. *)
    (Unhandled "AttributeError", db).

End messages.

(** ** [routers/registration_requests.py] *)

Module registration_requests.
Import models.

(** [POST /api/registration-requests/registration-requests/] *)
Definition create_registration_request (db : DB) (now : Z)
    (request : RegistrationRequestCreate.t)
    : Response RegistrationRequest.t * DB :=
  let existing_request :=
    Query.first
      (fun r => (RegistrationRequest.email r
                   =? RegistrationRequestCreate.email request)%string)
      (registration_requests db) in
  match existing_request with
  | Some _ =>
      (HTTPException HTTP_400_BAD_REQUEST
         "Registration request with this email already exists", db)
  | None =>
      let db_request :=
        RegistrationRequest.mk
          (Query.next_id RegistrationRequest.id (registration_requests db))
          (RegistrationRequestCreate.username request)
          (RegistrationRequestCreate.email request)
          (RegistrationRequestCreate.name request)
          (RegistrationRequestCreate.role request)
          "pending" now None in
      (Return db_request,
       set_registration_requests
         (Query.add db_request (registration_requests db)) db)
  end.

(** [GET /api/registration-requests/registration-requests/] *)
Definition get_registration_requests (db : DB) (current_user : User.t)
    (status_filter : option string)
    : Response (list RegistrationRequest.t) * DB :=
  if negb (User.role current_user =? "admin")%string
  then (HTTPException HTTP_403_FORBIDDEN
          "Only admins can view registration requests", db)
  else
    (* The query is ordered by [RegistrationRequest.created_at]; the class
       has [requested_at] and [processed_at], and no [created_at]. *)
    (Unhandled "AttributeError", db).

(** [GET /api/registration-requests/registration-requests/{request_id}] *)
Definition get_registration_request (db : DB) (current_user : User.t)
    (request_id : Z) : Response RegistrationRequest.t * DB :=
  if negb (User.role current_user =? "admin")%string
  then (HTTPException HTTP_403_FORBIDDEN
          "Only admins can view registration requests", db)
  else
    match Query.first (fun r => RegistrationRequest.id r =? request_id)
            (registration_requests db) with
    | None =>
        (HTTPException HTTP_404_NOT_FOUND "Registration request not found",
         db)
    | Some request => (Return request, db)
    end.

(** The loop of [approve_registration_request]:
    [while taken(username): username = f"{original_username}{counter}";
     counter += 1], run for at most [fuel] rounds of its body. *)
Fixpoint ensure_unique_username (fuel : nat) (taken : string -> bool)
    (original_username username : string) (counter : nat) : option string :=
  if taken username then
    match fuel with
    | O => None
    | S fuel' =>
        ensure_unique_username fuel' taken original_username
          (original_username ++ str_of_nat counter)%string (counter + 1)%nat
    end
  else Some username.

(** [db.query(User).filter(User.username == username).first()] as a test. *)
Definition username_taken (db : DB) (username : string) : bool :=
  match Query.first (fun u => (User.username u =? username)%string)
          (users db) with
  | Some _ => true
  | None => false
  end.

(** What [approve_registration_request] returns from its last statement. *)
Record Approved := mkApproved {
  message : string;
  username : string;
  default_password : string }.

Section Handlers.
Context `{AuthUtils}.

(** [PUT /api/registration-requests/registration-requests/{request_id}/approve].
    The loop is given one round per stored user, which
    [ensure_unique_username_terminates] shows to be enough.  The [User] is
    then built from [username], [request.email], the hash of the default
    password and [request.first_name], in that order; a
    [RegistrationRequest] has no [first_name], so the handler raises
    before [db.add] and before the status is set. *)
Definition approve_registration_request (db : DB) (current_user : User.t)
    (request_id : Z) : Response Approved * DB :=
  if negb (User.role current_user =? "admin")%string
  then (HTTPException HTTP_403_FORBIDDEN
          "Only admins can approve registration requests", db)
  else
    match Query.first (fun r => RegistrationRequest.id r =? request_id)
            (registration_requests db) with
    | None =>
        (HTTPException HTTP_404_NOT_FOUND
           "Registration request not found", db)
    | Some request =>
        if negb (RegistrationRequest.status request =? "pending")%string
        then (HTTPException HTTP_400_BAD_REQUEST
                "Request has already been processed", db)
        else
          let original_username :=
            split_head "@"%char (RegistrationRequest.email request) in
          match ensure_unique_username (length (users db))
                  (username_taken db) original_username
                  original_username 1%nat with
          | None => (Unhandled "loop out of fuel", db)
          | Some username =>
              let default_password := "student123"%string in
              let password_hash := get_password_hash default_password in
              (Unhandled "AttributeError", db)
          end
    end.

End Handlers.

(** [PUT /api/registration-requests/registration-requests/{request_id}/reject]
 *)
Definition reject_registration_request (db : DB) (current_user : User.t)
    (request_id : Z) : Response string * DB :=
  if negb (User.role current_user =? "admin")%string
  then (HTTPException HTTP_403_FORBIDDEN
          "Only admins can reject registration requests", db)
  else
    match Query.first (fun r => RegistrationRequest.id r =? request_id)
            (registration_requests db) with
    | None =>
        (HTTPException HTTP_404_NOT_FOUND "Registration request not found",
         db)
    | Some request =>
        if negb (RegistrationRequest.status request =? "pending")%string
        then (HTTPException HTTP_400_BAD_REQUEST
                "Request has already been processed", db)
        else
          (Return "Registration request rejected"%string,
           set_registration_requests
             (Query.update RegistrationRequest.id request_id
                (fun r => RegistrationRequest.set_status "rejected"
                            (RegistrationRequest.processed_at r) r)
                (registration_requests db)) db)
    end.

(** [DELETE /api/registration-requests/registration-requests/{request_id}] *)
Definition delete_registration_request (db : DB) (current_user : User.t)
    (request_id : Z) : Response string * DB :=
  if negb (User.role current_user =? "admin")%string
  then (HTTPException HTTP_403_FORBIDDEN
          "Only admins can delete registration requests", db)
  else
    match Query.first (fun r => RegistrationRequest.id r =? request_id)
            (registration_requests db) with
    | None =>
        (HTTPException HTTP_404_NOT_FOUND "Registration request not found",
         db)
    | Some _ =>
        (Return "Registration request deleted successfully"%string,
         set_registration_requests
           (Query.delete RegistrationRequest.id request_id
              (registration_requests db)) db)
    end.

End registration_requests.

(** ** [main.py] *)

Module main.

Section Startup.
Context `{AuthUtils}.

(** [ensure_user], the helper of [seed_default_users]. *)
Definition ensure_user (db : DB) (now : Z)
    (username email password name role : string) : Response unit * DB :=
  match Query.first (fun u => (User.username u =? username)%string)
          (users db) with
  | Some _ => (Return tt, db)
  | None =>
      let user :=
        User.mk (Query.next_id User.id (users db)) username email
          (get_password_hash password) name role now in
      if Query.users_unique (users db) user
      then (Return tt, set_users (Query.add user (users db)) db)
      else (Unhandled "IntegrityError", db)
  end.

(** Each [ensure_user] commits on its own; an exception ends the seeding
    and leaves what the earlier calls committed. *)
Definition and_then (r : Response unit * DB)
    (k : DB -> Response unit * DB) : Response unit * DB :=
  match r with
  | (Return _, db) => k db
  | failed => failed
  end.

(** The startup hook. *)
Definition seed_default_users (db : DB) (now : Z) : Response unit * DB :=
  and_then
    (ensure_user db now "admin" "admin@school.com" "admin123"
       "Administrator" "admin")
    (fun db =>
  and_then
    (ensure_user db now "teacher1" "teacher1@school.com" "teacher123"
       "Teacher One" "teacher")
    (fun db =>
  and_then
    (ensure_user db now "parent1" "parent1@school.com" "parent123"
       "Parent One" "parent")
    (fun db =>
    ensure_user db now "student1" "student1@school.com" "student123"
       "Student One" "student"))).
End Startup.

(** [GET /] *)
Definition root (db : DB) : Response string * DB :=
  (Return "School Management System API is running"%string, db).

(** [GET /api/health] *)
Definition health_check (db : DB) : Response string * DB :=
  (Return "healthy"%string, db).

End main.

(** ** The application: every route of [main.py]'s routers *)

Import models.

(** A request on a route that depends on [get_current_user]. *)
Inductive Action : Type :=
| auth_me
| auth_users
| auth_register_requests
| auth_process_registration_request
    (request_id : Z) (request_update : RegistrationRequestUpdate.t)
| students_assignments
| students_submit
    (assignment_id : Z) (submission : AssignmentSubmissionCreate.t)
| students_submissions
| teachers_create_assignment (assignment : AssignmentCreate.t)
| teachers_assignments
| teachers_assignment_submissions (assignment_id : Z)
| teachers_grade_submission
    (submission_id : Z) (grade_data : AssignmentSubmissionGrade.t)
| attendance_get
| attendance_mark
| assignments_create (assignment : AssignmentCreate.t)
| assignments_list (class_name subject : option string)
| assignments_get (assignment_id : Z)
| assignments_update
    (assignment_id : Z) (assignment_update : AssignmentCreate.t)
| assignments_delete (assignment_id : Z)
| assignments_submit
    (assignment_id : Z) (submission : AssignmentSubmissionCreate.t)
| assignments_submissions (assignment_id : Z)
| messages_send (message : MessageCreate.t)
| messages_inbox (message_type : option string) (unread_only : bool)
| messages_sent
| messages_get (message_id : Z)
| messages_mark_read (message_id : Z)
| messages_unread_count
| messages_teachers
| messages_send_to_teacher (message : MessageCreate.t)
| registration_requests_list (status_filter : option string)
| registration_requests_get (request_id : Z)
| registration_requests_approve (request_id : Z)
| registration_requests_reject (request_id : Z)
| registration_requests_delete (request_id : Z).

(** A request on a route without authentication, and the startup hook. *)
Inductive PublicAction : Type :=
| startup
| main_root
| main_health
| auth_login (user_credentials : UserLogin.t)
| auth_register_request (request : RegistrationRequestCreate.t)
| registration_requests_create (request : RegistrationRequestCreate.t).

(** The status line of a handled request and the store it leaves. *)
Definition answer {A} (r : Response A * DB) : Z * DB :=
  (status_of (fst r), snd r).

Section Application.
Context `{AuthUtils}.

Definition handle (db : DB) (now : Z) (current_user : User.t) (a : Action)
    : Z * DB :=
  match a with
  | auth_me => answer (auth.get_current_user_info db current_user)
  | auth_users => answer (auth.get_all_users db current_user)
  | auth_register_requests =>
      answer (auth.get_registration_requests db current_user)
  | auth_process_registration_request request_id request_update =>
      answer (auth.process_registration_request db now current_user
                request_id request_update)
  | students_assignments =>
      answer (students.get_student_assignments db current_user)
  | students_submit assignment_id submission =>
      answer (students.submit_assignment db now current_user assignment_id
                submission)
  | students_submissions =>
      answer (students.get_student_submissions db current_user)
  | teachers_create_assignment assignment =>
      answer (teachers.create_assignment db now current_user assignment)
  | teachers_assignments =>
      answer (teachers.get_teacher_assignments db current_user)
  | teachers_assignment_submissions assignment_id =>
      answer (teachers.get_assignment_submissions db current_user
                assignment_id)
  | teachers_grade_submission submission_id grade_data =>
      answer (teachers.grade_submission db current_user submission_id
                grade_data)
  | attendance_get => answer (attendance.get_attendance db current_user)
  | attendance_mark => answer (attendance.mark_attendance db current_user)
  | assignments_create assignment =>
      answer (assignments.create_assignment db now current_user assignment)
  | assignments_list class_name subject =>
      answer (assignments.get_assignments db current_user class_name subject)
  | assignments_get assignment_id =>
      answer (assignments.get_assignment db current_user assignment_id)
  | assignments_update assignment_id assignment_update =>
      answer (assignments.update_assignment db current_user assignment_id
                assignment_update)
  | assignments_delete assignment_id =>
      answer (assignments.delete_assignment db current_user assignment_id)
  | assignments_submit assignment_id submission =>
      answer (assignments.submit_assignment db current_user assignment_id
                submission)
  | assignments_submissions assignment_id =>
      answer (assignments.get_assignment_submissions db current_user
                assignment_id)
  | messages_send message =>
      answer (messages.send_message db current_user message)
  | messages_inbox message_type unread_only =>
      answer (messages.get_messages db current_user message_type unread_only)
  | messages_sent => answer (messages.get_sent_messages db current_user)
  | messages_get message_id =>
      answer (messages.get_message db current_user message_id)
  | messages_mark_read message_id =>
      answer (messages.mark_message_as_read db current_user message_id)
  | messages_unread_count =>
      answer (messages.get_unread_count db current_user)
  | messages_teachers => answer (messages.get_teachers db current_user)
  | messages_send_to_teacher message =>
      answer (messages.send_message_to_teacher db current_user message)
  | registration_requests_list status_filter =>
      answer (registration_requests.get_registration_requests db
                current_user status_filter)
  | registration_requests_get request_id =>
      answer (registration_requests.get_registration_request db current_user
                request_id)
  | registration_requests_approve request_id =>
      answer (registration_requests.approve_registration_request db
                current_user request_id)
  | registration_requests_reject request_id =>
      answer (registration_requests.reject_registration_request db
                current_user request_id)
  | registration_requests_delete request_id =>
      answer (registration_requests.delete_registration_request db
                current_user request_id)
  end.

Definition handle_public (db : DB) (now : Z) (a : PublicAction) : Z * DB :=
  match a with
  | startup => answer (main.seed_default_users db now)
  | main_root => answer (main.root db)
  | main_health => answer (main.health_check db)
  | auth_login user_credentials => answer (auth.login db user_credentials)
  | auth_register_request request =>
      answer (auth.create_registration_request db now request)
  | registration_requests_create request =>
      answer (registration_requests.create_registration_request db now
                request)
  end.

(** One request served: the caller of an authenticated route is a stored
    user (the token names one). *)
Inductive step (db : DB) : DB -> Prop :=
| step_public (now : Z) (a : PublicAction) :
    step db (snd (handle_public db now a))
| step_user (now : Z) (current_user : User.t) (a : Action) :
    In current_user (users db) ->
    step db (snd (handle db now current_user a)).

(** The stores the application can be in, from the empty one. *)
Inductive reachable : DB -> Prop :=
| reachable_empty : reachable empty_db
| reachable_step (db db' : DB) :
    reachable db -> step db db' -> reachable db'.

(** The authorization gate: the request is not refused as Forbidden. *)
Definition allowed (db : DB) (now : Z) (current_user : User.t) (a : Action)
    : bool :=
  negb (fst (handle db now current_user a) =? HTTP_403_FORBIDDEN).

End Application.

(** ** Store invariants *)

(** What the store guarantees of its tables after any number of requests:
    primary keys identify rows, [users.username] and [users.email] are
    unique, and no student has two submissions for one assignment. *)
Definition submitted_by (assignment_id student_id : Z)
    (s : AssignmentSubmission.t) : bool :=
  (AssignmentSubmission.assignment_id s =? assignment_id)
  && (AssignmentSubmission.student_id s =? student_id).

Record consistent (db : DB) : Prop := mkConsistent {
  users_pk : NoDup (map User.id (users db));
  users_username : NoDup (map User.username (users db));
  users_email : NoDup (map User.email (users db));
  assignments_pk : NoDup (map Assignment.id (assignments db));
  assignment_submissions_pk :
    NoDup (map AssignmentSubmission.id (assignment_submissions db));
  messages_pk : NoDup (map Message.id (messages db));
  registration_requests_pk :
    NoDup (map RegistrationRequest.id (registration_requests db));
  one_submission :
    forall a s,
      (Query.count (submitted_by a s) (assignment_submissions db) <= 1)%nat }.

(** ** Test doubles and sample data *)

(** A transparent stand-in for [auth_utils]. *)
Definition plain_auth_utils : AuthUtils := {|
  get_password_hash := fun password => ("hash:" ++ password)%string;
  verify_password :=
    fun password hash => (hash =? "hash:" ++ password)%string;
  create_access_token := fun sub => ("token:" ++ sub)%string |}.

(** The store after startup: the four demo accounts. *)
Definition seeded_db : DB :=
  snd (handle_public (H := plain_auth_utils) empty_db 0 startup).

Definition admin_user : User.t :=
  User.mk 1 "admin" "admin@school.com" "hash:admin123" "Administrator"
    "admin" 0.
Definition teacher1_user : User.t :=
  User.mk 2 "teacher1" "teacher1@school.com" "hash:teacher123" "Teacher One"
    "teacher" 0.
Definition parent1_user : User.t :=
  User.mk 3 "parent1" "parent1@school.com" "hash:parent123" "Parent One"
    "parent" 0.
Definition student1_user : User.t :=
  User.mk 4 "student1" "student1@school.com" "hash:student123" "Student One"
    "student" 0.

(** A run of the application from there, request by request: [teacher1]
    creates HW1, *)
Definition hw1 : AssignmentCreate.t :=
  AssignmentCreate.mk "HW1" None "Math" "10A" 100.

Definition hw1_db : DB :=
  snd (handle (H := plain_auth_utils) seeded_db 1 teacher1_user
         (teachers_create_assignment hw1)).

(** [student1] hands in HW1, *)
Definition answer1 : AssignmentSubmissionCreate.t :=
  AssignmentSubmissionCreate.mk "my answer" 1.

Definition submitted_db : DB :=
  snd (handle (H := plain_auth_utils) hw1_db 3 student1_user
         (students_submit 1 answer1)).

(** and john asks for an account. *)
Definition john_request : RegistrationRequestCreate.t :=
  RegistrationRequestCreate.mk "john" "john@a.com" "John A" "student".

Definition john_pending_db : DB :=
  snd (handle_public (H := plain_auth_utils) submitted_db 4
         (auth_register_request john_request)).

(** The admin approves john on [/api/auth/register-requests/1]; a second
    john, with another email, then asks for an account on
    [/api/registration-requests/]. *)
Definition john_approved_db : DB :=
  snd (handle (H := plain_auth_utils) john_pending_db 5 admin_user
         (auth_process_registration_request 1
            (RegistrationRequestUpdate.mk "approved"))).

Definition john_b_request : RegistrationRequestCreate.t :=
  RegistrationRequestCreate.mk "john" "john@b.com" "John B" "student".

Definition two_johns_db : DB :=
  snd (handle_public (H := plain_auth_utils) john_approved_db 6
         (registration_requests_create john_b_request)).

(** The body of a message to [teacher1] (id 2), and a store whose table
    of messages holds that message from [student1] (id 4): a row put
    there by hand, since no request of the run stores one. *)
Definition hello : MessageCreate.t := MessageCreate.mk "Hi" "Hello" 2.

Definition one_message_db : DB :=
  set_messages [Message.mk 1 4 2 "Hi" "Hello" 2 false] hw1_db.

(** ** The specification's words *)

(** The usernames tried on approval: base, base1, base2, ... *)
Definition candidate (base : string) (k : nat) : string :=
  match k with
  | O => base
  | S _ => (base ++ str_of_nat k)%string
  end.

(** The subject filter: of the subject asked for, when one is. *)
Definition subject_matches (subject : option string) (a : Assignment.t)
    : bool :=
  match subject with
  | Some s => if truthy s then (Assignment.subject a =? s)%string else true
  | None => true
  end.

(** What a student sees of the assignments: those of the class asked for
    or of class "all", with the subject filter on top. *)
Definition student_visible (class_name : string) (subject : option string)
    (a : Assignment.t) : bool :=
  ((Assignment.class_name a =? class_name)%string
   || (Assignment.class_name a =? "all")%string)
  && subject_matches subject a.

(** The routes kept for students, or for students and parents. *)
Definition student_side (a : Action) : bool :=
  match a with
  | students_assignments
  | students_submit _ _
  | students_submissions
  | assignments_submit _ _
  | messages_send_to_teacher _ => true
  | _ => false
  end.

(** The row a first submission stores. *)
Definition new_submission (db : DB) (now : Z) (student : User.t)
    (assignment_id : Z) (submission : AssignmentSubmissionCreate.t)
    : AssignmentSubmission.t :=
  AssignmentSubmission.mk
    (Query.next_id AssignmentSubmission.id (assignment_submissions db))
    assignment_id (User.id student)
    (AssignmentSubmissionCreate.content submission) now None None.

(** The row an intake stores. *)
Definition new_request (db : DB) (now : Z)
    (request : RegistrationRequestCreate.t) : RegistrationRequest.t :=
  RegistrationRequest.mk
    (Query.next_id RegistrationRequest.id (registration_requests db))
    (RegistrationRequestCreate.username request)
    (RegistrationRequestCreate.email request)
    (RegistrationRequestCreate.name request)
    (RegistrationRequestCreate.role request)
    "pending" now None.

(** The candidate's username or email already belongs to a user. *)
Definition known_user (db : DB) (request : RegistrationRequestCreate.t)
    : Prop :=
  exists u, In u (users db)
    /\ (User.username u = RegistrationRequestCreate.username request
        \/ User.email u = RegistrationRequestCreate.email request).

(** A pending request already carries the candidate's username or email. *)
Definition pending_request (db : DB) (request : RegistrationRequestCreate.t)
    : Prop :=
  exists r, In r (registration_requests db)
    /\ RegistrationRequest.status r = "pending"%string
    /\ (RegistrationRequest.username r
          = RegistrationRequestCreate.username request
        \/ RegistrationRequest.email r
             = RegistrationRequestCreate.email request).

(** A request of any status already carries the candidate's email. *)
Definition same_email_request (db : DB)
    (request : RegistrationRequestCreate.t) : Prop :=
  exists r, In r (registration_requests db)
    /\ RegistrationRequest.email r = RegistrationRequestCreate.email request.

(** The store after an intake that is accepted. *)
Definition with_new_request (db : DB) (now : Z)
    (request : RegistrationRequestCreate.t) : DB :=
  set_registration_requests
    (Query.add (new_request db now request) (registration_requests db)) db.

(** ** Further readings of the handlers *)

(** What of a message is fixed once it is sent: all but [is_read]. *)
Definition message_core (m : Message.t)
    : Z * Z * Z * string * string * Z :=
  (Message.id m, Message.sender_id m, Message.receiver_id m,
   Message.subject m, Message.content m, Message.sent_at m).

(** What of a submission is fixed once it is handed in: all but the grade
    and the feedback. *)
Definition submission_core (s : AssignmentSubmission.t)
    : Z * Z * Z * string * Z :=
  (AssignmentSubmission.id s, AssignmentSubmission.assignment_id s,
   AssignmentSubmission.student_id s, AssignmentSubmission.content s,
   AssignmentSubmission.submitted_at s).

(** The routes served with the method GET. *)
Definition is_get (a : Action) : bool :=
  match a with
  | auth_me | auth_users | auth_register_requests
  | students_assignments | students_submissions
  | teachers_assignments | teachers_assignment_submissions _
  | attendance_get
  | assignments_list _ _ | assignments_get _ | assignments_submissions _
  | messages_inbox _ _ | messages_sent | messages_get _
  | messages_unread_count | messages_teachers
  | registration_requests_list _ | registration_requests_get _ => true
  | _ => false
  end.

(** The users a request leaves: those it found, then the ones it added,
    each under a positive id. *)
Definition users_grow (db db' : DB) : Prop :=
  exists added,
    users db' = (users db ++ added)%list
    /\ Forall (fun u => 0 < User.id u) added.

(** The ids of the stored users, and their ids with their roles. *)
Definition user_ids (db : DB) : list Z := map User.id (users db).

Definition user_roles (db : DB) : list (Z * string) :=
  map (fun u => (User.id u, User.role u)) (users db).

(** Every reference from a row to a user or to an assignment is to a row
    of the store: a message's sender and receiver are users, the creator
    of an assignment is a teacher or an admin, the author of a submission
    is a student, and a submission belongs to a stored assignment. *)
Record references_ok (db : DB) : Prop := mkReferencesOk {
  message_users :
    Forall (fun m => In (Message.sender_id m) (user_ids db)
                     /\ In (Message.receiver_id m) (user_ids db))
      (messages db);
  assignment_creator :
    Forall (fun a =>
              In (Assignment.created_by_id a, "teacher"%string) (user_roles db)
              \/ In (Assignment.created_by_id a, "admin"%string)
                   (user_roles db))
      (assignments db);
  submission_student :
    Forall (fun s => In (AssignmentSubmission.student_id s, "student"%string)
                       (user_roles db))
      (assignment_submissions db);
  submission_assignment :
    Forall (fun s => In (AssignmentSubmission.assignment_id s)
                       (map Assignment.id (assignments db)))
      (assignment_submissions db) }.

(** The row [create_assignment] stores. *)
Definition new_assignment (db : DB) (now : Z) (actor : User.t)
    (assignment : AssignmentCreate.t) : Assignment.t :=
  Assignment.mk (Query.next_id Assignment.id (assignments db))
    (AssignmentCreate.title assignment)
    (AssignmentCreate.description assignment)
    (AssignmentCreate.subject assignment)
    (AssignmentCreate.class_name assignment)
    (AssignmentCreate.due_date assignment)
    (User.id actor) now.

(** * Properties *)

Section QueryFacts.
Context {A : Type}.

Lemma next_id_above (pk : A -> Z) (rows : list A) (r : A) :
  In r rows -> pk r < Query.next_id pk rows.
Proof.
  unfold Query.next_id.
  induction rows as [|x rows IH]; cbn [In fold_right]; [tauto|].
  intros [->|Hin]; [lia|].
  specialize (IH Hin). lia.
Qed.

Lemma next_id_fresh (pk : A -> Z) (rows : list A) :
  ~ In (Query.next_id pk rows) (map pk rows).
Proof.
  intros Hin. apply in_map_iff in Hin as (r & Heq & Hr).
  apply (next_id_above pk) in Hr. lia.
Qed.

Lemma NoDup_map_add {B : Type} (g : A -> B) (rows : list A) (r : A) :
  NoDup (map g rows) -> ~ In (g r) (map g rows) ->
  NoDup (map g (Query.add r rows)).
Proof.
  intros Hnd Hfresh. unfold Query.add. rewrite map_app. simpl.
  apply NoDup_app; repeat split; auto.
  - constructor; [simpl; tauto | constructor].
  - intros x Hx [<-|[]]. contradiction.
Qed.

Lemma map_update {B : Type} (pk : A -> Z) (g : A -> B) (k : Z) (f : A -> A)
    (rows : list A) :
  (forall r, g (f r) = g r) ->
  map g (Query.update pk k f rows) = map g rows.
Proof.
  intros Hf. induction rows as [|x rows IH]; simpl; [reflexivity|].
  destruct (pk x =? k); simpl; congruence.
Qed.

Lemma NoDup_map_filter {B : Type} (g : A -> B) (p : A -> bool)
    (rows : list A) :
  NoDup (map g rows) -> NoDup (map g (filter p rows)).
Proof.
  induction rows as [|x rows IH]; simpl; intros Hnd; [constructor|].
  inversion Hnd as [|? ? Hnotin Hnd']; subst.
  destruct (p x); simpl; auto.
  constructor; auto.
  intros Hin. apply Hnotin.
  apply in_map_iff in Hin as (y & Hy & Hiny).
  apply filter_In in Hiny as [Hiny _].
  apply in_map_iff. eauto.
Qed.

Lemma NoDup_map_delete {B : Type} (pk : A -> Z) (g : A -> B) (k : Z)
  (rows : list A) :
  NoDup (map g rows) -> NoDup (map g (Query.delete pk k rows)).
Proof. apply NoDup_map_filter. Qed.

(** A column that identifies rows finds the row that carries the value. *)
Lemma first_by_key {B : Type} (g : A -> B) (eqb : B -> B -> bool)
  (rows : list A) (r : A) :
(forall x y, eqb x y = true <-> x = y) ->
NoDup (map g rows) -> In r rows ->
Query.first (fun x => eqb (g x) (g r)) rows = Some r.
Proof.
intros Heqb. unfold Query.first.
induction rows as [|x rows IH]; simpl; [tauto|].
intros Hnd Hin. inversion Hnd as [|? ? Hnotin Hnd']; subst.
destruct Hin as [->|Hin].
- now rewrite (proj2 (Heqb _ _) eq_refl).
- destruct (eqb (g x) (g r)) eqn:E.
  + apply Heqb in E. exfalso. apply Hnotin. rewrite E.
    now apply in_map.
  + auto.
Qed.

Lemma first_by_pk (pk : A -> Z) (rows : list A) (r : A) :
NoDup (map pk rows) -> In r rows ->
Query.first (fun x => pk x =? pk r) rows = Some r.
Proof. apply first_by_key. apply Z.eqb_eq. Qed.

Lemma first_absent (p : A -> bool) (rows : list A) :
(forall r, In r rows -> p r = false) -> Query.first p rows = None.
Proof.
unfold Query.first. intros Hp.
destruct (find p rows) as [r|] eqn:E; [|reflexivity].
apply find_some in E as [Hin Hr]. rewrite Hp in Hr by assumption.
discriminate.
Qed.

Lemma first_some (p : A -> bool) (rows : list A) (r : A) :
  Query.first p rows = Some r -> In r rows /\ p r = true.
Proof. apply find_some. Qed.

Lemma first_none (p : A -> bool) (rows : list A) :
  Query.first p rows = None <-> existsb p rows = false.
Proof.
  unfold Query.first.
  induction rows as [|x rows IH]; simpl; [tauto|].
  destruct (p x); simpl; [split; discriminate | exact IH].
Qed.

Lemma count_add (p : A -> bool) (rows : list A) (r : A) :
  Query.count p (Query.add r rows)
  = (Query.count p rows + (if p r then 1 else 0))%nat.
Proof.
  unfold Query.count, Query.add. rewrite filter_app, length_app. simpl.
  now destruct (p r).
Qed.

Lemma count_none (p : A -> bool) (rows : list A) :
  Query.first p rows = None -> Query.count p rows = 0%nat.
Proof.
  unfold Query.first, Query.count.
  induction rows as [|x rows IH]; simpl; [reflexivity|].
  destruct (p x); [discriminate | exact IH].
Qed.

Lemma count_update (pk : A -> Z) (p : A -> bool) (k : Z) (f : A -> A)
  (rows : list A) :
  (forall r, p (f r) = p r) ->
  Query.count p (Query.update pk k f rows) = Query.count p rows.
Proof.
  intros Hf. unfold Query.count.
  induction rows as [|x rows IH]; simpl; [reflexivity|].
  destruct (pk x =? k); simpl.
  - rewrite Hf. now destruct (p x).
  - destruct (p x); simpl; congruence.
Qed.

(** Updating the row with key [k] and reading key [k] back. *)
Lemma first_update (pk : A -> Z) (k : Z) (f : A -> A) (rows : list A)
  (r : A) :
  (forall x, pk (f x) = pk x) ->
  Query.first (fun x => pk x =? k) rows = Some r ->
  Query.first (fun x => pk x =? k) (Query.update pk k f rows) = Some (f r).
Proof.
  intros Hf. unfold Query.first.
  induction rows as [|x rows IH]; simpl; [discriminate|].
  destruct (pk x =? k) eqn:E; simpl.
  - intros [= ->]. now rewrite Hf, E.
  - rewrite E. exact IH.
Qed.
End QueryFacts.

(** ** Every request preserves the store invariants *)

Ltac store_fields :=
  cbn [users assignments assignment_submissions messages registration_requests
       set_users set_assignments set_assignment_submissions set_messages
       set_registration_requests].

Lemma users_unique_elim (us : list User.t) (u v : User.t) :
  Query.users_unique us u = true -> In v us ->
  User.username v <> User.username u /\ User.email v <> User.email u.
Proof.
  unfold Query.users_unique. intros Hu Hin.
  apply negb_true_iff in Hu.
  assert (Hv : (User.username v =? User.username u)%string
               || (User.email v =? User.email u)%string = false).
  { destruct (_ || _) eqn:E; [|reflexivity].
    rewrite <- Hu. symmetry. apply existsb_exists. eauto. }
  apply orb_false_iff in Hv as [Hname Hemail].
  split; now apply String.eqb_neq.
Qed.

Lemma users_unique_username (us : list User.t) (u : User.t) :
  Query.users_unique us u = true ->
  ~ In (User.username u) (map User.username us).
Proof.
  intros Hu Hin. apply in_map_iff in Hin as (v & Hv & Hin).
  destruct (users_unique_elim us u v Hu Hin) as [Hname _]. contradiction.
Qed.

Lemma users_unique_email (us : list User.t) (u : User.t) :
  Query.users_unique us u = true -> ~ In (User.email u) (map User.email us).
Proof.
  intros Hu Hin. apply in_map_iff in Hin as (v & Hv & Hin).
  destruct (users_unique_elim us u v Hu Hin) as [_ Hemail]. contradiction.
Qed.

Lemma users_add_consistent (db : DB) (u : User.t) :
  consistent db ->
  User.id u = Query.next_id User.id (users db) ->
  Query.users_unique (users db) u = true ->
  consistent (set_users (Query.add u (users db)) db).
Proof.
  intros [] Hid Hu. constructor; store_fields; try assumption.
  - apply NoDup_map_add; [assumption|]. rewrite Hid. apply next_id_fresh.
  - apply NoDup_map_add; [assumption|]. now apply users_unique_username.
  - apply NoDup_map_add; [assumption|]. now apply users_unique_email.
Qed.

Lemma one_submission_add (rows : list AssignmentSubmission.t)
    (r : AssignmentSubmission.t) :
  (forall a s, (Query.count (submitted_by a s) rows <= 1)%nat) ->
  Query.first (submitted_by (AssignmentSubmission.assignment_id r)
                 (AssignmentSubmission.student_id r)) rows = None ->
  forall a s, (Query.count (submitted_by a s) (Query.add r rows) <= 1)%nat.
Proof.
  intros Hone Hnone a s. rewrite count_add.
  destruct (submitted_by a s r) eqn:E.
  - unfold submitted_by in E. apply andb_true_iff in E as [Ea Es].
    apply Z.eqb_eq in Ea, Es. subst a s.
    rewrite (count_none _ _ Hnone). lia.
  - specialize (Hone a s). lia.
Qed.

Ltac unfold_handlers :=
  unfold auth.get_current_user_info, auth.get_all_users,
    auth.get_registration_requests, auth.process_registration_request,
    students.get_student_assignments, students.submit_assignment,
    students.get_student_submissions, teachers.create_assignment,
    teachers.get_teacher_assignments, teachers.get_assignment_submissions,
    teachers.grade_submission, attendance.get_attendance,
    attendance.mark_attendance, assignments.create_assignment,
    assignments.get_assignment, assignments.get_assignments,
    assignments.update_assignment, assignments.delete_assignment,
    assignments.submit_assignment, assignments.get_assignment_submissions,
    messages.send_message, messages.get_messages, messages.get_sent_messages,
    messages.get_message, messages.mark_message_as_read,
    messages.get_unread_count, messages.get_teachers,
    messages.send_message_to_teacher,
    registration_requests.get_registration_requests,
    registration_requests.get_registration_request,
    registration_requests.approve_registration_request,
    registration_requests.reject_registration_request,
    registration_requests.delete_registration_request in *.

Ltac handler_cases :=
  repeat match goal with
  | |- context [if ?b then _ else _] => destruct b eqn:?
  | |- context [match ?x with _ => _ end] => destruct x eqn:?
  end.

Ltac preserved :=
  match goal with
  | |- NoDup (map _ (Query.add _ _)) =>
      apply NoDup_map_add; [assumption | apply next_id_fresh]
  | |- NoDup (map User.username (Query.add _ _)) =>
      apply NoDup_map_add; [assumption | now apply users_unique_username]
  | |- NoDup (map User.email (Query.add _ _)) =>
      apply NoDup_map_add; [assumption | now apply users_unique_email]
  | |- NoDup (map _ (Query.update _ _ _ _)) =>
      rewrite map_update; [assumption | reflexivity]
  | |- NoDup (map _ (Query.delete _ _ _)) =>
      apply NoDup_map_delete; assumption
  | |- forall a s, (Query.count _ (Query.add _ _) <= 1)%nat =>
      apply one_submission_add; assumption
  | |- forall a s, (Query.count _ (Query.update _ _ _ _) <= 1)%nat =>
      let a := fresh "a" in
      let s := fresh "s" in
      intros a s; rewrite count_update; [auto | reflexivity]
  end.

Section Invariants.
Context `{AuthUtils}.

Lemma handle_consistent (db : DB) (now : Z) (u : User.t) (a : Action) :
  consistent db -> consistent (snd (handle db now u a)).
Proof.
  intros C.
  destruct a; cbn [handle answer snd fst]; try exact C.
  all: unfold_handlers.
  all: handler_cases; cbn [snd]; try exact C.
  all: destruct C; constructor; store_fields; try assumption; preserved.
Qed.

Lemma ensure_user_consistent (db : DB) (now : Z)
    (username email password name role : string) :
  consistent db ->
  consistent (snd (main.ensure_user db now username email password name role)).
Proof.
  intros C. unfold main.ensure_user. handler_cases; cbn [snd]; try exact C.
  now apply users_add_consistent.
Qed.

Lemma and_then_consistent (r : Response unit * DB)
    (k : DB -> Response unit * DB) :
  consistent (snd r) ->
  (forall db, consistent db -> consistent (snd (k db))) ->
  consistent (snd (main.and_then r k)).
Proof.
  intros Hr Hk. unfold main.and_then.
  destruct r as [[[] | c d | e] db]; cbn [snd] in *; auto.
Qed.

Lemma handle_public_consistent (db : DB) (now : Z) (a : PublicAction) :
  consistent db -> consistent (snd (handle_public db now a)).
Proof.
  intros C.
  destruct a; cbn [handle_public answer snd fst]; try exact C.
  - unfold main.seed_default_users.
    repeat (apply and_then_consistent; [|intros]);
      now apply ensure_user_consistent.
  - unfold auth.login. handler_cases; exact C.
  - unfold auth.create_registration_request.
    handler_cases; cbn [snd]; try exact C.
    destruct C; constructor; store_fields; try assumption; preserved.
  - unfold registration_requests.create_registration_request.
    handler_cases; cbn [snd]; try exact C.
    destruct C; constructor; store_fields; try assumption; preserved.
Qed.

Lemma empty_db_consistent : consistent empty_db.
Proof. constructor; cbn; try constructor. intros; lia. Qed.

(** The invariants hold of every store the application reaches. *)
Lemma reachable_consistent (db : DB) : reachable db -> consistent db.
Proof.
  induction 1 as [|db db' _ IH Hstep].
  - exact empty_db_consistent.
  - destruct Hstep.
    + now apply handle_public_consistent.
    + now apply handle_consistent.
Qed.

End Invariants.

(** ** The sample run *)

Example seeded_users :
  users seeded_db = [admin_user; teacher1_user; parent1_user; student1_user].
Proof. reflexivity. Qed.

Example str_of_nat_12 : str_of_nat 12 = "12"%string.
Proof. reflexivity. Qed.

Example split_head_email : split_head "@"%char "john@a.com" = "john"%string.
Proof. reflexivity. Qed.

Example split_head_no_at : split_head "@"%char "john" = "john"%string.
Proof. reflexivity. Qed.

Example candidates_of_john :
  map (candidate "john") [0; 1; 2; 10]%nat
  = ["john"; "john1"; "john2"; "john10"]%string.
Proof. reflexivity. Qed.

Example teacher1_may_delete_hw1 :
  fst (assignments.delete_assignment hw1_db teacher1_user 1)
  = Return "Assignment deleted successfully"%string.
Proof. reflexivity. Qed.

Example submitted_hw1_stays :
  fst (assignments.delete_assignment submitted_db teacher1_user 1)
  = Unhandled "IntegrityError".
Proof. reflexivity. Qed.

Example second_john_on_auth_route :
  auth.process_registration_request (H := plain_auth_utils) two_johns_db 7
    admin_user 2 (RegistrationRequestUpdate.mk "approved")
  = (Unhandled "IntegrityError", two_johns_db).
Proof. reflexivity. Qed.

Example second_john_on_approve_route :
  registration_requests.approve_registration_request
    (H := plain_auth_utils) two_johns_db admin_user 2
  = (Unhandled "AttributeError", two_johns_db).
Proof. reflexivity. Qed.

Lemma seeded_reachable : reachable (H := plain_auth_utils) seeded_db.
Proof.
  apply reachable_step with empty_db; [constructor | apply step_public].
Qed.

Lemma hw1_reachable : reachable (H := plain_auth_utils) hw1_db.
Proof.
  apply reachable_step with seeded_db; [exact seeded_reachable|].
  apply step_user. vm_compute. tauto.
Qed.

Lemma submitted_reachable : reachable (H := plain_auth_utils) submitted_db.
Proof.
  apply reachable_step with hw1_db; [exact hw1_reachable|].
  apply step_user. vm_compute. tauto.
Qed.

Lemma john_pending_reachable :
  reachable (H := plain_auth_utils) john_pending_db.
Proof.
  apply reachable_step with submitted_db; [exact submitted_reachable|].
  apply step_public.
Qed.

Lemma john_approved_reachable :
  reachable (H := plain_auth_utils) john_approved_db.
Proof.
  apply reachable_step with john_pending_db; [exact john_pending_reachable|].
  apply step_user. vm_compute. tauto.
Qed.

Lemma two_johns_reachable : reachable (H := plain_auth_utils) two_johns_db.
Proof.
  apply reachable_step with john_approved_db; [exact john_approved_reachable|].
  apply step_public.
Qed.

(** ** Login *)

(** C9. Login fails uniformly: a username that no user has and the
    username of a stored user given with a wrong password get the same
    answer, 401 with the detail "Invalid credentials", and the store is
    left as it was. *)
Theorem login_fails_uniformly `{AuthUtils} (db : DB)
    (unknown wrong : UserLogin.t) (user : User.t) :
  reachable db ->
  (forall u, In u (users db) ->
     User.username u <> UserLogin.username unknown) ->
  In user (users db) ->
  User.username user = UserLogin.username wrong ->
  verify_password (UserLogin.password wrong) (User.password_hash user)
  = false ->
  auth.login db unknown
  = (HTTPException HTTP_401_UNAUTHORIZED "Invalid credentials", db)
  /\ auth.login db wrong = auth.login db unknown
  /\ Unauthenticated (fst (auth.login db wrong)).
Proof.
  intros Hreach Hnone Hin Hname Hbad.
  apply reachable_consistent in Hreach.
  assert (Hunknown : auth.login db unknown
            = (HTTPException HTTP_401_UNAUTHORIZED "Invalid credentials", db)).
  { unfold auth.login. rewrite first_absent; [reflexivity|].
    intros u Hu. apply String.eqb_neq. now apply Hnone. }
  assert (Hwrong : auth.login db wrong
            = (HTTPException HTTP_401_UNAUTHORIZED "Invalid credentials", db)).
  { unfold auth.login. rewrite <- Hname.
    rewrite (first_by_key User.username String.eqb (users db) user
               String.eqb_eq (users_username db Hreach) Hin).
    now rewrite Hbad. }
  repeat split; [exact Hunknown | congruence |].
  rewrite Hwrong. reflexivity.
Qed.

Lemma login_fails_uniformly_witness :
  auth.login (H := plain_auth_utils) seeded_db
    (UserLogin.mk "nobody" "admin123")
  = (HTTPException HTTP_401_UNAUTHORIZED "Invalid credentials", seeded_db)
  /\ auth.login (H := plain_auth_utils) seeded_db
       (UserLogin.mk "admin" "guess")
     = auth.login (H := plain_auth_utils) seeded_db
         (UserLogin.mk "nobody" "admin123")
  /\ Unauthenticated
       (fst (auth.login (H := plain_auth_utils) seeded_db
               (UserLogin.mk "admin" "guess"))).
Proof.
  apply (login_fails_uniformly (H := plain_auth_utils) seeded_db
           (UserLogin.mk "nobody" "admin123") (UserLogin.mk "admin" "guess")
           admin_user).
  - exact seeded_reachable.
  - intros u Hu. vm_compute in Hu.
    destruct Hu as [<-|[<-|[<-|[<-|[]]]]]; discriminate.
  - vm_compute. tauto.
  - reflexivity.
  - reflexivity.
Defined.

(** ** Reading one assignment *)

(** C10. Fetching one assignment checks neither role nor ownership:
    whoever the authenticated caller is, an assignment of the store is
    returned under its id, an id that no assignment has is answered 404,
    and the answer is never Forbidden. *)
Theorem get_assignment_has_no_gate `{AuthUtils} (db : DB)
    (current_user : User.t) (assignment_id : Z) :
  reachable db ->
  (forall a, In a (assignments db) -> Assignment.id a = assignment_id ->
     assignments.get_assignment db current_user assignment_id = (Return a, db))
  /\ ((forall a, In a (assignments db) -> Assignment.id a <> assignment_id) ->
      assignments.get_assignment db current_user assignment_id
      = (HTTPException HTTP_404_NOT_FOUND "Assignment not found", db))
  /\ ((exists a, In a (assignments db) /\ Assignment.id a = assignment_id
                 /\ fst (assignments.get_assignment db current_user
                           assignment_id) = Return a)
      \/ ((forall a, In a (assignments db) -> Assignment.id a <> assignment_id)
          /\ NotFound (fst (assignments.get_assignment db current_user
                              assignment_id))))
  /\ ~ Forbidden (fst (assignments.get_assignment db current_user
                         assignment_id)).
Proof.
  intros Hreach. apply reachable_consistent in Hreach.
  unfold assignments.get_assignment.
  split; [|split; [|split]].
  - intros a Hin <-.
    now rewrite (first_by_pk Assignment.id _ a (assignments_pk db Hreach) Hin).
  - intros Habsent. rewrite first_absent; [reflexivity|].
    intros a Hin. apply Z.eqb_neq. now apply Habsent.
  - destruct (Query.first _ (assignments db)) as [a|] eqn:E.
    + left. exists a. apply first_some in E as [Hin Hid].
      apply Z.eqb_eq in Hid. auto.
    + right. split; [|reflexivity].
      intros a Hin Hid. apply first_none in E.
      assert (Hex : existsb (fun a => Assignment.id a =? assignment_id)
                      (assignments db) = true).
      { apply existsb_exists. exists a. split; [exact Hin|].
        now apply Z.eqb_eq. }
      congruence.
  - destruct (Query.first _ (assignments db)); cbn; discriminate.
Qed.

Lemma get_assignment_has_no_gate_witness :
  assignments.get_assignment hw1_db parent1_user 1
  = (Return (Assignment.mk 1 "HW1" None "Math" "10A" 100 2 1), hw1_db)
  /\ ~ Forbidden (fst (assignments.get_assignment hw1_db parent1_user 1)).
Proof.
  pose proof (get_assignment_has_no_gate (H := plain_auth_utils) hw1_db
                parent1_user 1 hw1_reachable) as (Hget & _ & _ & Hnot).
  split; [|exact Hnot].
  apply Hget; [vm_compute; tauto | reflexivity].
Defined.

(** ** Reading one message *)

(** [get_message] returns no message and refuses none.  An id that no
    message has is answered 404; for an id that a message has, the access
    check reads [from_user_id] of the row and raises, whoever asks. *)
Lemma get_message_outcome (db : DB) (current_user : User.t) (message_id : Z) :
  ((forall m, In m (messages db) -> Message.id m <> message_id) ->
   messages.get_message db current_user message_id
   = (HTTPException HTTP_404_NOT_FOUND "Message not found", db))
  /\ (forall m, In m (messages db) -> Message.id m = message_id ->
      messages.get_message db current_user message_id
      = (Unhandled "AttributeError", db)).
Proof.
  unfold messages.get_message. split.
  - intros Habsent. rewrite first_absent; [reflexivity|].
    intros m Hin. apply Z.eqb_neq. now apply Habsent.
  - intros m Hin Hid.
    destruct (Query.first _ (messages db)) eqn:E; [reflexivity|].
    unfold Query.first in E. apply (find_none _ _ E) in Hin.
    apply Z.eqb_neq in Hin. contradiction.
Qed.

(** So no caller is ever answered with a message, nor with 403. *)
Lemma get_message_never_returns (db : DB) (current_user : User.t)
    (message_id : Z) :
  In (status_of (fst (messages.get_message db current_user message_id)))
    [HTTP_404_NOT_FOUND; HTTP_500_INTERNAL_SERVER_ERROR]
  /\ snd (messages.get_message db current_user message_id) = db.
Proof.
  unfold messages.get_message.
  destruct (Query.first _ (messages db)); cbn; tauto.
Qed.

(** C5. In a store that holds message 1, from [student1] to [teacher1],
    [get_message] raises [AttributeError] for the sender, for the receiver
    and for [parent1], who is neither: the message is returned to no one,
    where the claim has it returned to its sender and to its receiver, and
    the third party is not answered 403.  For the id 7, which no message
    has, [parent1] is answered 404. *)
Theorem get_message_raises_for_sender_and_receiver :
  messages one_message_db = [Message.mk 1 4 2 "Hi" "Hello" 2 false]
  /\ messages.get_message one_message_db student1_user 1
     = (Unhandled "AttributeError", one_message_db)
  /\ messages.get_message one_message_db teacher1_user 1
     = (Unhandled "AttributeError", one_message_db)
  /\ messages.get_message one_message_db parent1_user 1
     = (Unhandled "AttributeError", one_message_db)
  /\ ~ Forbidden (fst (messages.get_message one_message_db parent1_user 1))
  /\ messages.get_message one_message_db parent1_user 7
     = (HTTPException HTTP_404_NOT_FOUND "Message not found", one_message_db).
Proof.
  repeat split; try reflexivity.
  vm_compute. discriminate.
Qed.

(** ** Submissions *)

Section SubmissionFacts.
Context {A : Type}.

Lemma first_present (p : A -> bool) (rows : list A) (r : A) :
  In r rows -> p r = true -> exists x, Query.first p rows = Some x.
Proof.
  intros Hin Hp. unfold Query.first.
  destruct (find p rows) as [x|] eqn:E; [eauto|].
  apply (find_none _ _ E) in Hin. congruence.
Qed.

Lemma count_zero (p : A -> bool) (rows : list A) :
  Query.count p rows = 0%nat -> Query.first p rows = None.
Proof.
  unfold Query.count, Query.first.
  induction rows as [|x rows IH]; simpl; [reflexivity|].
  destruct (p x); simpl; [discriminate | exact IH].
Qed.

Lemma count_positive (p : A -> bool) (rows : list A) :
  (0 < Query.count p rows)%nat -> exists x, Query.first p rows = Some x.
Proof.
  unfold Query.count, Query.first.
  induction rows as [|x rows IH]; simpl; [lia|].
  destruct (p x); simpl; eauto.
Qed.
End SubmissionFacts.

(** What [students.submit_assignment] does for a student and an existing
    assignment. *)
Lemma submit_first (db : DB) (now : Z) (student : User.t) (assignment_id : Z)
    (submission : AssignmentSubmissionCreate.t) :
  User.role student = "student"%string ->
  (exists a, In a (assignments db) /\ Assignment.id a = assignment_id) ->
  Query.count (submitted_by assignment_id (User.id student))
    (assignment_submissions db) = 0%nat ->
  students.submit_assignment db now student assignment_id submission
  = (Return (new_submission db now student assignment_id submission),
     set_assignment_submissions
       (Query.add (new_submission db now student assignment_id submission)
          (assignment_submissions db)) db).
Proof.
  intros Hrole (a & Hin & Hid) Hzero.
  unfold students.submit_assignment. rewrite Hrole. cbn [String.eqb negb].
  destruct (first_present (fun x => Assignment.id x =? assignment_id)
              (assignments db) a Hin) as [x ->]; [now apply Z.eqb_eq|].
  apply count_zero in Hzero. unfold submitted_by in Hzero.
  rewrite Hzero. reflexivity.
Qed.

Lemma submit_again (db : DB) (now : Z) (student : User.t) (assignment_id : Z)
    (submission : AssignmentSubmissionCreate.t) :
  User.role student = "student"%string ->
  (exists a, In a (assignments db) /\ Assignment.id a = assignment_id) ->
  (0 < Query.count (submitted_by assignment_id (User.id student))
         (assignment_submissions db))%nat ->
  students.submit_assignment db now student assignment_id submission
  = (HTTPException HTTP_400_BAD_REQUEST "Assignment already submitted", db).
Proof.
  intros Hrole (a & Hin & Hid) Hpos.
  unfold students.submit_assignment. rewrite Hrole. cbn [String.eqb negb].
  destruct (first_present (fun x => Assignment.id x =? assignment_id)
              (assignments db) a Hin) as [x ->]; [now apply Z.eqb_eq|].
  apply count_positive in Hpos as [s Hs]. unfold submitted_by in Hs.
  rewrite Hs. reflexivity.
Qed.

(** The submit route of [routers/assignments.py] runs the same checks and
    then cannot build the row: a second submission is answered 400, a first
    one raises and stores nothing. *)
Lemma assignments_submit_outcome (db : DB) (student : User.t)
    (assignment_id : Z) (submission : AssignmentSubmissionCreate.t) :
  User.role student = "student"%string ->
  (exists a, In a (assignments db) /\ Assignment.id a = assignment_id) ->
  (Query.count (submitted_by assignment_id (User.id student))
     (assignment_submissions db) = 0%nat ->
   assignments.submit_assignment db student assignment_id submission
   = (Unhandled "AttributeError", db))
  /\ ((0 < Query.count (submitted_by assignment_id (User.id student))
            (assignment_submissions db))%nat ->
      assignments.submit_assignment db student assignment_id submission
      = (HTTPException HTTP_400_BAD_REQUEST "Assignment already submitted",
         db)).
Proof.
  intros Hrole (a & Hin & Hid).
  unfold assignments.submit_assignment. rewrite Hrole. cbn [String.eqb negb].
  destruct (first_present (fun x => Assignment.id x =? assignment_id)
              (assignments db) a Hin) as [x ->]; [now apply Z.eqb_eq|].
  split.
  - intros Hzero. apply count_zero in Hzero. unfold submitted_by in Hzero.
    now rewrite Hzero.
  - intros Hpos. apply count_positive in Hpos as [s Hs].
    unfold submitted_by in Hs. now rewrite Hs.
Qed.

(** No request on that route stores anything. *)
Lemma assignments_submit_stores_nothing (db : DB) (current_user : User.t)
    (assignment_id : Z) (submission : AssignmentSubmissionCreate.t) :
  status_of (fst (assignments.submit_assignment db current_user assignment_id
                    submission)) <> HTTP_200_OK
  /\ snd (assignments.submit_assignment db current_user assignment_id
            submission) = db.
Proof.
  unfold assignments.submit_assignment.
  handler_cases; cbn; split; (reflexivity || discriminate).
Qed.

(** What holds of the claim on the code.  In every store the application
    reaches, requests being served one at a time, no assignment has two
    submissions of one student.  A student's first submission to an
    existing assignment on [/api/students/assignments/{id}/submit] is
    stored; from then on every further submission of that student to that
    assignment is answered 400 "Assignment already submitted" on both
    submit routes and stores nothing. *)
Lemma one_submission_per_student `{AuthUtils} (db : DB) :
  reachable db ->
  (forall a s,
     (Query.count (submitted_by a s) (assignment_submissions db) <= 1)%nat)
  /\ (forall now student assignment_id submission,
        User.role student = "student"%string ->
        (exists a, In a (assignments db) /\ Assignment.id a = assignment_id) ->
        Query.count (submitted_by assignment_id (User.id student))
          (assignment_submissions db) = 0%nat ->
        let row := new_submission db now student assignment_id submission in
        let db' :=
          set_assignment_submissions
            (Query.add row (assignment_submissions db)) db in
        students.submit_assignment db now student assignment_id submission
        = (Return row, db')
        /\ Query.count (submitted_by assignment_id (User.id student))
             (assignment_submissions db') = 1%nat
        /\ forall now' submission',
             students.submit_assignment db' now' student assignment_id
               submission'
             = (HTTPException HTTP_400_BAD_REQUEST
                  "Assignment already submitted", db')
             /\ assignments.submit_assignment db' student assignment_id
                  submission'
                = (HTTPException HTTP_400_BAD_REQUEST
                     "Assignment already submitted", db')).
Proof.
  intros Hreach. split.
  - apply reachable_consistent in Hreach. exact (one_submission db Hreach).
  - intros now student assignment_id submission Hrole Hexists Hzero row db'.
    assert (Hcount : Query.count (submitted_by assignment_id (User.id student))
                       (assignment_submissions db') = 1%nat).
    { subst db'. store_fields. rewrite count_add, Hzero.
      subst row. unfold submitted_by, new_submission. cbn.
      now rewrite !Z.eqb_refl. }
    split; [|split].
    + now apply submit_first.
    + exact Hcount.
    + intros now' submission'. split.
      * apply submit_again; auto. rewrite Hcount. lia.
      * apply assignments_submit_outcome; auto. rewrite Hcount. lia.
Qed.

(** C2. At [hw1_db], where HW1 exists and [student1] has handed in nothing,
    the first submission of [student1] on
    [/api/assignments/assignments/1/submissions] raises [AttributeError]
    and stores nothing, where the claim has the first submission succeed.
    The same body on [/api/students/assignments/1/submit] is stored, and
    from then on both routes answer 400. *)
Theorem first_submit_on_assignments_route_raises :
  assignment_submissions hw1_db = []
  /\ assignments.submit_assignment hw1_db student1_user 1 answer1
     = (Unhandled "AttributeError", hw1_db)
  /\ students.submit_assignment hw1_db 3 student1_user 1 answer1
     = (Return (AssignmentSubmission.mk 1 1 4 "my answer" 3 None None),
        submitted_db)
  /\ assignments.submit_assignment submitted_db student1_user 1 answer1
     = (HTTPException HTTP_400_BAD_REQUEST "Assignment already submitted",
        submitted_db).
Proof. repeat split. Qed.

(** The uniqueness is the handlers' doing: [assignment_submissions] declares
    no constraint on the pair, and the table itself would take a second row
    of [student1] for HW1. *)
Example table_takes_second_row :
  Query.count (submitted_by 1 4)
    (Query.add (new_submission submitted_db 9 student1_user 1 answer1)
       (assignment_submissions submitted_db)) = 2%nat.
Proof. reflexivity. Qed.

(** ** Grading *)

Lemma update_idempotent {A : Type} (pk : A -> Z) (k : Z) (f : A -> A)
    (rows : list A) :
  (forall r, pk (f r) = pk r) -> (forall r, f (f r) = f r) ->
  Query.update pk k f (Query.update pk k f rows) = Query.update pk k f rows.
Proof.
  intros Hpk Hf. induction rows as [|x rows IH]; simpl; [reflexivity|].
  destruct (pk x =? k) eqn:E; simpl.
  - now rewrite Hpk, E, Hf.
  - now rewrite E, IH.
Qed.

(** What [grade_submission] does once its lookups are known. *)
Lemma grade_submission_commits (db : DB) (actor : User.t) (submission_id : Z)
    (grade_data : AssignmentSubmissionGrade.t)
    (submission : AssignmentSubmission.t) :
  Query.first (fun s => AssignmentSubmission.id s =? submission_id)
    (assignment_submissions db) = Some submission ->
  User.role actor = "admin"%string
  \/ (User.role actor = "teacher"%string
      /\ exists a,
           Query.first
             (fun a => Assignment.id a
                         =? AssignmentSubmission.assignment_id submission)
             (assignments db) = Some a
           /\ Assignment.created_by_id a = User.id actor) ->
  teachers.grade_submission db actor submission_id grade_data
  = (Return
       (AssignmentSubmission.set_grade
          (Some (AssignmentSubmissionGrade.grade grade_data))
          (AssignmentSubmissionGrade.feedback grade_data) submission),
     set_assignment_submissions
       (Query.update AssignmentSubmission.id submission_id
          (AssignmentSubmission.set_grade
             (Some (AssignmentSubmissionGrade.grade grade_data))
             (AssignmentSubmissionGrade.feedback grade_data))
          (assignment_submissions db)) db).
Proof.
  intros Hfound Hactor. unfold teachers.grade_submission. rewrite Hfound.
  destruct Hactor as [Hadmin | (Hteacher & a & Ha & Hown)].
  - rewrite Hadmin. reflexivity.
  - rewrite Hteacher, Ha, Hown, Z.eqb_refl. reflexivity.
Qed.

(** C8. For an admin, and for the teacher who created the assignment a
    submission belongs to, grading a stored submission succeeds whatever
    grade it already carries: the row gets the grade and the feedback of
    the request and nothing else changes.  Grading again with the same
    request gives the same answer and the same store. *)
Theorem grade_submission_overwrites `{AuthUtils} (db : DB) (actor : User.t)
    (grade_data : AssignmentSubmissionGrade.t)
    (submission : AssignmentSubmission.t) :
  reachable db ->
  In submission (assignment_submissions db) ->
  User.role actor = "admin"%string
  \/ (User.role actor = "teacher"%string
      /\ exists a, In a (assignments db)
           /\ Assignment.id a = AssignmentSubmission.assignment_id submission
           /\ Assignment.created_by_id a = User.id actor) ->
  let submission_id := AssignmentSubmission.id submission in
  let graded :=
    AssignmentSubmission.set_grade
      (Some (AssignmentSubmissionGrade.grade grade_data))
      (AssignmentSubmissionGrade.feedback grade_data) in
  let db' :=
    set_assignment_submissions
      (Query.update AssignmentSubmission.id submission_id graded
         (assignment_submissions db)) db in
  teachers.grade_submission db actor submission_id grade_data
  = (Return (graded submission), db')
  /\ AssignmentSubmission.grade (graded submission)
     = Some (AssignmentSubmissionGrade.grade grade_data)
  /\ AssignmentSubmission.feedback (graded submission)
     = AssignmentSubmissionGrade.feedback grade_data
  /\ Query.first (fun s => AssignmentSubmission.id s =? submission_id)
       (assignment_submissions db') = Some (graded submission)
  /\ teachers.grade_submission db' actor submission_id grade_data
     = (Return (graded submission), db').
Proof.
  intros Hreach Hin Hactor submission_id graded db'.
  apply reachable_consistent in Hreach.
  pose proof (first_by_pk AssignmentSubmission.id _ submission
                (assignment_submissions_pk db Hreach) Hin) as Hfound.
  fold submission_id in Hfound.
  assert (Hactor' :
    User.role actor = "admin"%string
    \/ (User.role actor = "teacher"%string
        /\ exists a,
             Query.first
               (fun a => Assignment.id a
                           =? AssignmentSubmission.assignment_id submission)
               (assignments db) = Some a
             /\ Assignment.created_by_id a = User.id actor)).
  { destruct Hactor as [Hadmin | (Hteacher & a & Ha & Hid & Hown)]; [now left|].
    right. split; [exact Hteacher|]. exists a. split; [|exact Hown].
    rewrite <- Hid.
    exact (first_by_pk Assignment.id _ a (assignments_pk db Hreach) Ha). }
  assert (Hfound' :
    Query.first (fun s => AssignmentSubmission.id s =? submission_id)
      (assignment_submissions db') = Some (graded submission)).
  { subst db'. store_fields. now apply first_update. }
  split; [|split; [|split; [|split]]]; try reflexivity.
  - now apply grade_submission_commits.
  - exact Hfound'.
  - rewrite (grade_submission_commits db' actor submission_id grade_data
               (graded submission) Hfound').
    + subst db'. store_fields. unfold set_assignment_submissions. store_fields.
      rewrite update_idempotent; reflexivity.
    + exact Hactor'.
Qed.

Lemma grade_submission_overwrites_witness :
  teachers.grade_submission submitted_db teacher1_user 1
    (AssignmentSubmissionGrade.mk "A" (Some "well done"))
  = (Return (AssignmentSubmission.mk 1 1 4 "my answer" 3 (Some "A")
               (Some "well done")),
     set_assignment_submissions
       [AssignmentSubmission.mk 1 1 4 "my answer" 3 (Some "A")
          (Some "well done")] submitted_db).
Proof.
  pose (s := AssignmentSubmission.mk 1 1 4 "my answer" 3 None None).
  assert (Hin : In s (assignment_submissions submitted_db))
    by (vm_compute; tauto).
  assert (Hactor :
    User.role teacher1_user = "admin"%string
    \/ (User.role teacher1_user = "teacher"%string
        /\ exists a, In a (assignments submitted_db)
             /\ Assignment.id a = AssignmentSubmission.assignment_id s
             /\ Assignment.created_by_id a = User.id teacher1_user)).
  { right. split; [reflexivity|].
    exists (Assignment.mk 1 "HW1" None "Math" "10A" 100 2 1).
    vm_compute. tauto. }
  exact (proj1 (grade_submission_overwrites (H := plain_auth_utils)
                  submitted_db teacher1_user
                  (AssignmentSubmissionGrade.mk "A" (Some "well done")) s
                  submitted_reachable Hin Hactor)).
Defined.

(** ** What a student sees of the assignments *)

Lemma filter_filter {A : Type} (p q : A -> bool) (l : list A) :
  filter q (filter p l) = filter (fun x => p x && q x) l.
Proof.
  induction l as [|x l IH]; simpl; [reflexivity|].
  destruct (p x); simpl; [destruct (q x)|]; now rewrite IH.
Qed.

Lemma filter_true {A : Type} (l : list A) : filter (fun _ => true) l = l.
Proof. induction l as [|x l IH]; simpl; congruence. Qed.

Lemma filter_nothing {A : Type} (p : A -> bool) (l : list A) :
  (forall x, In x l -> p x = false) -> filter p l = [].
Proof.
  induction l as [|x l IH]; simpl; intros Hp; [reflexivity|].
  rewrite (Hp x) by auto. auto.
Qed.

(** C6, as stated, fails: the class-based visibility does not govern every
    listing route open to students.  With HW1 of class "10A" the only
    assignment, a student of class "10B" who lists the assignments on
    [/api/students/assignments] is shown HW1. *)
Lemma student_route_lists_other_classes :
  ~ (forall (db : DB) (student : User.t) (class_name : string),
       reachable (H := plain_auth_utils) db ->
       User.role student = "student"%string ->
       (forall a, In a (assignments db) ->
          Assignment.class_name a <> class_name
          /\ Assignment.class_name a <> "all"%string) ->
       fst (students.get_student_assignments db student) = Return []).
Proof.
  intros Hclaim.
  specialize (Hclaim hw1_db student1_user "10B"%string hw1_reachable
                eq_refl).
  assert (Hother : forall a, In a (assignments hw1_db) ->
            Assignment.class_name a <> "10B"%string
            /\ Assignment.class_name a <> "all"%string).
  { intros a Ha. vm_compute in Ha. destruct Ha as [<-|[]].
    split; discriminate. }
  specialize (Hclaim Hother). vm_compute in Hclaim. discriminate.
Qed.

(** C6, amended. On [/api/assignments/assignments/] a student who supplies
    a class filter sees exactly the assignments of that class or of class
    "all", and among them those of the subject asked for when one is; so
    nothing when no assignment has that class or "all".  Without a class
    filter the same route shows the student every assignment of the
    subject asked for, and [/api/students/assignments] shows every
    assignment. *)
Theorem student_listing (db : DB) (student : User.t)
    (subject : option string) :
  User.role student = "student"%string ->
  (forall class_name, truthy class_name = true ->
     assignments.get_assignments db student (Some class_name) subject
     = (Return (filter (student_visible class_name subject) (assignments db)),
        db))
  /\ (forall class_name, truthy class_name = true ->
        (forall a, In a (assignments db) ->
           Assignment.class_name a <> class_name
           /\ Assignment.class_name a <> "all"%string) ->
        assignments.get_assignments db student (Some class_name) subject
        = (Return [], db))
  /\ (forall class_name, truthy_opt class_name = false ->
        assignments.get_assignments db student class_name subject
        = (Return (filter (subject_matches subject) (assignments db)), db))
  /\ students.get_student_assignments db student
     = (Return (assignments db), db).
Proof.
  intros Hrole.
  assert (Hfiltered : forall class_name, truthy class_name = true ->
    assignments.get_assignments db student (Some class_name) subject
    = (Return (filter (student_visible class_name subject) (assignments db)),
       db)).
  { intros c Hc. unfold assignments.get_assignments, Query.all.
    rewrite Hrole, Hc. cbn [String.eqb Ascii.eqb Bool.eqb].
    unfold student_visible, subject_matches.
    destruct subject as [s|]; [destruct (truthy s)|].
    - now rewrite filter_filter.
    - do 2 f_equal. apply filter_ext. intros a. now rewrite andb_true_r.
    - do 2 f_equal. apply filter_ext. intros a. now rewrite andb_true_r. }
  split; [exact Hfiltered|split; [|split]].
  - intros c Hc Hother. rewrite Hfiltered by exact Hc.
    rewrite filter_nothing; [reflexivity|].
    intros a Ha. destruct (Hother a Ha) as [Hc' Hall].
    unfold student_visible.
    apply String.eqb_neq in Hc', Hall. now rewrite Hc', Hall.
  - intros c Hc. unfold assignments.get_assignments, Query.all.
    rewrite Hrole. cbn [String.eqb Ascii.eqb Bool.eqb].
    unfold subject_matches.
    assert (Hquery :
      match c with
      | Some c0 =>
          if truthy c0
          then filter (fun a => (Assignment.class_name a =? c0)%string
                                || (Assignment.class_name a =? "all")%string)
                 (assignments db)
          else assignments db
      | None => assignments db
      end = assignments db).
    { destruct c as [c0|]; [|reflexivity]. cbn in Hc. now rewrite Hc. }
    rewrite Hquery.
    destruct subject as [s|]; [destruct (truthy s)|];
      now rewrite ?filter_true.
  - unfold students.get_student_assignments. now rewrite Hrole.
Qed.

Lemma student_listing_witness :
  assignments.get_assignments hw1_db student1_user (Some "10B"%string) None
  = (Return [], hw1_db)
  /\ students.get_student_assignments hw1_db student1_user
     = (Return (assignments hw1_db), hw1_db).
Proof.
  destruct (student_listing hw1_db student1_user None eq_refl)
    as (_ & Hempty & _ & Hall).
  split; [|exact Hall].
  apply Hempty; [reflexivity|].
  intros a Ha. vm_compute in Ha. destruct Ha as [<-|[]].
  split; discriminate.
Defined.

(** ** Registration intake *)

Lemma first_decide {A : Type} (p : A -> bool) (rows : list A) :
  (exists x, Query.first p rows = Some x /\ In x rows /\ p x = true)
  \/ (Query.first p rows = None /\ forall x, In x rows -> p x = false).
Proof.
  unfold Query.first. destruct (find p rows) as [x|] eqn:E.
  - left. exists x. apply find_some in E. tauto.
  - right. split; [reflexivity|]. intros x Hx. exact (find_none _ _ E x Hx).
Qed.

Lemma or_eqb_true (a b c d : string) :
  ((a =? b)%string || (c =? d)%string = true) <-> (a = b \/ c = d).
Proof. rewrite orb_true_iff, !String.eqb_eq. tauto. Qed.

(** C7, as stated, fails: not every intake route refuses a candidate whose
    username belongs to a user.  After startup, [/api/registration-requests/]
    accepts a request for the username "admin". *)
Lemma intake_accepts_known_username :
  ~ (forall (db : DB) (now : Z) (request : RegistrationRequestCreate.t),
       reachable (H := plain_auth_utils) db ->
       known_user db request \/ pending_request db request ->
       Conflict
         (fst (registration_requests.create_registration_request db now
                 request))).
Proof.
  intros Hclaim.
  specialize (Hclaim seeded_db 1
                (RegistrationRequestCreate.mk "admin" "root@school.com"
                   "Second Admin" "admin")
                seeded_reachable).
  assert (Hknown :
    known_user seeded_db
      (RegistrationRequestCreate.mk "admin" "root@school.com" "Second Admin"
         "admin")).
  { exists admin_user. split; [vm_compute; tauto | left; reflexivity]. }
  specialize (Hclaim (or_introl Hknown)).
  vm_compute in Hclaim. discriminate.
Qed.

(** C7, amended. [/api/auth/register-request] answers 400 exactly when the
    candidate's username or email belongs to a user or to a pending
    request, and otherwise stores the request as pending.
    [/api/registration-requests/] answers 400 exactly when a request of
    any status carries the candidate's email, and otherwise stores the
    request as pending.  A refused intake stores nothing. *)
Theorem intake_conflicts (db : DB) (now : Z)
    (request : RegistrationRequestCreate.t) :
  (Conflict (fst (auth.create_registration_request db now request))
   <-> known_user db request \/ pending_request db request)
  /\ (known_user db request \/ pending_request db request ->
      snd (auth.create_registration_request db now request) = db)
  /\ (~ (known_user db request \/ pending_request db request) ->
      auth.create_registration_request db now request
      = (Return (new_request db now request), with_new_request db now request))
  /\ (Conflict
        (fst (registration_requests.create_registration_request db now
                request))
      <-> same_email_request db request)
  /\ (same_email_request db request ->
      snd (registration_requests.create_registration_request db now request)
      = db)
  /\ (~ same_email_request db request ->
      registration_requests.create_registration_request db now request
      = (Return (new_request db now request), with_new_request db now request))
  /\ RegistrationRequest.status (new_request db now request)
     = "pending"%string.
Proof.
  assert (Hauth :
    (known_user db request \/ pending_request db request)
    /\ Conflict (fst (auth.create_registration_request db now request))
    /\ snd (auth.create_registration_request db now request) = db
    \/ ~ (known_user db request \/ pending_request db request)
       /\ auth.create_registration_request db now request
          = (Return (new_request db now request),
             with_new_request db now request)).
  { unfold auth.create_registration_request.
    destruct (first_decide
                (fun u =>
                   (User.username u
                      =? RegistrationRequestCreate.username request)%string
                   || (User.email u
                         =? RegistrationRequestCreate.email request)%string)
                (users db)) as [(u & -> & Hin & Hu) | [-> Hnone]].
    { left. repeat split; try reflexivity.
      left. exists u. split; [exact Hin|]. now apply or_eqb_true. }
    destruct (first_decide
                (fun r =>
                   ((RegistrationRequest.username r
                       =? RegistrationRequestCreate.username request)%string
                    || (RegistrationRequest.email r
                          =? RegistrationRequestCreate.email request)%string)
                   && (RegistrationRequest.status r =? "pending")%string)
                (registration_requests db))
      as [(r & -> & Hin & Hr) | [-> Hnone']].
    { left. repeat split; try reflexivity.
      right. exists r. apply andb_true_iff in Hr as [Hr Hs].
      apply String.eqb_eq in Hs. apply or_eqb_true in Hr. auto. }
    right. split; [|reflexivity].
    intros [(u & Hin & Hu) | (r & Hin & Hs & Hr)].
    - apply or_eqb_true in Hu. rewrite (Hnone u Hin) in Hu. discriminate.
    - apply or_eqb_true in Hr. apply String.eqb_eq in Hs.
      specialize (Hnone' r Hin). cbn beta in Hnone'.
      rewrite Hr, Hs in Hnone'. discriminate. }
  assert (Hother :
    same_email_request db request
    /\ Conflict
         (fst (registration_requests.create_registration_request db now
                 request))
    /\ snd (registration_requests.create_registration_request db now request)
       = db
    \/ ~ same_email_request db request
       /\ registration_requests.create_registration_request db now request
          = (Return (new_request db now request),
             with_new_request db now request)).
  { unfold registration_requests.create_registration_request.
    destruct (first_decide
                (fun r => (RegistrationRequest.email r
                             =? RegistrationRequestCreate.email request)%string)
                (registration_requests db))
      as [(r & -> & Hin & Hr) | [-> Hnone]].
    - left. repeat split; try reflexivity.
      exists r. apply String.eqb_eq in Hr. auto.
    - right. split; [|reflexivity].
      intros (r & Hin & Hr). apply String.eqb_eq in Hr.
      rewrite (Hnone r Hin) in Hr. discriminate. }
  repeat split.
  - destruct Hauth as [(Hk & _) | (Hk & Heq)]; [tauto|].
    rewrite Heq. cbn. discriminate.
  - destruct Hauth as [(_ & Hc & _) | (Hk & _)]; tauto.
  - destruct Hauth as [(_ & _ & Hs) | (Hk & _)]; tauto.
  - destruct Hauth as [(Hk & _) | (_ & Heq)]; tauto.
  - destruct Hother as [(Hk & _) | (Hk & Heq)]; [tauto|].
    rewrite Heq. cbn. discriminate.
  - destruct Hother as [(_ & Hc & _) | (Hk & _)]; tauto.
  - destruct Hother as [(_ & _ & Hs) | (Hk & _)]; tauto.
  - destruct Hother as [(Hk & _) | (_ & Heq)]; tauto.
Qed.

Lemma intake_conflicts_witness :
  Conflict
    (fst (auth.create_registration_request john_pending_db 5 john_b_request))
  /\ snd (auth.create_registration_request john_pending_db 5 john_b_request)
     = john_pending_db.
Proof.
  destruct (intake_conflicts john_pending_db 5 john_b_request)
    as (Hiff & Hsame & _).
  assert (Hpending : pending_request john_pending_db john_b_request).
  { exists (RegistrationRequest.mk 1 "john" "john@a.com" "John A" "student"
              "pending" 4 None).
    split; [vm_compute; tauto|]. split; [reflexivity|]. left. reflexivity. }
  split; [apply Hiff | apply Hsame]; right; exact Hpending.
Defined.

(** ** The authorization gate *)

(** C1, as stated, fails: a route open to another role can be closed to an
    admin.  After startup the gate of
    [/api/messages/messages/send-to-teacher] lets [student1] through (the
    handler then raises on [message.to_user_id]), and answers the stored
    admin 403 for the same request. *)
Lemma admin_refused_send_to_teacher :
  ~ (forall (db : DB) (now : Z) (actor admin : User.t) (a : Action),
       In (User.role actor) ["teacher"; "student"; "parent"]%string ->
       User.role admin = "admin"%string ->
       allowed (H := plain_auth_utils) db now actor a = true ->
       allowed (H := plain_auth_utils) db now admin a = true).
Proof.
  intros Hclaim.
  specialize (Hclaim seeded_db 1 student1_user admin_user
                (messages_send_to_teacher hello)).
  assert (Hrole : In (User.role student1_user)
                    ["teacher"; "student"; "parent"]%string)
    by (right; left; reflexivity).
  specialize (Hclaim Hrole eq_refl eq_refl).
  vm_compute in Hclaim. discriminate.
Qed.

Ltac as_admin :=
  cbn [User.role User.id str_in existsb String.eqb Ascii.eqb
       Bool.eqb negb orb andb] in *.

(** C1, amended. On every route but the five kept for students, or for
    students and parents (the two submit routes, the student's own
    assignment and submission lists, send-to-teacher), a request that is
    not refused as Forbidden to some actor is not refused as Forbidden to
    any admin, whoever created the rows the request is about; those five
    routes answer every admin 403. *)
Theorem admin_allowed_elsewhere `{AuthUtils} (db : DB) (now : Z)
    (actor admin : User.t) (a : Action) :
  User.role admin = "admin"%string ->
  (student_side a = false ->
   allowed db now actor a = true ->
   allowed db now admin a = true)
  /\ (student_side a = true -> allowed db now admin a = false).
Proof.
  intros Hadmin. split.
  - intros Hside Hallowed.
    destruct a; try discriminate Hside; clear Hside;
      unfold allowed in *; cbn [handle answer fst] in *; unfold_handlers;
      rewrite ?Hadmin; as_admin; try reflexivity.
    all: handler_cases; try reflexivity; try assumption.
    all: match goal with
         | E : _ && false = true |- _ =>
             rewrite andb_false_r in E; discriminate E
         end.
  - intros Hside.
    destruct a; try discriminate Hside; clear Hside;
      unfold allowed; cbn [handle answer fst]; unfold_handlers;
      rewrite ?Hadmin; as_admin; reflexivity.
Qed.

Lemma admin_allowed_elsewhere_witness :
  allowed (H := plain_auth_utils) hw1_db 2 teacher1_user (assignments_delete 1)
  = true
  /\ Assignment.created_by_id (Assignment.mk 1 "HW1" None "Math" "10A" 100 2 1)
     <> User.id admin_user
  /\ allowed (H := plain_auth_utils) hw1_db 2 admin_user (assignments_delete 1)
     = true
  /\ allowed (H := plain_auth_utils) hw1_db 2 admin_user
       (students_submit 1 answer1) = false.
Proof.
  split; [reflexivity|]. split; [discriminate|]. split.
  - apply (proj1 (admin_allowed_elsewhere (H := plain_auth_utils) hw1_db 2
                    teacher1_user admin_user (assignments_delete 1)
                    eq_refl));
      reflexivity.
  - apply (proj2 (admin_allowed_elsewhere (H := plain_auth_utils) hw1_db 2
                    teacher1_user admin_user (students_submit 1 answer1)
                    eq_refl)).
    reflexivity.
Defined.

(** ** Reviewing a registration request *)

(** A request that is no longer pending is closed to review on all three
    routes: an admin is answered 400, and whoever asks, the store stays as
    it is. *)
Lemma processed_request_is_final `{AuthUtils} (db : DB) (now : Z)
    (actor : User.t) (request_id : Z) (request : RegistrationRequest.t)
    (request_update : RegistrationRequestUpdate.t) :
  Query.first (fun r => RegistrationRequest.id r =? request_id)
    (registration_requests db) = Some request ->
  RegistrationRequest.status request <> "pending"%string ->
  snd (auth.process_registration_request db now actor request_id
         request_update) = db
  /\ snd (registration_requests.approve_registration_request db actor
            request_id) = db
  /\ snd (registration_requests.reject_registration_request db actor
            request_id) = db
  /\ (User.role actor = "admin"%string ->
      auth.process_registration_request db now actor request_id request_update
      = (HTTPException HTTP_400_BAD_REQUEST
           "Request has already been processed", db)
      /\ registration_requests.approve_registration_request db actor
           request_id
         = (HTTPException HTTP_400_BAD_REQUEST
              "Request has already been processed", db)
      /\ registration_requests.reject_registration_request db actor request_id
         = (HTTPException HTTP_400_BAD_REQUEST
              "Request has already been processed", db)).
Proof.
  intros Hfound Hstatus. apply String.eqb_neq in Hstatus.
  unfold auth.process_registration_request,
    registration_requests.approve_registration_request,
    registration_requests.reject_registration_request.
  rewrite Hfound, Hstatus. cbn [negb].
  split; [|split; [|split]]; try (destruct (negb _); reflexivity).
  intros ->. cbn [String.eqb Ascii.eqb Bool.eqb negb]. auto.
Qed.

(** A review that decides, approved or rejected, closes the request: the
    stored status is the decision, and a second review is answered 400. *)
Lemma decided_request_is_closed `{AuthUtils} (db db' : DB) (now now' : Z)
    (admin : User.t) (request_id : Z) (decision : string)
    (answer : RegistrationRequest.t)
    (request_update' : RegistrationRequestUpdate.t) :
  decision = "approved"%string \/ decision = "rejected"%string ->
  auth.process_registration_request db now admin request_id
    (RegistrationRequestUpdate.mk decision) = (Return answer, db') ->
  RegistrationRequest.status answer = decision
  /\ Query.first (fun r => RegistrationRequest.id r =? request_id)
       (registration_requests db') = Some answer
  /\ auth.process_registration_request db' now' admin request_id
       request_update'
     = (HTTPException HTTP_400_BAD_REQUEST
          "Request has already been processed", db').
Proof.
  intros Hdecision Hfirst.
  assert (Hclosed : decision <> "pending"%string)
    by (destruct Hdecision; subst; discriminate).
  unfold auth.process_registration_request in Hfirst.
  destruct (User.role admin =? "admin")%string eqn:Hrole;
    [|discriminate Hfirst].
  cbn [negb] in Hfirst.
  destruct (Query.first _ (registration_requests db)) as [request|] eqn:Hfound;
    [|discriminate Hfirst].
  destruct (negb _); [discriminate Hfirst|].
  cbn [RegistrationRequestUpdate.status] in Hfirst.
  assert (Hstored :
    Query.first (fun r => RegistrationRequest.id r =? request_id)
      (registration_requests db')
    = Some answer /\ RegistrationRequest.status answer = decision).
  { destruct (decision =? "approved")%string.
    - destruct (Query.users_unique _ _); [|discriminate Hfirst].
      injection Hfirst as <- <-. store_fields.
      split; [|reflexivity]. now apply first_update.
    - injection Hfirst as <- <-. store_fields.
      split; [|reflexivity]. now apply first_update. }
  destruct Hstored as [Hstored Hstatus].
  repeat split; try assumption.
  apply String.eqb_eq in Hrole.
  apply (processed_request_is_final db' now' admin request_id answer
           request_update' Hstored); congruence.
Qed.

Section RowFacts.
Context {A : Type} (pk : A -> Z).

Lemma same_key_same_row (rows : list A) (r r' : A) :
  NoDup (map pk rows) -> In r rows -> In r' rows -> pk r' = pk r -> r' = r.
Proof.
  intros Hnd Hr Hr' Hpk.
  pose proof (first_by_pk pk rows r Hnd Hr) as E.
  pose proof (first_by_pk pk rows r' Hnd Hr') as E'.
  rewrite Hpk in E'. congruence.
Qed.

Lemma in_add_old (rows : list A) (x r r' : A) :
  pk x = Query.next_id pk rows -> In r rows -> pk r' = pk r ->
  In r' (Query.add x rows) -> In r' rows.
Proof.
  intros Hx Hr Hpk Hin. unfold Query.add in Hin.
  apply in_app_iff in Hin as [Hin|[<-|[]]]; [exact Hin|].
  apply (next_id_above pk) in Hr. lia.
Qed.

Lemma in_update (k : Z) (f : A -> A) (rows : list A) (r' : A) :
  In r' (Query.update pk k f rows) ->
  In r' rows
  \/ exists x, Query.first (fun y => pk y =? k) rows = Some x /\ r' = f x.
Proof.
  unfold Query.first.
  induction rows as [|y rows IH]; simpl; [tauto|].
  destruct (pk y =? k); simpl.
  - intros [<-|Hin]; eauto.
  - intros [<-|Hin]; [auto|]. destruct (IH Hin); auto.
Qed.

Lemma in_delete (k : Z) (rows : list A) (r' : A) :
  In r' (Query.delete pk k rows) -> In r' rows.
Proof. unfold Query.delete. intros Hin. now apply filter_In in Hin. Qed.
End RowFacts.

Lemma closed_row_survives_update (rows : list RegistrationRequest.t) (k : Z)
    (f : RegistrationRequest.t -> RegistrationRequest.t)
    (x r r' : RegistrationRequest.t) :
  NoDup (map RegistrationRequest.id rows) ->
  (forall y, RegistrationRequest.id (f y) = RegistrationRequest.id y) ->
  Query.first (fun y => RegistrationRequest.id y =? k) rows = Some x ->
  negb (RegistrationRequest.status x =? "pending")%string = false ->
  In r rows -> RegistrationRequest.status r <> "pending"%string ->
  In r' (Query.update RegistrationRequest.id k f rows) ->
  RegistrationRequest.id r' = RegistrationRequest.id r ->
  r' = r.
Proof.
  intros Hnd Hf Hx Hpending Hr Hclosed Hr' Hid.
  apply in_update in Hr' as [Hr'|(y & Hy & ->)].
  - now apply (same_key_same_row RegistrationRequest.id rows).
  - exfalso. rewrite Hx in Hy. injection Hy as <-.
    apply first_some in Hx as [Hx Hk]. rewrite Hf in Hid.
    assert (x = r)
      by now apply (same_key_same_row RegistrationRequest.id rows).
    subst x. apply negb_false_iff, String.eqb_eq in Hpending. contradiction.
Qed.

Lemma seed_keeps_requests `{AuthUtils} (db : DB) (now : Z) :
  registration_requests (snd (main.seed_default_users db now))
  = registration_requests db.
Proof.
  assert (Hensure : forall db username email password name role,
    registration_requests
      (snd (main.ensure_user db now username email password name role))
    = registration_requests db).
  { intros. unfold main.ensure_user. handler_cases; reflexivity. }
  assert (Hthen : forall r k,
    (forall db,
       registration_requests (snd (k db)) = registration_requests db) ->
    registration_requests (snd (main.and_then r k))
    = registration_requests (snd r)).
  { intros [[[] | c d | e] db0] k Hk; cbn [main.and_then snd]; auto. }
  unfold main.seed_default_users.
  repeat (rewrite Hthen; [|intros]); apply Hensure.
Qed.

(** Whatever request is served next, a registration request that is no
    longer pending is either gone from the store or there unchanged: no
    route moves a request out of a status other than "pending". *)
Lemma closed_request_never_changes `{AuthUtils} (db db' : DB)
    (r r' : RegistrationRequest.t) :
  consistent db -> step db db' ->
  In r (registration_requests db) ->
  RegistrationRequest.status r <> "pending"%string ->
  In r' (registration_requests db') ->
  RegistrationRequest.id r' = RegistrationRequest.id r ->
  r' = r.
Proof.
  intros C Hstep Hr Hclosed Hr' Hid.
  pose proof (registration_requests_pk db C) as Hnd.
  assert (Hsame : In r' (registration_requests db) -> r' = r)
    by (intros Hin;
        now apply (same_key_same_row RegistrationRequest.id
                     (registration_requests db))).
  destruct Hstep as [now a | now u a Hu].
  - destruct a; cbn [handle_public answer snd fst] in Hr'; auto.
    + rewrite seed_keeps_requests in Hr'. auto.
    + unfold auth.login in Hr'.
      repeat match type of Hr' with
             | context [if ?b then _ else _] => destruct b eqn:?
             | context [match ?x with _ => _ end] => destruct x eqn:?
             end; auto.
    + unfold auth.create_registration_request in Hr'.
      repeat match type of Hr' with
             | context [match ?x with _ => _ end] => destruct x eqn:?
             end; cbn [snd] in Hr'; auto.
      apply Hsame. revert Hr'. store_fields.
      now apply (in_add_old RegistrationRequest.id _ _ r).
    + unfold registration_requests.create_registration_request in Hr'.
      repeat match type of Hr' with
             | context [match ?x with _ => _ end] => destruct x eqn:?
             end; cbn [snd] in Hr'; auto.
      apply Hsame. revert Hr'. store_fields.
      now apply (in_add_old RegistrationRequest.id _ _ r).
  - destruct a; cbn [handle answer snd fst] in Hr'; auto.
    all: unfold_handlers.
    all: repeat match type of Hr' with
                | context [if ?b then _ else _] => destruct b eqn:?
                | context [match ?x with _ => _ end] => destruct x eqn:?
                end; cbn [snd] in Hr'; auto.
    all: revert Hr'; store_fields; intros Hr'; auto.
    all: try (eapply closed_row_survives_update; eauto; reflexivity).
    apply Hsame. now apply in_delete in Hr'.
Qed.

(** C3. On [/api/auth/register-requests/{id}] the decision is any string.
    A review of the pending request of john that carries the decision
    "pending" succeeds and leaves the request pending; the second review
    of the same request succeeds as well, where the claim has it answered
    with Conflict. *)
Theorem review_with_pending_decision_repeats :
  let decision := RegistrationRequestUpdate.mk "pending" in
  let first_review :=
    auth.process_registration_request (H := plain_auth_utils)
      john_pending_db 5 admin_user 1 decision in
  let second_review :=
    auth.process_registration_request (H := plain_auth_utils)
      (snd first_review) 6 admin_user 1 decision in
  status_of (fst first_review) = HTTP_200_OK
  /\ status_of (fst second_review) = HTTP_200_OK
  /\ ~ Conflict (fst second_review)
  /\ map RegistrationRequest.status (registration_requests (snd second_review))
     = ["pending"%string].
Proof.
  cbv zeta. repeat split; try reflexivity.
  vm_compute. discriminate.
Qed.

(** ** Approving a registration request *)

Section Strings.
Local Open Scope string_scope.

Lemma str_of_nat_inj (n m : nat) : str_of_nat n = str_of_nat m -> n = m.
Proof.
  unfold str_of_nat. intros E.
  apply (f_equal NilEmpty.uint_of_string) in E.
  rewrite !NilEmpty.usu in E. injection E as E.
  now apply DecimalNat.Unsigned.to_uint_inj.
Qed.

Lemma str_of_nat_nonempty (n : nat) : str_of_nat n <> "".
Proof.
  unfold str_of_nat. intros E.
  apply (f_equal NilEmpty.uint_of_string) in E.
  rewrite NilEmpty.usu in E. cbn in E. injection E as E.
  pose proof (DecimalNat.Unsigned.of_to n) as Hn. rewrite E in Hn.
  cbn in Hn. subst n. discriminate E.
Qed.

Lemma append_inj_r (s a b : string) : s ++ a = s ++ b -> a = b.
Proof. induction s as [|c s IH]; cbn; [auto|]. intros [= E]. auto. Qed.

Lemma append_self (s a : string) : s = s ++ a -> a = "".
Proof.
  intros E. apply (append_inj_r s). rewrite <- E.
  clear. induction s as [|c s IH]; cbn; congruence.
Qed.

Lemma candidate_inj (base : string) (j k : nat) :
  candidate base j = candidate base k -> j = k.
Proof.
  destruct j as [|j], k as [|k]; cbn [candidate]; intros E.
  - reflexivity.
  - apply append_self in E. now apply str_of_nat_nonempty in E.
  - symmetry in E. apply append_self in E.
    now apply str_of_nat_nonempty in E.
  - apply append_inj_r in E. now apply str_of_nat_inj.
Qed.
End Strings.

Lemma NoDup_map_injective {A B : Type} (f : A -> B) (l : list A) :
  (forall x y, f x = f y -> x = y) -> NoDup l -> NoDup (map f l).
Proof.
  intros Hf. induction 1 as [|x l Hnotin Hnd IH]; simpl; constructor; auto.
  intros Hin. apply in_map_iff in Hin as (y & Hy & Hin).
  apply Hf in Hy. subst y. contradiction.
Qed.

(** Among base, base1, ..., base<n> one is the name of none of n users. *)
Lemma candidates_outnumber (base : string) (names : list string) :
  ~ (forall j, (j <= length names)%nat -> In (candidate base j) names).
Proof.
  intros Hall.
  pose (cands := map (candidate base) (seq 0 (S (length names)))).
  assert (Hnd : NoDup cands).
  { apply NoDup_map_injective; [apply candidate_inj | apply seq_NoDup]. }
  assert (Hincl : incl cands names).
  { intros c Hc. apply in_map_iff in Hc as (j & <- & Hj).
    apply in_seq in Hj. apply Hall. lia. }
  pose proof (NoDup_incl_length Hnd Hincl) as Hlen.
  unfold cands in Hlen. rewrite length_map, length_seq in Hlen. lia.
Qed.

Section Loop.
Variable taken : string -> bool.
Variable base : string.

(** The loop entered with candidate number [c] stops at the first
    candidate from [c] on that is free. *)
Lemma ensure_unique_username_stops (fuel c : nat) (name : string) :
  registration_requests.ensure_unique_username fuel taken base
    (candidate base c) (S c) = Some name ->
  exists k, (c <= k <= c + fuel)%nat
    /\ name = candidate base k
    /\ taken name = false
    /\ forall j, (c <= j < k)%nat -> taken (candidate base j) = true.
Proof.
  revert c.
  induction fuel as [|fuel IH]; intros c;
    cbn [registration_requests.ensure_unique_username].
  - destruct (taken (candidate base c)) eqn:E; [discriminate|].
    intros [= <-]. exists c. repeat split; auto; try lia; intros; lia.
  - destruct (taken (candidate base c)) eqn:E.
    + rewrite Nat.add_1_r. change (base ++ str_of_nat (S c))%string
        with (candidate base (S c)).
      intros Hloop. apply IH in Hloop as (k & Hk & Hname & Hfree & Hbelow).
      exists k. repeat split; auto; try lia.
      intros j Hj. destruct (Nat.eq_dec j c) as [->|Hne]; [exact E|].
      apply Hbelow. lia.
    + intros [= <-]. exists c. repeat split; auto; try lia; intros; lia.
Qed.

(** The loop runs out of rounds only if every candidate it tried is taken. *)
Lemma ensure_unique_username_exhausted (fuel c : nat) :
  registration_requests.ensure_unique_username fuel taken base
    (candidate base c) (S c) = None ->
  forall j, (c <= j <= c + fuel)%nat -> taken (candidate base j) = true.
Proof.
  revert c.
  induction fuel as [|fuel IH]; intros c;
    cbn [registration_requests.ensure_unique_username].
  - destruct (taken (candidate base c)) eqn:E; [|discriminate].
    intros _ j Hj. assert (j = c) as -> by lia. exact E.
  - destruct (taken (candidate base c)) eqn:E; [|discriminate].
    rewrite Nat.add_1_r. change (base ++ str_of_nat (S c))%string
      with (candidate base (S c)).
    intros Hloop j Hj. destruct (Nat.eq_dec j c) as [->|Hne]; [exact E|].
    apply (IH _ Hloop). lia.
Qed.
End Loop.

Lemma username_taken_iff (db : DB) (name : string) :
  registration_requests.username_taken db name = true
  <-> In name (map User.username (users db)).
Proof.
  unfold registration_requests.username_taken.
  destruct (first_decide (fun u => (User.username u =? name)%string)
              (users db)) as [(u & -> & Hin & Hu) | [-> Hnone]].
  - apply String.eqb_eq in Hu. split; [|reflexivity].
    intros _. apply in_map_iff. eauto.
  - split; [discriminate|]. intros Hin.
    apply in_map_iff in Hin as (u & Hu & Hin).
    apply String.eqb_eq in Hu. rewrite (Hnone u Hin) in Hu. discriminate.
Qed.

(** The loop of [approve_registration_request] ends within one round per
    stored user, on the first of base, base1, base2, ... that no user has. *)
Lemma ensure_unique_username_terminates (db : DB) (base : string) :
  exists k,
    registration_requests.ensure_unique_username (length (users db))
      (registration_requests.username_taken db) base base 1
    = Some (candidate base k)
    /\ ~ In (candidate base k) (map User.username (users db))
    /\ forall j, (j < k)%nat ->
         In (candidate base j) (map User.username (users db)).
Proof.
  destruct (registration_requests.ensure_unique_username (length (users db))
              (registration_requests.username_taken db) base base 1)
    as [name|] eqn:Hloop.
  - apply (ensure_unique_username_stops _ base _ 0) in Hloop
      as (k & Hk & -> & Hfree & Hbelow).
    exists k. split; [reflexivity|]. split.
    + intros Hin. apply username_taken_iff in Hin. congruence.
    + intros j Hj. apply username_taken_iff. apply Hbelow. lia.
  - exfalso.
    apply (candidates_outnumber base (map User.username (users db))).
    intros j Hj. rewrite length_map in Hj. apply username_taken_iff.
    apply (ensure_unique_username_exhausted _ base _ 0 Hloop). lia.
Qed.

Lemma users_unique_intro (us : list User.t) (u : User.t) :
  (forall v, In v us -> User.username v <> User.username u) ->
  (forall v, In v us -> User.email v <> User.email u) ->
  Query.users_unique us u = true.
Proof.
  intros Hname Hemail. unfold Query.users_unique.
  apply negb_true_iff.
  destruct (existsb _ us) eqn:E; [|reflexivity].
  apply existsb_exists in E as (v & Hin & Hv).
  apply or_eqb_true in Hv as [Hv|Hv];
    [now apply Hname in Hv | now apply Hemail in Hv].
Qed.

(** On [/api/registration-requests/registration-requests/{id}/approve] an
    admin's approval of a pending request runs the loop to its end and then
    raises on [request.first_name]: no user is created and the request
    stays pending. *)
Lemma approve_registration_request_raises `{AuthUtils} (db : DB)
    (admin : User.t) (request_id : Z) (request : RegistrationRequest.t) :
  User.role admin = "admin"%string ->
  Query.first (fun r => RegistrationRequest.id r =? request_id)
    (registration_requests db) = Some request ->
  RegistrationRequest.status request = "pending"%string ->
  registration_requests.approve_registration_request db admin request_id
  = (Unhandled "AttributeError", db).
Proof.
  intros Hadmin Hfound Hpending.
  unfold registration_requests.approve_registration_request.
  rewrite Hadmin, Hfound, Hpending.
  cbn [String.eqb Ascii.eqb Bool.eqb negb].
  destruct (ensure_unique_username_terminates db
              (split_head "@"%char (RegistrationRequest.email request)))
    as (k & -> & _).
  reflexivity.
Qed.

(** Whatever the request and whoever asks, that route answers no 200 and
    changes nothing. *)
Lemma approve_registration_request_changes_nothing `{AuthUtils} (db : DB)
    (actor : User.t) (request_id : Z) :
  status_of
    (fst (registration_requests.approve_registration_request db actor
            request_id)) <> HTTP_200_OK
  /\ snd (registration_requests.approve_registration_request db actor
            request_id) = db.
Proof.
  unfold registration_requests.approve_registration_request.
  handler_cases; cbn; split; (reflexivity || discriminate).
Qed.

(** On [/api/auth/register-requests/{id}] an approval creates the user
    under the request's own username, when no user has that username or
    the request's email. *)
Lemma auth_route_approval_username `{AuthUtils} (db : DB) (now : Z)
    (admin : User.t) (request : RegistrationRequest.t) :
  reachable db ->
  User.role admin = "admin"%string ->
  In request (registration_requests db) ->
  RegistrationRequest.status request = "pending"%string ->
  (forall u, In u (users db) ->
     User.email u <> RegistrationRequest.email request) ->
  (forall u, In u (users db) ->
     User.username u <> RegistrationRequest.username request) ->
  exists db',
    auth.process_registration_request db now admin
      (RegistrationRequest.id request)
      (RegistrationRequestUpdate.mk "approved")
    = (Return (RegistrationRequest.set_status "approved" (Some now)
                 request), db')
    /\ users db'
       = (users db
          ++ [User.mk (Query.next_id User.id (users db))
                (RegistrationRequest.username request)
                (RegistrationRequest.email request)
                (get_password_hash
                   (RegistrationRequest.username request ++ "123"))
                (RegistrationRequest.name request)
                (RegistrationRequest.role request) now])%list.
Proof.
  intros Hreach Hadmin Hin Hpending Hemail Hname.
  apply reachable_consistent in Hreach.
  pose proof (first_by_pk RegistrationRequest.id _ request
                (registration_requests_pk db Hreach) Hin) as Hfound.
  assert (Hunique :
    Query.users_unique (users db)
      (User.mk (Query.next_id User.id (users db))
         (RegistrationRequest.username request)
         (RegistrationRequest.email request)
         (get_password_hash (RegistrationRequest.username request ++ "123"))
         (RegistrationRequest.name request)
         (RegistrationRequest.role request) now) = true).
  { now apply users_unique_intro. }
  eexists. split.
  - unfold auth.process_registration_request.
    rewrite Hadmin, Hfound, Hpending.
    cbn [String.eqb Ascii.eqb Bool.eqb negb RegistrationRequestUpdate.status].
    rewrite Hunique. reflexivity.
  - reflexivity.
Qed.

(** When a user has the request's username already, that route adds no
    suffix: with john a user and a second john pending, the approval on
    [/api/auth/register-requests/2] keeps the username "john", the store
    refuses the row, and no user is created. *)
Lemma auth_route_approval_adds_no_suffix :
  ~ (forall (db : DB) (now : Z) (admin : User.t)
       (request : RegistrationRequest.t),
       reachable (H := plain_auth_utils) db ->
       User.role admin = "admin"%string ->
       In request (registration_requests db) ->
       RegistrationRequest.status request = "pending"%string ->
       exists new_user,
         users (snd (auth.process_registration_request
                       (H := plain_auth_utils) db now admin
                       (RegistrationRequest.id request)
                       (RegistrationRequestUpdate.mk "approved")))
         = (users db ++ [new_user])%list
         /\ ~ In (User.username new_user) (map User.username (users db))).
Proof.
  intros Hclaim.
  pose (request := RegistrationRequest.mk 2 "john" "john@b.com" "John B"
                     "student" "pending" 6 None).
  assert (Hin : In request (registration_requests two_johns_db))
    by (vm_compute; tauto).
  destruct (Hclaim two_johns_db 7 admin_user request two_johns_reachable
              eq_refl Hin eq_refl) as (new_user & Husers & _).
  vm_compute in Husers. discriminate Husers.
Qed.

(** C4. With john a user and the request of a second john, john@b.com,
    pending under id 2, the approval by the admin on
    [/api/registration-requests/registration-requests/2/approve] settles
    on the username "john1" and then raises [AttributeError]: no user is
    created and the request stays pending, where the claim has a user
    "john1" created.  On [/api/auth/register-requests/2] the approval
    adds no suffix, and the store refuses the second "john". *)
Theorem approval_of_second_john_creates_no_user :
  map User.username (users two_johns_db)
  = ["admin"; "teacher1"; "parent1"; "student1"; "john"]%string
  /\ map (fun r => (RegistrationRequest.id r, RegistrationRequest.email r,
                    RegistrationRequest.status r))
       (registration_requests two_johns_db)
     = [(1, "john@a.com", "approved"); (2, "john@b.com", "pending")]%string
  /\ registration_requests.ensure_unique_username
       (length (users two_johns_db))
       (registration_requests.username_taken two_johns_db)
       "john" "john" 1 = Some "john1"%string
  /\ registration_requests.approve_registration_request
       (H := plain_auth_utils) two_johns_db admin_user 2
     = (Unhandled "AttributeError", two_johns_db)
  /\ auth.process_registration_request (H := plain_auth_utils) two_johns_db 7
       admin_user 2 (RegistrationRequestUpdate.mk "approved")
     = (Unhandled "IntegrityError", two_johns_db).
Proof. repeat split. Qed.

(** * Further properties *)

(** ** Rows added to a table *)

Lemma add_keeps_keys_unique {A : Type} (pk : A -> Z) (rows : list A) (r : A) :
  NoDup (map pk rows) -> pk r = Query.next_id pk rows ->
  NoDup (map pk (Query.add r rows)).
Proof.
  intros Hnd Hr. apply NoDup_map_add; [exact Hnd|].
  rewrite Hr. apply next_id_fresh.
Qed.

Lemma in_add_new {A : Type} (rows : list A) (r : A) : In r (Query.add r rows).
Proof. unfold Query.add. apply in_app_iff. right. now left. Qed.

(** ** What no request undoes *)

Lemma next_id_positive {A : Type} (pk : A -> Z) (rows : list A) :
  0 < Query.next_id pk rows.
Proof.
  unfold Query.next_id.
  assert (0 <= fold_right (fun r m => Z.max (pk r) m) 0 rows);
    [|lia].
  induction rows as [|x rows IH]; cbn [fold_right]; lia.
Qed.

Lemma users_grow_refl (db : DB) : users_grow db db.
Proof. exists []. split; [now rewrite app_nil_r | constructor]. Qed.

Lemma users_grow_trans (db1 db2 db3 : DB) :
  users_grow db1 db2 -> users_grow db2 db3 -> users_grow db1 db3.
Proof.
  intros (a & Ha & Hpa) (b & Hb & Hpb). exists (a ++ b)%list. split.
  - now rewrite Hb, Ha, app_assoc.
  - apply Forall_app. auto.
Qed.

Lemma users_grow_add (db db' : DB) (u : User.t) :
  users db' = Query.add u (users db) ->
  User.id u = Query.next_id User.id (users db) ->
  users_grow db db'.
Proof.
  intros Husers Hid. exists [u]. split; [exact Husers|].
  constructor; [|constructor]. rewrite Hid. apply next_id_positive.
Qed.

Lemma users_grow_same (db db' : DB) : users db' = users db -> users_grow db db'.
Proof.
  intros E. exists []. split; [now rewrite app_nil_r | constructor].
Qed.

Section Growth.
Context `{AuthUtils}.

Lemma handle_users_grow (db : DB) (now : Z) (u : User.t) (a : Action) :
  users_grow db (snd (handle db now u a)).
Proof.
  destruct a; cbn [handle answer snd fst]; try apply users_grow_refl.
  all: unfold_handlers; handler_cases; cbn [snd];
    try apply users_grow_refl.
  all: try (apply users_grow_same; reflexivity).
  all: eapply users_grow_add; reflexivity.
Qed.

Lemma ensure_user_users_grow (db : DB) (now : Z)
    (username email password name role : string) :
  users_grow db
    (snd (main.ensure_user db now username email password name role)).
Proof.
  unfold main.ensure_user. handler_cases; cbn [snd];
    try apply users_grow_refl.
  eapply users_grow_add; reflexivity.
Qed.

Lemma and_then_users_grow (db : DB) (r : Response unit * DB)
    (k : DB -> Response unit * DB) :
  users_grow db (snd r) ->
  (forall db1, users_grow db1 (snd (k db1))) ->
  users_grow db (snd (main.and_then r k)).
Proof.
  intros Hr Hk. unfold main.and_then.
  destruct r as [[[] | c d | e] db1]; cbn [snd] in *; auto.
  eapply users_grow_trans; [exact Hr | apply Hk].
Qed.

Lemma handle_public_users_grow (db : DB) (now : Z) (a : PublicAction) :
  users_grow db (snd (handle_public db now a)).
Proof.
  destruct a; cbn [handle_public answer snd fst];
    try apply users_grow_refl.
  - unfold main.seed_default_users.
    repeat (apply and_then_users_grow; [|intros]);
      apply ensure_user_users_grow.
  - unfold auth.login. handler_cases; apply users_grow_refl.
  - unfold auth.create_registration_request.
    handler_cases; cbn [snd]; try apply users_grow_refl.
    apply users_grow_same. reflexivity.
  - unfold registration_requests.create_registration_request.
    handler_cases; cbn [snd]; try apply users_grow_refl.
    apply users_grow_same. reflexivity.
Qed.

Lemma step_users_grow (db db' : DB) : step db db' -> users_grow db db'.
Proof.
  intros [now a | now u a _];
    [apply handle_public_users_grow | apply handle_users_grow].
Qed.

Lemma reachable_ids_positive (db : DB) (u : User.t) :
  reachable db -> In u (users db) -> 0 < User.id u.
Proof.
  intros Hreach. revert u.
  induction Hreach as [|db db' _ IH Hstep]; [intros u []|].
  destruct (step_users_grow db db' Hstep) as (added & -> & Hpos).
  intros u Hu. apply in_app_iff in Hu as [Hu|Hu]; [auto|].
  now apply (proj1 (Forall_forall _ _) Hpos).
Qed.

End Growth.

(** X6. No request removes or changes a user: whatever is served next,
    the users of the store are the users it had, in the same order,
    followed by the accounts the request created.  So an id, a username,
    an email and a role, once given, stay. *)
Theorem users_are_only_added `{AuthUtils} (db db' : DB) :
  step db db' ->
  (exists added, users db' = (users db ++ added)%list)
  /\ forall u, In u (users db) -> In u (users db').
Proof.
  intros Hstep. destruct (step_users_grow db db' Hstep) as (added & E & _).
  split; [eauto|]. intros u Hu. rewrite E. apply in_app_iff. now left.
Qed.

Lemma users_are_only_added_witness :
  (exists added, users john_approved_db = (users john_pending_db ++ added)%list)
  /\ In student1_user (users john_approved_db).
Proof.
  assert (Hstep : step (H := plain_auth_utils) john_pending_db
                    john_approved_db).
  { apply (step_user (H := plain_auth_utils) john_pending_db 5 admin_user
             (auth_process_registration_request 1
                (RegistrationRequestUpdate.mk "approved"))).
    vm_compute. tauto. }
  destruct (users_are_only_added (H := plain_auth_utils) john_pending_db
              john_approved_db Hstep) as [Hadded Hkept].
  split; [exact Hadded|]. apply Hkept. vm_compute. tauto.
Defined.

Section Kept.
Context {A B : Type} (g : A -> B).

Lemma kept_same (rows : list A) :
  exists added, map g rows = (map g rows ++ added)%list.
Proof. exists []. now rewrite app_nil_r. Qed.

Lemma kept_add (rows : list A) (r : A) :
  exists added, map g (Query.add r rows) = (map g rows ++ added)%list.
Proof. exists [g r]. unfold Query.add. now rewrite map_app. Qed.

Lemma kept_update (pk : A -> Z) (k : Z) (f : A -> A) (rows : list A) :
  (forall r, g (f r) = g r) ->
  exists added,
    map g (Query.update pk k f rows) = (map g rows ++ added)%list.
Proof. intros Hf. rewrite map_update by exact Hf. apply kept_same. Qed.
End Kept.

Lemma set_users_same (db : DB) : set_users (users db) db = db.
Proof. now destruct db. Qed.

Section SeedOnlyUsers.
Context `{AuthUtils}.

Lemma ensure_user_only_users (db : DB) (now : Z)
    (username email password name role : string) :
  exists us,
    snd (main.ensure_user db now username email password name role)
    = set_users us db.
Proof.
  unfold main.ensure_user. handler_cases; cbn [snd]; eauto;
    exists (users db); now rewrite set_users_same.
Qed.

Lemma seed_only_users (db : DB) (now : Z) :
  exists us, snd (main.seed_default_users db now) = set_users us db.
Proof.
  assert (Hthen : forall db0 r k,
    (exists us, snd r = set_users us db0) ->
    (forall db1, exists us, snd (k db1) = set_users us db1) ->
    exists us, snd (main.and_then r k) = set_users us db0).
  { intros db0 [[[] | c d | e] db1] k (us & Hus) Hk;
      cbn [main.and_then snd] in *; eauto.
    destruct (Hk db1) as (us' & ->). subst db1. now exists us'. }
  unfold main.seed_default_users.
  repeat (apply Hthen; [|intros]); apply ensure_user_only_users.
Qed.
End SeedOnlyUsers.

(** X7. No request deletes or rewrites a message or a submission.  After
    any request the messages are the ones the store had, in the same
    order and with the same id, sender, receiver, subject, content and
    time, followed by the new ones, and a message that was read is still
    there as read; the submissions are the ones the store had, with the
    same id, assignment, student, content and time, followed by the new
    ones. *)
Theorem messages_and_submissions_are_kept `{AuthUtils} (db db' : DB) :
  step db db' ->
  (exists added,
     map message_core (messages db')
     = (map message_core (messages db) ++ added)%list)
  /\ (forall m, In m (messages db) -> Message.is_read m = true ->
        In m (messages db'))
  /\ (exists added,
        map submission_core (assignment_submissions db')
        = (map submission_core (assignment_submissions db) ++ added)%list).
Proof.
  intros [now a | now u a _].
  - destruct a; cbn [handle_public answer snd fst].
    2-3: split; [apply kept_same | split; [auto | apply kept_same]].
    + destruct (seed_only_users db now) as (us & ->).
      split; [apply kept_same | split; [auto | apply kept_same]].
    + unfold auth.login. handler_cases; cbn [snd];
        (split; [apply kept_same | split; [auto | apply kept_same]]).
    + unfold auth.create_registration_request. handler_cases; cbn [snd];
        (split; [apply kept_same | split; [auto | apply kept_same]]).
    + unfold registration_requests.create_registration_request.
      handler_cases; cbn [snd];
        (split; [apply kept_same | split; [auto | apply kept_same]]).
  - destruct a; cbn [handle answer snd fst].
    all: unfold_handlers; handler_cases; cbn [snd]; store_fields.
    all: split;
      [first [apply kept_same | apply kept_add
             | apply kept_update; reflexivity]
      |split;
         [|first [apply kept_same | apply kept_add
                 | apply kept_update; reflexivity]]].
    all: intros m Hm _; exact Hm.
Qed.

Lemma messages_and_submissions_are_kept_witness :
  exists added,
    map message_core (messages submitted_db)
    = (map message_core (messages hw1_db) ++ added)%list.
Proof.
  assert (Hstep : step (H := plain_auth_utils) hw1_db submitted_db).
  { apply (step_user (H := plain_auth_utils) hw1_db 3 student1_user
             (students_submit 1 answer1)).
    vm_compute. tauto. }
  exact (proj1 (messages_and_submissions_are_kept (H := plain_auth_utils)
                  hw1_db submitted_db Hstep)).
Defined.

(** X8. A request that is not answered 200 leaves the store as it was, and
    so does every request served with GET, whatever it answers. *)
Theorem refused_and_get_requests_change_nothing `{AuthUtils} (db : DB)
    (now : Z) (current_user : User.t) (a : Action) :
  fst (handle db now current_user a) <> HTTP_200_OK \/ is_get a = true ->
  snd (handle db now current_user a) = db.
Proof.
  intros Hcase.
  destruct a; cbn [handle answer snd fst is_get] in *; try reflexivity.
  all: unfold_handlers; handler_cases; cbn [snd fst status_of] in *;
    try reflexivity.
  all: destruct Hcase as [Hcase|Hcase];
    [now contradiction Hcase | discriminate Hcase].
Qed.

Lemma refused_and_get_requests_change_nothing_witness :
  snd (handle (H := plain_auth_utils) submitted_db 9 student1_user
         (students_submit 1 answer1)) = submitted_db
  /\ snd (handle (H := plain_auth_utils) hw1_db 9 parent1_user
            (messages_get 1)) = hw1_db.
Proof.
  split.
  - apply (refused_and_get_requests_change_nothing (H := plain_auth_utils)).
    left. vm_compute. discriminate.
  - apply (refused_and_get_requests_change_nothing (H := plain_auth_utils)).
    right. reflexivity.
Defined.

(** ** References between rows *)

Lemma Forall_add {A : Type} (P : A -> Prop) (rows : list A) (r : A) :
  Forall P rows -> P r -> Forall P (Query.add r rows).
Proof.
  intros Hrows Hr. unfold Query.add. apply Forall_app. split; auto.
Qed.

Lemma Forall_update {A : Type} (P : A -> Prop) (pk : A -> Z) (k : Z)
    (f : A -> A) (rows : list A) :
  (forall r, P r -> P (f r)) -> Forall P rows ->
  Forall P (Query.update pk k f rows).
Proof.
  intros Hf. induction 1 as [|x rows Hx Hrows IH]; cbn [Query.update];
    [constructor|].
  destruct (pk x =? k); constructor; auto.
Qed.

Lemma user_role_known (db : DB) (u : User.t) (role : string) :
  In u (users db) -> User.role u = role ->
  In (User.id u, role) (user_roles db).
Proof.
  intros Hin <-. unfold user_roles.
  apply (in_map (fun u => (User.id u, User.role u))). exact Hin.
Qed.

Section ReferencesKept.
Variables db db' : DB.
Hypothesis R : references_ok db.

Lemma references_same :
  users db' = users db -> messages db' = messages db ->
  assignments db' = assignments db ->
  assignment_submissions db' = assignment_submissions db ->
  references_ok db'.
Proof.
  destruct R as [Hm Ha Hs Hsa]. intros Eu Em Ea Es.
  constructor; unfold user_ids, user_roles in *;
    rewrite ?Eu, ?Em, ?Ea, ?Es; assumption.
Qed.

Lemma references_new_user (u : User.t) :
  users db' = Query.add u (users db) -> messages db' = messages db ->
  assignments db' = assignments db ->
  assignment_submissions db' = assignment_submissions db ->
  references_ok db'.
Proof.
  destruct R as [Hm Ha Hs Hsa]. intros Eu Em Ea Es.
  constructor; unfold user_ids, user_roles in *;
    rewrite ?Eu, ?Em, ?Ea, ?Es; unfold Query.add; rewrite ?map_app;
    try assumption.
  - eapply Forall_impl; [|exact Hm]. cbn beta. intros m [H1 H2].
    rewrite !in_app_iff. auto.
  - eapply Forall_impl; [|exact Ha]. cbn beta.
    intros a [H1|H1]; [left|right]; apply in_app_iff; auto.
  - eapply Forall_impl; [|exact Hs]. cbn beta. intros s H1.
    rewrite in_app_iff. auto.
Qed.

Lemma references_new_assignment (a : Assignment.t) :
  users db' = users db -> messages db' = messages db ->
  assignments db' = Query.add a (assignments db) ->
  assignment_submissions db' = assignment_submissions db ->
  In (Assignment.created_by_id a, "teacher") (user_roles db)
  \/ In (Assignment.created_by_id a, "admin") (user_roles db) ->
  references_ok db'.
Proof.
  destruct R as [Hm Ha Hs Hsa]. intros Eu Em Ea Es Hcreator.
  constructor; unfold user_ids, user_roles in *;
    rewrite ?Eu, ?Em, ?Ea, ?Es; try assumption.
  - apply Forall_add; auto.
  - eapply Forall_impl; [|exact Hsa]. cbn beta. intros s Hin.
    unfold Query.add. rewrite map_app, in_app_iff. auto.
Qed.

Lemma references_assignment_updated (k : Z) (body : AssignmentCreate.t) :
  users db' = users db -> messages db' = messages db ->
  assignments db' = Query.update Assignment.id k (assignments.setattrs body)
                      (assignments db) ->
  assignment_submissions db' = assignment_submissions db ->
  references_ok db'.
Proof.
  destruct R as [Hm Ha Hs Hsa]. intros Eu Em Ea Es.
  constructor; unfold user_ids, user_roles in *;
    rewrite ?Eu, ?Em, ?Ea, ?Es; try assumption.
  - apply Forall_update; [|exact Ha]. intros a Hr. exact Hr.
  - rewrite map_update; [exact Hsa | reflexivity].
Qed.

Lemma references_assignment_deleted (k : Z) :
  users db' = users db -> messages db' = messages db ->
  assignments db' = Query.delete Assignment.id k (assignments db) ->
  assignment_submissions db' = assignment_submissions db ->
  existsb (fun s => AssignmentSubmission.assignment_id s =? k)
    (assignment_submissions db) = false ->
  references_ok db'.
Proof.
  destruct R as [Hm Ha Hs Hsa]. intros Eu Em Ea Es Hnone.
  constructor; unfold user_ids, user_roles in *;
    rewrite ?Eu, ?Em, ?Ea, ?Es; try assumption.
  - apply Forall_forall. intros a Hin. apply in_delete in Hin.
    revert a Hin. now apply Forall_forall.
  - apply Forall_forall. intros s Hs'.
    pose proof (proj1 (Forall_forall _ _) Hsa s Hs') as Hin.
    apply in_map_iff in Hin as (a & Hid & Hin).
    apply in_map_iff. exists a. split; [exact Hid|].
    unfold Query.delete. apply filter_In. split; [exact Hin|].
    apply negb_true_iff, Z.eqb_neq. intros E.
    assert (Hex : existsb (fun s => AssignmentSubmission.assignment_id s =? k)
                    (assignment_submissions db) = true).
    { apply existsb_exists. exists s. split; [exact Hs'|].
      apply Z.eqb_eq. congruence. }
    congruence.
Qed.

Lemma references_new_submission (s : AssignmentSubmission.t) :
  users db' = users db -> messages db' = messages db ->
  assignments db' = assignments db ->
  assignment_submissions db' = Query.add s (assignment_submissions db) ->
  In (AssignmentSubmission.student_id s, "student") (user_roles db) ->
  In (AssignmentSubmission.assignment_id s)
    (map Assignment.id (assignments db)) ->
  references_ok db'.
Proof.
  destruct R as [Hm Ha Hs Hsa]. intros Eu Em Ea Es Hstudent Hassignment.
  constructor; unfold user_ids, user_roles in *;
    rewrite ?Eu, ?Em, ?Ea, ?Es; try assumption; apply Forall_add; auto.
Qed.

Lemma references_graded (k : Z) (g f : option string) :
  users db' = users db -> messages db' = messages db ->
  assignments db' = assignments db ->
  assignment_submissions db'
  = Query.update AssignmentSubmission.id k
      (AssignmentSubmission.set_grade g f) (assignment_submissions db) ->
  references_ok db'.
Proof.
  destruct R as [Hm Ha Hs Hsa]. intros Eu Em Ea Es.
  constructor; unfold user_ids, user_roles in *;
    rewrite ?Eu, ?Em, ?Ea, ?Es; try assumption;
    (apply Forall_update; [intros s Hr; exact Hr | assumption]).
Qed.
End ReferencesKept.

Lemma found_by_id {A : Type} (pk : A -> Z) (k : Z) (rows : list A) (r : A) :
  Query.first (fun x => pk x =? k) rows = Some r -> In k (map pk rows).
Proof.
  intros Hfound. apply first_some in Hfound as [Hin Hk].
  apply Z.eqb_eq in Hk. subst k. now apply in_map.
Qed.

Lemma teacher_or_admin (role : string) :
  negb (str_in role ["teacher"; "admin"]) = false ->
  role = "teacher" \/ role = "admin".
Proof.
  unfold str_in. cbn [existsb]. rewrite negb_false_iff, !orb_true_iff.
  rewrite !String.eqb_eq. intuition discriminate.
Qed.

Section ReferencesInvariant.
Context `{AuthUtils}.

Lemma handle_references_ok (db : DB) (now : Z) (u : User.t) (a : Action) :
  In u (users db) -> references_ok db ->
  references_ok (snd (handle db now u a)).
Proof.
  intros Hu R.
  destruct a; cbn [handle answer snd fst]; try exact R.
  all: unfold_handlers; handler_cases; cbn [snd]; try exact R.
  all: try (apply (references_same db _ R); reflexivity).
  all: try (eapply (references_new_user db _ R); reflexivity).
  all: try (eapply (references_assignment_updated db _ R); reflexivity).
  all: try (eapply (references_graded db _ R); reflexivity).
  all: try (eapply (references_assignment_deleted db _ R);
            [reflexivity..|eassumption]).
  all: try (eapply (references_new_submission db _ R);
            [reflexivity..| |eapply found_by_id; eassumption];
            apply user_role_known; [exact Hu|];
            now apply negb_false_iff, String.eqb_eq in Heqb).
  all: eapply (references_new_assignment db _ R); [reflexivity..|];
    destruct (teacher_or_admin _ Heqb); [left|right];
    now apply user_role_known.
Qed.

Lemma ensure_user_references_ok (db : DB) (now : Z)
    (username email password name role : string) :
  references_ok db ->
  references_ok
    (snd (main.ensure_user db now username email password name role)).
Proof.
  intros R. unfold main.ensure_user. handler_cases; cbn [snd]; try exact R.
  eapply (references_new_user db _ R); reflexivity.
Qed.

Lemma handle_public_references_ok (db : DB) (now : Z) (a : PublicAction) :
  references_ok db -> references_ok (snd (handle_public db now a)).
Proof.
  intros R.
  destruct a; cbn [handle_public answer snd fst]; try exact R.
  - unfold main.seed_default_users.
    assert (Hthen : forall r k,
      references_ok (snd r) ->
      (forall db1, references_ok db1 -> references_ok (snd (k db1))) ->
      references_ok (snd (main.and_then r k))).
    { intros [[[] | c d | e] db1] k Hr Hk; cbn [main.and_then snd] in *;
        auto. }
    repeat (apply Hthen; [|intros]); now apply ensure_user_references_ok.
  - unfold auth.login. handler_cases; exact R.
  - unfold auth.create_registration_request.
    handler_cases; cbn [snd]; try exact R.
    apply (references_same db _ R); reflexivity.
  - unfold registration_requests.create_registration_request.
    handler_cases; cbn [snd]; try exact R.
    apply (references_same db _ R); reflexivity.
Qed.

Lemma reachable_references_ok (db : DB) : reachable db -> references_ok db.
Proof.
  induction 1 as [|db db' _ IH Hstep].
  - constructor; constructor.
  - destruct Hstep.
    + now apply handle_public_references_ok.
    + now apply handle_references_ok.
Qed.
End ReferencesInvariant.

(** X9. In every store the application reaches, the rows point at users of
    the store: the sender and the receiver of a message are users, the
    creator of an assignment is a user of role teacher or admin, and the
    author of a submission is a user of role student. *)
Theorem rows_refer_to_users `{AuthUtils} (db : DB) :
  reachable db ->
  (forall m, In m (messages db) ->
     (exists s, In s (users db) /\ User.id s = Message.sender_id m)
     /\ (exists r, In r (users db) /\ User.id r = Message.receiver_id m))
  /\ (forall a, In a (assignments db) ->
        exists c, In c (users db)
          /\ User.id c = Assignment.created_by_id a
          /\ (User.role c = "teacher" \/ User.role c = "admin"))
  /\ (forall s, In s (assignment_submissions db) ->
        exists st, In st (users db)
          /\ User.id st = AssignmentSubmission.student_id s
          /\ User.role st = "student").
Proof.
  intros Hreach. destruct (reachable_references_ok db Hreach)
    as [Hm Ha Hs _].
  assert (Hid : forall k, In k (user_ids db) ->
            exists u, In u (users db) /\ User.id u = k).
  { intros k Hk. apply in_map_iff in Hk as (u & E & Hin). eauto. }
  assert (Hrole : forall k role, In (k, role) (user_roles db) ->
            exists u, In u (users db) /\ User.id u = k
                      /\ User.role u = role).
  { intros k role Hk. apply in_map_iff in Hk as (u & [= E1 E2] & Hin).
    eauto. }
  split; [|split].
  - intros m Hin. destruct (proj1 (Forall_forall _ _) Hm m Hin). auto.
  - intros a Hin.
    destruct (proj1 (Forall_forall _ _) Ha a Hin) as [Hc|Hc];
      apply Hrole in Hc as (c & Hc & E & Er); eauto 6.
  - intros s Hin. apply Hrole.
    exact (proj1 (Forall_forall _ _) Hs s Hin).
Qed.

Lemma rows_refer_to_users_witness :
  exists st, In st (users submitted_db)
    /\ User.id st = 4 /\ User.role st = "student".
Proof.
  destruct (rows_refer_to_users (H := plain_auth_utils) submitted_db
              submitted_reachable) as (_ & _ & Hs).
  apply (Hs (AssignmentSubmission.mk 1 1 4 "my answer" 3 None None)).
  vm_compute. tauto.
Defined.

(** X10. An assignment that has a submission stays: deleting it is refused
    by the store, which holds [assignment_submissions.assignment_id] to be
    non-null, and nothing is deleted.  So in every store the application
    reaches, the assignment of each submission is there to be fetched, and
    grading, which reads the creator of that assignment, answers 200, 403
    or 404 and never fails on a missing one. *)
Theorem submitted_assignment_is_kept `{AuthUtils} (db : DB)
    (s : AssignmentSubmission.t) :
  reachable db ->
  In s (assignment_submissions db) ->
  (exists a, In a (assignments db)
     /\ Assignment.id a = AssignmentSubmission.assignment_id s
     /\ forall reader,
          assignments.get_assignment db reader
            (AssignmentSubmission.assignment_id s) = (Return a, db))
  /\ (forall actor,
        status_of
          (fst (assignments.delete_assignment db actor
                  (AssignmentSubmission.assignment_id s))) <> HTTP_200_OK
        /\ snd (assignments.delete_assignment db actor
                  (AssignmentSubmission.assignment_id s)) = db)
  /\ forall actor grade_data,
       In (status_of
             (fst (teachers.grade_submission db actor
                     (AssignmentSubmission.id s) grade_data)))
         [HTTP_200_OK; HTTP_403_FORBIDDEN; HTTP_404_NOT_FOUND].
Proof.
  intros Hreach Hin.
  destruct (reachable_references_ok db Hreach) as [_ _ _ Hsa].
  apply reachable_consistent in Hreach.
  pose proof (proj1 (Forall_forall _ _) Hsa s Hin) as Ha.
  apply in_map_iff in Ha as (a & Hid & Ha).
  pose proof (first_by_pk Assignment.id _ a (assignments_pk db Hreach) Ha)
    as Hfound.
  rewrite Hid in Hfound.
  split; [|split].
  - exists a. repeat split; auto. intros reader.
    unfold assignments.get_assignment. now rewrite Hfound.
  - intros actor. unfold assignments.delete_assignment. rewrite Hfound.
    assert (Hex : existsb
                    (fun x => AssignmentSubmission.assignment_id x
                              =? AssignmentSubmission.assignment_id s)
                    (assignment_submissions db) = true).
    { apply existsb_exists. exists s. split; [exact Hin|].
      apply Z.eqb_refl. }
    rewrite Hex.
    destruct (_ && _); cbn; split; (discriminate || reflexivity).
  - intros actor grade_data. unfold teachers.grade_submission.
    rewrite (first_by_pk AssignmentSubmission.id _ s
               (assignment_submissions_pk db Hreach) Hin).
    rewrite Hfound. handler_cases; cbn; tauto.
Qed.

Lemma submitted_assignment_is_kept_witness :
  snd (assignments.delete_assignment submitted_db teacher1_user 1)
  = submitted_db.
Proof.
  pose (s := AssignmentSubmission.mk 1 1 4 "my answer" 3 None None).
  assert (Hin : In s (assignment_submissions submitted_db))
    by (vm_compute; tauto).
  destruct (submitted_assignment_is_kept (H := plain_auth_utils)
              submitted_db s submitted_reachable Hin) as (_ & Hdelete & _).
  exact (proj2 (Hdelete teacher1_user)).
Defined.

(** ** Assignments *)

Section UpdateFacts.
Context {A : Type} (pk : A -> Z).

Lemma in_update_other (k : Z) (f : A -> A) (rows : list A) (r : A) :
  In r rows -> pk r <> k -> In r (Query.update pk k f rows).
Proof.
  intros Hin Hk. induction rows as [|x rows IH]; cbn [Query.update];
    [contradiction|].
  destruct (Z.eqb_spec (pk x) k) as [E|E]; destruct Hin as [->|Hin];
    cbn [In]; auto. contradiction.
Qed.

Lemma length_update (k : Z) (f : A -> A) (rows : list A) :
  length (Query.update pk k f rows) = length rows.
Proof.
  induction rows as [|x rows IH]; cbn [Query.update]; [reflexivity|].
  destruct (pk x =? k); cbn [length]; congruence.
Qed.

Lemma in_delete_other (k : Z) (rows : list A) (r : A) :
  In r rows -> pk r <> k -> In r (Query.delete pk k rows).
Proof.
  intros Hin Hk. unfold Query.delete. apply filter_In. split; [exact Hin|].
  now apply negb_true_iff, Z.eqb_neq.
Qed.

Lemma first_deleted (k : Z) (rows : list A) :
  Query.first (fun x => pk x =? k) (Query.delete pk k rows) = None.
Proof.
  apply first_absent. intros r Hr. unfold Query.delete in Hr.
  apply filter_In in Hr as [_ Hr]. now apply negb_true_iff in Hr.
Qed.
End UpdateFacts.

Lemma not_teacher_or_admin (role : string) :
  role <> "teacher" -> role <> "admin" ->
  str_in role ["teacher"; "admin"] = false.
Proof.
  intros Ht Ha. unfold str_in. cbn [existsb].
  apply String.eqb_neq in Ht, Ha. now rewrite Ht, Ha.
Qed.

Lemma is_teacher_or_admin (role : string) :
  role = "teacher" \/ role = "admin" ->
  str_in role ["teacher"; "admin"] = true.
Proof. intros [-> | ->]; reflexivity. Qed.

(** X11. A teacher or an admin who creates an assignment, on either create
    route, gets it stored under a new id with the caller as creator; from
    then on every authenticated user fetches it under that id, and it is
    in the creator's own list.  Any other role is answered 403 on both
    routes and nothing is stored. *)
Theorem create_assignment_round_trip `{AuthUtils} (db : DB) (now : Z)
    (actor : User.t) (assignment : AssignmentCreate.t) :
  reachable db ->
  let a := new_assignment db now actor assignment in
  let db' := set_assignments (Query.add a (assignments db)) db in
  (User.role actor = "teacher" \/ User.role actor = "admin" ->
   teachers.create_assignment db now actor assignment = (Return a, db')
   /\ assignments.create_assignment db now actor assignment = (Return a, db')
   /\ Assignment.created_by_id a = User.id actor
   /\ (forall reader,
         assignments.get_assignment db' reader (Assignment.id a)
         = (Return a, db'))
   /\ exists own,
        teachers.get_teacher_assignments db' actor = (Return own, db')
        /\ In a own)
  /\ (User.role actor <> "teacher" -> User.role actor <> "admin" ->
      teachers.create_assignment db now actor assignment
      = (HTTPException HTTP_403_FORBIDDEN
           "Only teachers and admins can create assignments", db)
      /\ assignments.create_assignment db now actor assignment
         = (HTTPException HTTP_403_FORBIDDEN
              "Only teachers and admins can create assignments", db)).
Proof.
  intros Hreach a db'. apply reachable_consistent in Hreach. split.
  - intros Hrole. pose proof (is_teacher_or_admin _ Hrole) as Hgate.
    assert (Hin : In a (assignments db'))
      by (subst db'; store_fields; apply in_add_new).
    assert (Hnd : NoDup (map Assignment.id (assignments db'))).
    { subst db'. store_fields.
      apply add_keeps_keys_unique; [apply (assignments_pk db Hreach)|].
      reflexivity. }
    split; [|split; [|split; [|split]]].
    + unfold teachers.create_assignment. now rewrite Hgate.
    + unfold assignments.create_assignment. now rewrite Hgate.
    + reflexivity.
    + intros reader. unfold assignments.get_assignment.
      now rewrite (first_by_pk Assignment.id _ a Hnd Hin).
    + unfold teachers.get_teacher_assignments. rewrite Hgate. cbn [negb].
      destruct (User.role actor =? "admin")%string; eexists;
        (split; [reflexivity|]); [exact Hin|].
      unfold Query.all. apply filter_In. split; [exact Hin|].
      apply Z.eqb_refl.
  - intros Ht Ha. pose proof (not_teacher_or_admin _ Ht Ha) as Hgate.
    unfold teachers.create_assignment, assignments.create_assignment.
    now rewrite Hgate.
Qed.

Lemma create_assignment_round_trip_witness :
  assignments.get_assignment hw1_db student1_user 1
  = (Return (Assignment.mk 1 "HW1" None "Math" "10A" 100 2 1), hw1_db)
  /\ teachers.create_assignment seeded_db 1 student1_user hw1
     = (HTTPException HTTP_403_FORBIDDEN
          "Only teachers and admins can create assignments", seeded_db).
Proof.
  destruct (create_assignment_round_trip (H := plain_auth_utils) seeded_db 1
              teacher1_user hw1 seeded_reachable) as [Hcreate _].
  destruct (create_assignment_round_trip (H := plain_auth_utils) seeded_db 1
              student1_user hw1 seeded_reachable) as [_ Hrefused].
  split.
  - destruct (Hcreate (or_introl eq_refl)) as (_ & _ & _ & Hget & _).
    exact (Hget student1_user).
  - apply Hrefused; discriminate.
Defined.

(** X12. Updating a stored assignment is for the user whose id is its
    creator's and for an admin.  It replaces title, description, subject,
    class and due date by the request's and keeps the id, the creator and
    the creation time; afterwards the assignment is fetched as updated,
    every other assignment is as before and none is added or lost.
    Anyone else is answered 403, and the store stays as it is. *)
Theorem update_assignment_replaces_fields `{AuthUtils} (db : DB)
    (actor : User.t) (a : Assignment.t)
    (assignment_update : AssignmentCreate.t) :
  reachable db ->
  In a (assignments db) ->
  let a' := assignments.setattrs assignment_update a in
  let db' :=
    set_assignments
      (Query.update Assignment.id (Assignment.id a)
         (assignments.setattrs assignment_update) (assignments db)) db in
  (Assignment.created_by_id a = User.id actor
   \/ User.role actor = "admin" ->
   assignments.update_assignment db actor (Assignment.id a) assignment_update
   = (Return a', db')
   /\ (Assignment.id a', Assignment.created_by_id a', Assignment.created_at a')
      = (Assignment.id a, Assignment.created_by_id a, Assignment.created_at a)
   /\ (Assignment.title a', Assignment.description a', Assignment.subject a',
       Assignment.class_name a', Assignment.due_date a')
      = (AssignmentCreate.title assignment_update,
         AssignmentCreate.description assignment_update,
         AssignmentCreate.subject assignment_update,
         AssignmentCreate.class_name assignment_update,
         AssignmentCreate.due_date assignment_update)
   /\ (forall reader,
         assignments.get_assignment db' reader (Assignment.id a)
         = (Return a', db'))
   /\ (forall b, In b (assignments db) -> Assignment.id b <> Assignment.id a ->
         In b (assignments db'))
   /\ length (assignments db') = length (assignments db))
  /\ (Assignment.created_by_id a <> User.id actor ->
      User.role actor <> "admin" ->
      assignments.update_assignment db actor (Assignment.id a)
        assignment_update
      = (HTTPException HTTP_403_FORBIDDEN
           "You can only update your own assignments", db)).
Proof.
  intros Hreach Hin a' db'. apply reachable_consistent in Hreach.
  pose proof (first_by_pk Assignment.id _ a (assignments_pk db Hreach) Hin)
    as Hfound.
  split.
  - intros Hmay. split; [|split; [|split; [|split; [|split]]]];
      try reflexivity.
    + unfold assignments.update_assignment. rewrite Hfound.
      destruct Hmay as [-> | ->]; [now rewrite Z.eqb_refl|].
      cbn [String.eqb Ascii.eqb Bool.eqb negb]. now rewrite andb_false_r.
    + intros reader. unfold assignments.get_assignment.
      subst db'. store_fields. rewrite (first_update Assignment.id _ _ _ a);
        auto.
    + intros b Hb Hne. subst db'. store_fields.
      now apply in_update_other.
    + subst db'. store_fields. apply length_update.
  - intros Hother Hrole. unfold assignments.update_assignment.
    rewrite Hfound. apply Z.eqb_neq in Hother. apply String.eqb_neq in Hrole.
    now rewrite Hother, Hrole.
Qed.

Lemma update_assignment_replaces_fields_witness :
  fst (assignments.update_assignment hw1_db teacher1_user 1
         (AssignmentCreate.mk "HW1b" (Some "redo") "Math" "all" 200))
  = Return (Assignment.mk 1 "HW1b" (Some "redo") "Math" "all" 200 2 1)
  /\ assignments.update_assignment hw1_db student1_user 1 hw1
     = (HTTPException HTTP_403_FORBIDDEN
          "You can only update your own assignments", hw1_db).
Proof.
  pose (a := Assignment.mk 1 "HW1" None "Math" "10A" 100 2 1).
  assert (Hin : In a (assignments hw1_db)) by (vm_compute; tauto).
  destruct (update_assignment_replaces_fields (H := plain_auth_utils) hw1_db
              teacher1_user a
              (AssignmentCreate.mk "HW1b" (Some "redo") "Math" "all" 200)
              hw1_reachable Hin) as [Hmay _].
  destruct (update_assignment_replaces_fields (H := plain_auth_utils) hw1_db
              student1_user a hw1 hw1_reachable Hin) as [_ Hrefused].
  split.
  - destruct (Hmay (or_introl eq_refl)) as [Hupdate _].
    unfold a in Hupdate. cbn [Assignment.id] in Hupdate.
    now rewrite Hupdate.
  - apply Hrefused; discriminate.
Defined.

(** X13. Deleting a stored assignment that has no submission is for the
    user whose id is its creator's and for an admin.  Afterwards the id
    is answered 404, to a fetch and to a second delete alike, and every
    other assignment is still there.  Anyone else is answered 403 and
    the assignment stays. *)
Theorem delete_assignment_removes_it `{AuthUtils} (db : DB) (actor : User.t)
    (a : Assignment.t) :
  reachable db ->
  In a (assignments db) ->
  (forall s, In s (assignment_submissions db) ->
     AssignmentSubmission.assignment_id s <> Assignment.id a) ->
  let db' :=
    set_assignments
      (Query.delete Assignment.id (Assignment.id a) (assignments db)) db in
  (Assignment.created_by_id a = User.id actor
   \/ User.role actor = "admin" ->
   assignments.delete_assignment db actor (Assignment.id a)
   = (Return "Assignment deleted successfully", db')
   /\ (forall reader,
         assignments.get_assignment db' reader (Assignment.id a)
         = (HTTPException HTTP_404_NOT_FOUND "Assignment not found", db'))
   /\ assignments.delete_assignment db' actor (Assignment.id a)
      = (HTTPException HTTP_404_NOT_FOUND "Assignment not found", db')
   /\ (forall b, In b (assignments db) -> Assignment.id b <> Assignment.id a ->
         In b (assignments db')))
  /\ (Assignment.created_by_id a <> User.id actor ->
      User.role actor <> "admin" ->
      assignments.delete_assignment db actor (Assignment.id a)
      = (HTTPException HTTP_403_FORBIDDEN
           "You can only delete your own assignments", db)).
Proof.
  intros Hreach Hin Hfree db'. apply reachable_consistent in Hreach.
  pose proof (first_by_pk Assignment.id _ a (assignments_pk db Hreach) Hin)
    as Hfound.
  assert (Hnone : existsb
                    (fun s => AssignmentSubmission.assignment_id s
                              =? Assignment.id a)
                    (assignment_submissions db) = false).
  { destruct (existsb _ _) eqn:E; [|reflexivity].
    apply existsb_exists in E as (s & Hs & E). apply Z.eqb_eq in E.
    now apply Hfree in Hs. }
  assert (Hgone :
    Query.first (fun x => Assignment.id x =? Assignment.id a)
      (assignments db') = None)
    by (subst db'; store_fields; apply first_deleted).
  split.
  - intros Hmay. split; [|split; [|split]].
    + unfold assignments.delete_assignment. rewrite Hfound, Hnone.
      destruct Hmay as [-> | ->]; [now rewrite Z.eqb_refl|].
      cbn [String.eqb Ascii.eqb Bool.eqb negb]. now rewrite andb_false_r.
    + intros reader. unfold assignments.get_assignment. now rewrite Hgone.
    + unfold assignments.delete_assignment. now rewrite Hgone.
    + intros b Hb Hne. subst db'. store_fields.
      now apply in_delete_other.
  - intros Hother Hrole. unfold assignments.delete_assignment.
    rewrite Hfound. apply Z.eqb_neq in Hother. apply String.eqb_neq in Hrole.
    now rewrite Hother, Hrole.
Qed.

Lemma delete_assignment_removes_it_witness :
  assignments.get_assignment
    (snd (assignments.delete_assignment hw1_db admin_user 1)) parent1_user 1
  = (HTTPException HTTP_404_NOT_FOUND "Assignment not found",
     snd (assignments.delete_assignment hw1_db admin_user 1)).
Proof.
  pose (a := Assignment.mk 1 "HW1" None "Math" "10A" 100 2 1).
  assert (Hin : In a (assignments hw1_db)) by (vm_compute; tauto).
  assert (Hfree : forall s, In s (assignment_submissions hw1_db) ->
            AssignmentSubmission.assignment_id s <> Assignment.id a)
    by (intros s []).
  destruct (delete_assignment_removes_it (H := plain_auth_utils) hw1_db
              admin_user a hw1_reachable Hin Hfree) as [Hmay _].
  destruct (Hmay (or_intror eq_refl)) as (Hdelete & Hget & _).
  unfold a in Hdelete. cbn [Assignment.id] in Hdelete.
  rewrite Hdelete. cbn [snd]. exact (Hget parent1_user).
Defined.

(** ** Submissions and grades *)

(** X14. The two routes that list the submissions of an assignment differ.
    [/api/assignments/assignments/{id}/submissions] checks the role only:
    every teacher and every admin gets all the submissions of the id,
    whoever created the assignment and whether or not it exists.
    [/api/teachers/assignments/{id}/submissions] also looks the assignment
    up and answers a teacher who did not create it 403, and an absent id
    404; for the creator and for an admin both routes give the same
    list. *)
Theorem submission_lists_differ `{AuthUtils} (db : DB) (actor : User.t)
    (assignment_id : Z) :
  reachable db ->
  User.role actor = "teacher" \/ User.role actor = "admin" ->
  let submitted :=
    filter (fun s => AssignmentSubmission.assignment_id s =? assignment_id)
      (assignment_submissions db) in
  assignments.get_assignment_submissions db actor assignment_id
  = (Return submitted, db)
  /\ (forall a, In a (assignments db) -> Assignment.id a = assignment_id ->
        (User.role actor = "teacher" ->
         Assignment.created_by_id a <> User.id actor ->
         teachers.get_assignment_submissions db actor assignment_id
         = (HTTPException HTTP_403_FORBIDDEN
              "You can only view submissions for your own assignments", db))
        /\ (User.role actor = "admin"
            \/ Assignment.created_by_id a = User.id actor ->
            teachers.get_assignment_submissions db actor assignment_id
            = (Return submitted, db)))
  /\ ((forall a, In a (assignments db) -> Assignment.id a <> assignment_id) ->
      teachers.get_assignment_submissions db actor assignment_id
      = (HTTPException HTTP_404_NOT_FOUND "Assignment not found", db)).
Proof.
  intros Hreach Hrole submitted.
  pose proof (is_teacher_or_admin _ Hrole) as Hgate.
  apply reachable_consistent in Hreach.
  split; [|split].
  - unfold assignments.get_assignment_submissions. now rewrite Hgate.
  - intros a Hin <-.
    pose proof (first_by_pk Assignment.id _ a (assignments_pk db Hreach) Hin)
      as Hfound.
    unfold teachers.get_assignment_submissions. rewrite Hgate, Hfound.
    cbn [negb]. split.
    + intros -> Hother. apply Z.eqb_neq in Hother. now rewrite Hother.
    + intros [-> | ->]; [reflexivity|].
      now rewrite Z.eqb_refl, andb_false_r.
  - intros Habsent.
    unfold teachers.get_assignment_submissions. rewrite Hgate.
    rewrite first_absent; [reflexivity|].
    intros a Ha. apply Z.eqb_neq. now apply Habsent.
Qed.

Lemma submission_lists_differ_witness :
  assignments.get_assignment_submissions submitted_db
    (User.mk 9 "teacher2" "t2@school.com" "" "Teacher Two" "teacher" 0) 1
  = (Return [AssignmentSubmission.mk 1 1 4 "my answer" 3 None None],
     submitted_db)
  /\ teachers.get_assignment_submissions submitted_db
       (User.mk 9 "teacher2" "t2@school.com" "" "Teacher Two" "teacher" 0) 1
     = (HTTPException HTTP_403_FORBIDDEN
          "You can only view submissions for your own assignments",
        submitted_db).
Proof.
  pose (t2 := User.mk 9 "teacher2" "t2@school.com" "" "Teacher Two"
                "teacher" 0).
  destruct (submission_lists_differ (H := plain_auth_utils) submitted_db t2 1
              submitted_reachable (or_introl eq_refl))
    as (Hopen & Hgated & _).
  split; [exact Hopen|].
  apply (Hgated (Assignment.mk 1 "HW1" None "Math" "10A" 100 2 1));
    [vm_compute; tauto | reflexivity | reflexivity | discriminate].
Defined.





(** X16. Grading is refused with 403 to a role other than teacher and
    admin and to a teacher who did not create the assignment of the
    submission, and answered 404 for an id that no submission has; the
    store then stays as it is.  Whatever the answer, every submission
    with another id is left exactly as it was. *)
Theorem grade_submission_edges `{AuthUtils} (db : DB) (actor : User.t)
    (submission_id : Z) (grade_data : AssignmentSubmissionGrade.t) :
  reachable db ->
  let answer := teachers.grade_submission db actor submission_id grade_data in
  (User.role actor <> "teacher" -> User.role actor <> "admin" ->
      answer = (HTTPException HTTP_403_FORBIDDEN
                  "Only teachers and admins can grade submissions", db))
  /\ (User.role actor = "teacher" \/ User.role actor = "admin" ->
      (forall s, In s (assignment_submissions db) ->
         AssignmentSubmission.id s <> submission_id) ->
      answer = (HTTPException HTTP_404_NOT_FOUND "Submission not found", db))
  /\ (forall s a, In s (assignment_submissions db) ->
        AssignmentSubmission.id s = submission_id ->
        In a (assignments db) ->
        Assignment.id a = AssignmentSubmission.assignment_id s ->
        User.role actor = "teacher" ->
        Assignment.created_by_id a <> User.id actor ->
        answer = (HTTPException HTTP_403_FORBIDDEN
                    "You can only grade submissions for your own assignments",
                  db))
  /\ (forall s, In s (assignment_submissions db) ->
        AssignmentSubmission.id s <> submission_id ->
        In s (assignment_submissions (snd answer))).
Proof.
  intros Hreach answer.
  apply reachable_consistent in Hreach.
  split; [|split; [|split]].
  - intros Ht Ha. subst answer. unfold teachers.grade_submission.
    now rewrite (not_teacher_or_admin _ Ht Ha).
  - intros Hrole Habsent. subst answer. unfold teachers.grade_submission.
    rewrite (is_teacher_or_admin _ Hrole). cbn [negb].
    rewrite first_absent; [reflexivity|].
    intros s Hs. apply Z.eqb_neq. now apply Habsent.
  - intros s a Hs <- Ha Hid Hrole Hother. subst answer.
    unfold teachers.grade_submission.
    rewrite (is_teacher_or_admin _ (or_introl Hrole)). cbn [negb].
    rewrite (first_by_pk AssignmentSubmission.id _ s
               (assignment_submissions_pk db Hreach) Hs).
    rewrite Hrole. cbn [String.eqb Ascii.eqb Bool.eqb].
    rewrite <- Hid.
    rewrite (first_by_pk Assignment.id _ a (assignments_pk db Hreach) Ha).
    apply Z.eqb_neq in Hother. now rewrite Hother.
  - intros s Hs Hne. subst answer. unfold teachers.grade_submission.
    handler_cases; cbn [snd]; store_fields; auto.
    all: now apply in_update_other.
Qed.

Lemma grade_submission_edges_witness :
  teachers.grade_submission submitted_db student1_user 1
    (AssignmentSubmissionGrade.mk "A" None)
  = (HTTPException HTTP_403_FORBIDDEN
       "Only teachers and admins can grade submissions", submitted_db)
  /\ teachers.grade_submission submitted_db admin_user 7
       (AssignmentSubmissionGrade.mk "A" None)
     = (HTTPException HTTP_404_NOT_FOUND "Submission not found",
        submitted_db).
Proof.
  destruct (grade_submission_edges (H := plain_auth_utils) submitted_db
              student1_user 1 (AssignmentSubmissionGrade.mk "A" None)
              submitted_reachable) as (Hrole & _).
  destruct (grade_submission_edges (H := plain_auth_utils) submitted_db
              admin_user 7 (AssignmentSubmissionGrade.mk "A" None)
              submitted_reachable) as (_ & Habsent & _).
  split.
  - apply Hrole; discriminate.
  - apply Habsent; [right; reflexivity|].
    intros s Hs. vm_compute in Hs. destruct Hs as [<-|[]]. discriminate.
Defined.

(** ** Registration requests *)

Lemma delete_added {A : Type} (pk : A -> Z) (rows : list A) (r : A) :
  pk r = Query.next_id pk rows ->
  Query.delete pk (pk r) (Query.add r rows) = rows.
Proof.
  intros Hr. unfold Query.delete, Query.add.
  rewrite filter_app. cbn [filter]. rewrite Z.eqb_refl. cbn [negb].
  rewrite app_nil_r.
  assert (Hall : forall x, In x rows -> negb (pk x =? pk r) = true).
  { intros x Hx. apply negb_true_iff, Z.eqb_neq.
    apply (next_id_above pk) in Hx. lia. }
  clear Hr. induction rows as [|x rows IH]; cbn [filter]; [reflexivity|].
  rewrite (Hall x (or_introl eq_refl)). f_equal.
  apply IH. intros y Hy. apply Hall. now right.
Qed.

Lemma set_registration_requests_back (db : DB)
    (v : list RegistrationRequest.t) :
  set_registration_requests (registration_requests db)
    (set_registration_requests v db) = db.
Proof. now destruct db. Qed.

(** X17. A request taken in by the intake of [routers/registration_requests]
    is read back by an admin under its id, pending; when the admin deletes
    it the store is again exactly the store before the intake.  On that
    router reading and deleting are refused with 403 to every other role,
    and an id that no request has is answered 404. *)
Theorem registration_request_round_trip `{AuthUtils} (db : DB) (now : Z)
    (actor : User.t) (request : RegistrationRequestCreate.t) :
  reachable db ->
  let r := new_request db now request in
  let db' := with_new_request db now request in
  (~ same_email_request db request ->
   User.role actor = "admin" ->
   registration_requests.create_registration_request db now request
   = (Return r, db')
   /\ registration_requests.get_registration_request db' actor
        (RegistrationRequest.id r) = (Return r, db')
   /\ registration_requests.delete_registration_request db' actor
        (RegistrationRequest.id r)
      = (Return "Registration request deleted successfully", db))
  /\ (User.role actor <> "admin" ->
      forall request_id,
        registration_requests.get_registration_request db actor request_id
        = (HTTPException HTTP_403_FORBIDDEN
             "Only admins can view registration requests", db)
        /\ registration_requests.delete_registration_request db actor
             request_id
           = (HTTPException HTTP_403_FORBIDDEN
                "Only admins can delete registration requests", db))
  /\ (User.role actor = "admin" ->
      forall request_id,
        (forall x, In x (registration_requests db) ->
           RegistrationRequest.id x <> request_id) ->
        registration_requests.get_registration_request db actor request_id
        = (HTTPException HTTP_404_NOT_FOUND
             "Registration request not found", db)
        /\ registration_requests.delete_registration_request db actor
             request_id
           = (HTTPException HTTP_404_NOT_FOUND
                "Registration request not found", db)).
Proof.
  intros Hreach r db'. apply reachable_consistent in Hreach.
  split; [|split].
  - intros Hfree Hadmin.
    assert (Hnd : NoDup (map RegistrationRequest.id
                           (registration_requests db'))).
    { subst db'. unfold with_new_request. store_fields.
      apply add_keeps_keys_unique;
        [apply (registration_requests_pk db Hreach) | reflexivity]. }
    assert (Hin : In r (registration_requests db'))
      by (subst db'; unfold with_new_request; store_fields;
          apply in_add_new).
    pose proof (first_by_pk RegistrationRequest.id _ r Hnd Hin) as Hfound.
    split; [|split].
    + unfold registration_requests.create_registration_request.
      rewrite first_absent; [reflexivity|].
      intros x Hx. apply String.eqb_neq. intros E. apply Hfree.
      exists x. auto.
    + unfold registration_requests.get_registration_request.
      now rewrite Hadmin, Hfound.
    + unfold registration_requests.delete_registration_request.
      rewrite Hadmin, Hfound.
      cbn [String.eqb Ascii.eqb Bool.eqb negb]. f_equal.
      subst db'. unfold with_new_request. store_fields.
      rewrite delete_added by reflexivity.
      apply set_registration_requests_back.
  - intros Hrole request_id. apply String.eqb_neq in Hrole.
    unfold registration_requests.get_registration_request,
      registration_requests.delete_registration_request.
    now rewrite Hrole.
  - intros Hadmin request_id Habsent.
    unfold registration_requests.get_registration_request,
      registration_requests.delete_registration_request.
    rewrite Hadmin. cbn [String.eqb Ascii.eqb Bool.eqb negb].
    rewrite first_absent; [split; reflexivity|].
    intros x Hx. apply Z.eqb_neq. now apply Habsent.
Qed.

Lemma registration_request_round_trip_witness :
  registration_requests.delete_registration_request two_johns_db admin_user 2
  = (Return "Registration request deleted successfully", john_approved_db)
  /\ registration_requests.get_registration_request two_johns_db
       teacher1_user 2
     = (HTTPException HTTP_403_FORBIDDEN
          "Only admins can view registration requests", two_johns_db).
Proof.
  destruct (registration_request_round_trip (H := plain_auth_utils)
              john_approved_db 6 admin_user john_b_request
              john_approved_reachable) as [Hround _].
  destruct (registration_request_round_trip (H := plain_auth_utils)
              two_johns_db 6 teacher1_user john_b_request
              two_johns_reachable) as (_ & Hrefused & _).
  split.
  - apply Hround; [|reflexivity].
    intros (x & Hx & E). vm_compute in Hx. destruct Hx as [<-|[]].
    discriminate.
  - apply Hrefused. discriminate.
Defined.

Lemma in_update_unique {A : Type} (pk : A -> Z) (k : Z) (f : A -> A)
    (rows : list A) (r' : A) :
  NoDup (map pk rows) ->
  In r' (Query.update pk k f rows) ->
  (In r' rows /\ pk r' <> k)
  \/ exists x, In x rows /\ pk x = k /\ r' = f x.
Proof.
  induction rows as [|y rows IH]; cbn [Query.update In map]; [tauto|].
  intros Hnd. inversion Hnd as [|? ? Hnotin Hnd']; subst.
  destruct (Z.eqb_spec (pk y) k) as [E|E]; cbn [In].
  - intros [<-|Hin]; [right; eauto|].
    left. split; [auto|]. intros E'. apply Hnotin. rewrite E, <- E'.
    now apply in_map.
  - intros [<-|Hin]; [left; auto|].
    destruct (IH Hnd' Hin) as [[H1 H2]|(x & H1 & H2 & H3)]; [left; auto|].
    right. eauto.
Qed.

(** X18. Rejecting a pending request creates no account and frees its
    username and email: before the rejection the intake on
    [/api/auth/register-request] refuses a candidate who repeats them,
    "Registration request already pending"; once the admin has rejected
    the request with [reject_registration_request], and if no user and no
    other pending request holds them, the same intake is accepted. *)
Theorem rejection_frees_the_candidate `{AuthUtils} (db : DB) (now : Z)
    (admin : User.t) (r : RegistrationRequest.t)
    (candidate : RegistrationRequestCreate.t) :
  reachable db ->
  User.role admin = "admin" ->
  In r (registration_requests db) ->
  RegistrationRequest.status r = "pending" ->
  RegistrationRequestCreate.username candidate
  = RegistrationRequest.username r ->
  RegistrationRequestCreate.email candidate = RegistrationRequest.email r ->
  ~ known_user db candidate ->
  (forall r', In r' (registration_requests db) ->
     RegistrationRequest.status r' = "pending" ->
     RegistrationRequest.username r'
       = RegistrationRequestCreate.username candidate
     \/ RegistrationRequest.email r'
          = RegistrationRequestCreate.email candidate ->
     r' = r) ->
  let rejected :=
    registration_requests.reject_registration_request db admin
      (RegistrationRequest.id r) in
  auth.create_registration_request db now candidate
  = (HTTPException HTTP_400_BAD_REQUEST
       "Registration request already pending", db)
  /\ fst rejected = Return "Registration request rejected"
  /\ users (snd rejected) = users db
  /\ auth.create_registration_request (snd rejected) now candidate
     = (Return (new_request (snd rejected) now candidate),
        with_new_request (snd rejected) now candidate).
Proof.
  intros Hreach Hadmin Hin Hpending Hname Hemail Hunknown Honly rejected.
  apply reachable_consistent in Hreach.
  pose proof (registration_requests_pk db Hreach) as Hnd.
  pose proof (first_by_pk RegistrationRequest.id _ r Hnd Hin) as Hfound.
  assert (Husers :
    Query.first
      (fun u =>
         (User.username u
            =? RegistrationRequestCreate.username candidate)%string
         || (User.email u =? RegistrationRequestCreate.email candidate)%string)
      (users db) = None).
  { apply first_absent. intros u Hu.
    destruct (_ || _) eqn:E; [|reflexivity].
    apply or_eqb_true in E. exfalso. apply Hunknown. exists u. auto. }
  assert (Hrejected :
    rejected
    = (Return "Registration request rejected",
       set_registration_requests
         (Query.update RegistrationRequest.id (RegistrationRequest.id r)
            (fun x => RegistrationRequest.set_status "rejected"
                        (RegistrationRequest.processed_at x) x)
            (registration_requests db)) db)).
  { subst rejected. unfold registration_requests.reject_registration_request.
    now rewrite Hadmin, Hfound, Hpending. }
  split; [|split; [|split]].
  - unfold auth.create_registration_request. rewrite Husers.
    destruct (first_present
                (fun x =>
                   ((RegistrationRequest.username x
                       =? RegistrationRequestCreate.username candidate)%string
                    || (RegistrationRequest.email x
                          =? RegistrationRequestCreate.email candidate)%string)
                   && (RegistrationRequest.status x =? "pending")%string)
                (registration_requests db) r Hin) as [x ->]; [|reflexivity].
    rewrite Hname, Hpending, !String.eqb_refl. reflexivity.
  - now rewrite Hrejected.
  - now rewrite Hrejected.
  - rewrite Hrejected. cbn [snd].
    unfold auth.create_registration_request. store_fields.
    rewrite Husers. rewrite first_absent; [reflexivity|].
    intros x Hx. apply in_update_unique in Hx; [|exact Hnd].
    destruct Hx as [[Hx Hne] | (y & Hy & Hid & ->)].
    + destruct (_ || _) eqn:Hmatch; [|reflexivity].
      destruct (String.eqb_spec (RegistrationRequest.status x) "pending")
        as [Hp|Hp]; [|reflexivity].
      apply or_eqb_true in Hmatch. exfalso. apply Hne.
      now rewrite (Honly x Hx Hp Hmatch).
    + cbn [RegistrationRequest.set_status RegistrationRequest.status].
      cbn [String.eqb Ascii.eqb Bool.eqb]. apply andb_false_r.
Qed.

Lemma rejection_frees_the_candidate_witness :
  auth.create_registration_request john_pending_db 5 john_request
  = (HTTPException HTTP_400_BAD_REQUEST
       "Registration request already pending", john_pending_db)
  /\ status_of
       (fst (auth.create_registration_request
               (snd (registration_requests.reject_registration_request
                       john_pending_db admin_user 1)) 5 john_request))
     = HTTP_200_OK.
Proof.
  pose (r := RegistrationRequest.mk 1 "john" "john@a.com" "John A" "student"
               "pending" 4 None).
  assert (Hin : In r (registration_requests john_pending_db))
    by (vm_compute; tauto).
  assert (Hunknown : ~ known_user john_pending_db john_request).
  { intros (u & Hu & E). vm_compute in Hu.
    destruct Hu as [<-|[<-|[<-|[<-|[]]]]]; destruct E; discriminate. }
  assert (Honly : forall r', In r' (registration_requests john_pending_db) ->
            RegistrationRequest.status r' = "pending" ->
            RegistrationRequest.username r'
              = RegistrationRequestCreate.username john_request
            \/ RegistrationRequest.email r'
                 = RegistrationRequestCreate.email john_request ->
            r' = r).
  { intros r' Hr' _ _. vm_compute in Hr'. destruct Hr' as [<-|[]].
    reflexivity. }
  destruct (rejection_frees_the_candidate (H := plain_auth_utils)
              john_pending_db 5 admin_user r john_request
              john_pending_reachable eq_refl Hin eq_refl eq_refl eq_refl
              Hunknown Honly) as (Hbefore & _ & _ & Hafter).
  split; [exact Hbefore|].
  unfold r in Hafter. cbn [RegistrationRequest.id] in Hafter.
  now rewrite Hafter.
Defined.

(** ** Accounts *)

Lemma same_value_same_row {A B : Type} (g : A -> B) (rows : list A)
    (r r' : A) :
  NoDup (map g rows) -> In r rows -> In r' rows -> g r = g r' -> r = r'.
Proof.
  induction rows as [|x rows IH]; cbn [map In]; [tauto|].
  intros Hnd Hr Hr' E. inversion Hnd as [|? ? Hnotin Hnd']; subst.
  destruct Hr as [->|Hr], Hr' as [->|Hr']; auto.
  - exfalso. apply Hnotin. rewrite E. now apply in_map.
  - exfalso. apply Hnotin. rewrite <- E. now apply in_map.
Qed.

(** X19. In every store the application reaches, no two users share an
    id, a username or an email. *)
Theorem users_are_told_apart `{AuthUtils} (db : DB) (u v : User.t) :
  reachable db ->
  In u (users db) -> In v (users db) ->
  User.id u = User.id v
  \/ User.username u = User.username v
  \/ User.email u = User.email v ->
  u = v.
Proof.
  intros Hreach Hu Hv Hsame. apply reachable_consistent in Hreach.
  destruct Hreach as [Hid Hname Hemail _ _ _ _ _].
  destruct Hsame as [E|[E|E]].
  - exact (same_value_same_row User.id (users db) u v Hid Hu Hv E).
  - exact (same_value_same_row User.username (users db) u v Hname Hu Hv E).
  - exact (same_value_same_row User.email (users db) u v Hemail Hu Hv E).
Qed.

Lemma users_are_told_apart_witness : admin_user = admin_user.
Proof.
  apply (users_are_told_apart (H := plain_auth_utils) two_johns_db
           admin_user admin_user two_johns_reachable).
  - vm_compute. tauto.
  - vm_compute. tauto.
  - right. left. reflexivity.
Defined.

(** X20. Login succeeds exactly for the username of a stored user given
    with a password that [verify_password] accepts against the stored
    hash; the token is then minted for that username, of type "bearer".
    Login never changes the store. *)
Theorem login_succeeds_for_the_right_password `{AuthUtils} (db : DB)
    (user_credentials : UserLogin.t) :
  reachable db ->
  (forall user,
     In user (users db) ->
     User.username user = UserLogin.username user_credentials ->
     verify_password (UserLogin.password user_credentials)
       (User.password_hash user) = true ->
     auth.login db user_credentials
     = (Return (Token.mk (create_access_token (User.username user)) "bearer"),
        db))
  /\ (status_of (fst (auth.login db user_credentials)) = HTTP_200_OK ->
      exists user,
        In user (users db)
        /\ User.username user = UserLogin.username user_credentials
        /\ verify_password (UserLogin.password user_credentials)
             (User.password_hash user) = true)
  /\ snd (auth.login db user_credentials) = db.
Proof.
  intros Hreach. apply reachable_consistent in Hreach. split; [|split].
  - intros user Hin Hname Hverify. unfold auth.login. rewrite <- Hname.
    rewrite (first_by_key User.username String.eqb (users db) user
               String.eqb_eq (users_username db Hreach) Hin).
    now rewrite Hverify.
  - unfold auth.login.
    destruct (Query.first _ (users db)) as [user|] eqn:Hfound;
      [|discriminate].
    destruct (verify_password _ _) eqn:Hverify; [|discriminate].
    intros _. exists user. apply first_some in Hfound as [Hin Hname].
    apply String.eqb_eq in Hname. auto.
  - unfold auth.login. handler_cases; reflexivity.
Qed.

Lemma login_succeeds_for_the_right_password_witness :
  auth.login (H := plain_auth_utils) seeded_db
    (UserLogin.mk "teacher1" "teacher123")
  = (Return (Token.mk "token:teacher1" "bearer"), seeded_db).
Proof.
  destruct (login_succeeds_for_the_right_password (H := plain_auth_utils)
              seeded_db (UserLogin.mk "teacher1" "teacher123")
              seeded_reachable) as [Hlogin _].
  apply (Hlogin teacher1_user); [vm_compute; tauto | reflexivity..].
Defined.

Section Approval.
Context `{AuthUtils}.

(** What a successful approval on [/api/auth/register-requests] did. *)
Lemma process_approved_inversion (db db' : DB) (now : Z) (actor : User.t)
    (request_id : Z) (answer : RegistrationRequest.t) :
  auth.process_registration_request db now actor request_id
    (RegistrationRequestUpdate.mk "approved") = (Return answer, db') ->
  exists new_user,
    users db' = Query.add new_user (users db)
    /\ Query.users_unique (users db) new_user = true
    /\ User.id new_user = Query.next_id User.id (users db)
    /\ User.username new_user = RegistrationRequest.username answer
    /\ User.email new_user = RegistrationRequest.email answer
    /\ User.role new_user = RegistrationRequest.role answer
    /\ User.password_hash new_user
       = get_password_hash (RegistrationRequest.username answer ++ "123").
Proof.
  unfold auth.process_registration_request.
  destruct (negb _); [discriminate|].
  destruct (Query.first _ _) as [request|]; [|discriminate].
  destruct (negb _); [discriminate|].
  cbn [RegistrationRequestUpdate.status String.eqb Ascii.eqb Bool.eqb].
  destruct (Query.users_unique _ _) eqn:Hunique; [|discriminate].
  intros [= <- <-]. eexists. repeat split; try reflexivity.
  exact Hunique.
Qed.

Lemma new_user_is_found (db db' : DB) (new_user : User.t) :
  consistent db ->
  users db' = Query.add new_user (users db) ->
  Query.users_unique (users db) new_user = true ->
  Query.first (fun u => (User.username u =? User.username new_user)%string)
    (users db') = Some new_user.
Proof.
  intros C Husers Hunique. rewrite Husers.
  apply (first_by_key User.username String.eqb _ new_user String.eqb_eq).
  - apply NoDup_map_add; [apply (users_username db C)|].
    now apply users_unique_username.
  - apply in_add_new.
Qed.
End Approval.

(** X21. An approved account can log in.  If [verify_password] accepts a
    password against its own hash, then after an approval on
    [/api/auth/register-requests/{id}] the request's username logs in with
    the password "<username>123". *)
Theorem approved_account_can_log_in `{AuthUtils} (db db' : DB) (now : Z)
    (admin : User.t) (request_id : Z) (answer : RegistrationRequest.t) :
  (forall password,
     verify_password password (get_password_hash password) = true) ->
  reachable db ->
  auth.process_registration_request db now admin request_id
    (RegistrationRequestUpdate.mk "approved") = (Return answer, db') ->
  auth.login db'
    (UserLogin.mk (RegistrationRequest.username answer)
       (RegistrationRequest.username answer ++ "123"))
  = (Return
       (Token.mk (create_access_token (RegistrationRequest.username answer))
          "bearer"), db').
Proof.
  intros Hverify Hreach Hanswer. apply reachable_consistent in Hreach.
  apply process_approved_inversion in Hanswer
    as (new_user & Husers & Hunique & _ & Hname & _ & _ & Hhash).
  pose proof (new_user_is_found db db' new_user Hreach Husers Hunique)
    as Hfound.
  unfold auth.login. cbn [UserLogin.username UserLogin.password].
  rewrite <- Hname, Hfound, Hhash, Hname, Hverify, <- Hname. reflexivity.
Qed.

Lemma approved_account_can_log_in_witness :
  auth.login (H := plain_auth_utils) john_approved_db
    (UserLogin.mk "john" "john123")
  = (Return (Token.mk "token:john" "bearer"), john_approved_db).
Proof.
  assert (Hverify : forall password,
            verify_password (AuthUtils := plain_auth_utils) password
              (get_password_hash (AuthUtils := plain_auth_utils) password)
            = true).
  { intros password. cbn. apply String.eqb_refl. }
  apply (approved_account_can_log_in (H := plain_auth_utils)
           john_pending_db john_approved_db 5 admin_user 1
           (RegistrationRequest.mk 1 "john" "john@a.com" "John A"
              "student" "approved" 4 (Some 5))
           Hverify john_pending_reachable).
  reflexivity.
Defined.

(** X22. Once an approval on [/api/auth/register-requests/{id}] has
    created the account, the intake on [/api/auth/register-request] refuses
    every candidate who asks for the request's username or its email,
    "Username or email already exists", and stores nothing. *)
Theorem approved_names_are_taken `{AuthUtils} (db db' : DB) (now now' : Z)
    (admin : User.t) (request_id : Z) (answer : RegistrationRequest.t)
    (candidate : RegistrationRequestCreate.t) :
  auth.process_registration_request db now admin request_id
    (RegistrationRequestUpdate.mk "approved") = (Return answer, db') ->
  RegistrationRequestCreate.username candidate
  = RegistrationRequest.username answer
  \/ RegistrationRequestCreate.email candidate
     = RegistrationRequest.email answer ->
  auth.create_registration_request db' now' candidate
  = (HTTPException HTTP_400_BAD_REQUEST
       "Username or email already exists", db').
Proof.
  intros Hanswer Hsame.
  apply process_approved_inversion in Hanswer
    as (new_user & Husers & _ & _ & Hnew & Hemail & _).
  unfold auth.create_registration_request.
  destruct (first_present
              (fun u =>
                 (User.username u
                    =? RegistrationRequestCreate.username candidate)%string
                 || (User.email u
                       =? RegistrationRequestCreate.email candidate)%string)
              (users db') new_user) as [x ->]; [| |reflexivity].
  - rewrite Husers. apply in_add_new.
  - apply or_eqb_true. destruct Hsame as [-> | ->]; auto.
Qed.

Lemma approved_names_are_taken_witness :
  auth.create_registration_request john_approved_db 9
    (RegistrationRequestCreate.mk "johnny" "john@a.com" "John" "student")
  = (HTTPException HTTP_400_BAD_REQUEST "Username or email already exists",
     john_approved_db).
Proof.
  apply (approved_names_are_taken (H := plain_auth_utils)
           john_pending_db john_approved_db 5 9 admin_user 1
           (RegistrationRequest.mk 1 "john" "john@a.com" "John A" "student"
              "approved" 4 (Some 5))
           (RegistrationRequestCreate.mk "johnny" "john@a.com" "John"
              "student"));
    [reflexivity | right; reflexivity].
Defined.

(** ** Startup *)

Section Seed.
Context `{AuthUtils}.

Lemma ensure_user_present (db : DB) (now : Z)
    (username email password name role : string) :
  registration_requests.username_taken db username = true ->
  main.ensure_user db now username email password name role = (Return tt, db).
Proof.
  unfold registration_requests.username_taken, main.ensure_user.
  destruct (Query.first _ (users db)); [reflexivity | discriminate].
Qed.

(** One [ensure_user]: afterwards the username is taken unless the store
    refused the row, in which case nothing changed and asking again fails
    the same way; usernames taken before are still taken. *)
Lemma ensure_user_outcome (db : DB) (now : Z)
    (username email password name role : string) :
  let r := main.ensure_user db now username email password name role in
  (fst r = Return tt
   /\ registration_requests.username_taken (snd r) username = true
   /\ forall other,
        registration_requests.username_taken db other = true ->
        registration_requests.username_taken (snd r) other = true)
  \/ (r = (Unhandled "IntegrityError", db)
      /\ forall now',
           main.ensure_user db now' username email password name role
           = (Unhandled "IntegrityError", db)).
Proof.
  cbv zeta. unfold main.ensure_user.
  destruct (Query.first _ (users db)) as [u|] eqn:Hfound.
  - left. cbn [fst snd]. split; [reflexivity|]. split; [|auto].
    unfold registration_requests.username_taken. now rewrite Hfound.
  - destruct (Query.users_unique _ _) eqn:Hunique.
    + left. cbn [fst snd]. split; [reflexivity|]. split.
      * apply username_taken_iff. store_fields. unfold Query.add.
        rewrite map_app, in_app_iff. right. now left.
      * intros other Hother. rewrite username_taken_iff in *.
        store_fields. unfold Query.add. rewrite map_app, in_app_iff. auto.
    + right. split; [reflexivity|]. intros now'.
      unfold Query.users_unique in *. cbn [User.username User.email] in *.
      now rewrite Hunique.
Qed.
End Seed.

(** X23. Seeding is idempotent and keeps what it finds: running the
    startup hook on a store it has already run on changes nothing, from
    whatever store the first run started and whether or not it could
    create all four demo accounts.  An account whose username exists is
    left as it is, password included. *)
Theorem seeding_twice_is_seeding_once `{AuthUtils} (db : DB) (now now' : Z) :
  let seeded := snd (main.seed_default_users db now) in
  snd (main.seed_default_users seeded now') = seeded
  /\ forall u, In u (users db) -> In u (users seeded).
Proof.
  cbv zeta. split.
  - unfold main.seed_default_users.
    destruct (ensure_user_outcome db now "admin" "admin@school.com"
                "admin123" "Administrator" "admin")
      as [(E1 & T1 & K1) | (E1 & F1)]; cbv zeta in *.
    2:{ rewrite E1. cbn [main.and_then snd]. rewrite F1. reflexivity. }
    destruct (main.ensure_user db now "admin" _ _ _ _) as [r1 db1].
    cbn [fst snd] in *. subst r1. cbn [main.and_then].
    destruct (ensure_user_outcome db1 now "teacher1" "teacher1@school.com"
                "teacher123" "Teacher One" "teacher")
      as [(E2 & T2 & K2) | (E2 & F2)]; cbv zeta in *.
    2:{ rewrite E2. cbn [main.and_then snd].
        rewrite (ensure_user_present db1 now' "admin") by exact T1.
        cbn [main.and_then]. rewrite F2. reflexivity. }
    destruct (main.ensure_user db1 now "teacher1" _ _ _ _) as [r2 db2].
    cbn [fst snd] in *. subst r2. cbn [main.and_then].
    destruct (ensure_user_outcome db2 now "parent1" "parent1@school.com"
                "parent123" "Parent One" "parent")
      as [(E3 & T3 & K3) | (E3 & F3)]; cbv zeta in *.
    2:{ rewrite E3. cbn [main.and_then snd].
        rewrite (ensure_user_present db2 now' "admin") by auto.
        cbn [main.and_then].
        rewrite (ensure_user_present db2 now' "teacher1") by auto.
        cbn [main.and_then]. rewrite F3. reflexivity. }
    destruct (main.ensure_user db2 now "parent1" _ _ _ _) as [r3 db3].
    cbn [fst snd] in *. subst r3. cbn [main.and_then].
    destruct (ensure_user_outcome db3 now "student1" "student1@school.com"
                "student123" "Student One" "student")
      as [(E4 & T4 & K4) | (E4 & F4)]; cbv zeta in *.
    2:{ rewrite E4. cbn [snd].
        rewrite (ensure_user_present db3 now' "admin") by auto.
        cbn [main.and_then].
        rewrite (ensure_user_present db3 now' "teacher1") by auto.
        cbn [main.and_then].
        rewrite (ensure_user_present db3 now' "parent1") by auto.
        cbn [main.and_then]. rewrite F4. reflexivity. }
    destruct (main.ensure_user db3 now "student1" _ _ _ _) as [r4 db4].
    cbn [fst snd] in *. subst r4.
    rewrite (ensure_user_present db4 now' "admin") by auto.
    cbn [main.and_then].
    rewrite (ensure_user_present db4 now' "teacher1") by auto.
    cbn [main.and_then].
    rewrite (ensure_user_present db4 now' "parent1") by auto.
    cbn [main.and_then].
    rewrite (ensure_user_present db4 now' "student1") by auto.
    reflexivity.
  - intros u Hu.
    destruct (handle_public_users_grow db now startup) as (added & E & _).
    cbn [handle_public answer snd fst] in E. rewrite E.
    apply in_app_iff. now left.
Qed.

(** ** Listings *)

(** X24. On [/api/assignments/assignments/] the class filter counts for
    students only.  A teacher gets the assignments the teacher created,
    and every other role that is not student, admin and parent included,
    gets every assignment, in both cases of the subject asked for when
    one is and whatever class filter is sent along; for a teacher and
    for an admin the unfiltered list is the list of
    [/api/teachers/assignments]. *)
Theorem class_filter_is_for_students (db : DB) (actor : User.t)
    (class_name subject : option string) :
  User.role actor <> "student" ->
  assignments.get_assignments db actor class_name subject
  = assignments.get_assignments db actor None subject
  /\ (User.role actor = "teacher" ->
      assignments.get_assignments db actor class_name subject
      = (Return
           (filter (fun a => (Assignment.created_by_id a =? User.id actor)
                             && subject_matches subject a)
              (assignments db)), db)
      /\ teachers.get_teacher_assignments db actor
         = assignments.get_assignments db actor class_name None)
  /\ (User.role actor <> "teacher" ->
      assignments.get_assignments db actor class_name subject
      = (Return (filter (subject_matches subject) (assignments db)), db)
      /\ (User.role actor = "admin" ->
          teachers.get_teacher_assignments db actor
          = assignments.get_assignments db actor class_name None)).
Proof.
  intros Hstudent. apply String.eqb_neq in Hstudent.
  assert (Hsubject : forall rows,
    match subject with
    | Some s =>
        if truthy s
        then Query.all (fun a => (Assignment.subject a =? s)%string) rows
        else rows
    | None => rows
    end = filter (subject_matches subject) rows).
  { intros rows. unfold subject_matches, Query.all.
    destruct subject as [s|]; [destruct (truthy s)|];
      now rewrite ?filter_true. }
  unfold assignments.get_assignments. rewrite Hstudent.
  split; [reflexivity|]. split.
  - intros Hteacher. rewrite Hteacher.
    cbn [String.eqb Ascii.eqb Bool.eqb]. split.
    + rewrite Hsubject. unfold Query.all. now rewrite filter_filter.
    + unfold teachers.get_teacher_assignments. rewrite Hteacher. reflexivity.
  - intros Hteacher. apply String.eqb_neq in Hteacher. rewrite Hteacher.
    split; [now rewrite Hsubject|].
    intros Hadmin. unfold teachers.get_teacher_assignments.
    rewrite Hadmin. reflexivity.
Qed.

Lemma class_filter_is_for_students_witness :
  assignments.get_assignments hw1_db parent1_user (Some "10B") None
  = (Return (assignments hw1_db), hw1_db).
Proof.
  destruct (class_filter_is_for_students hw1_db parent1_user (Some "10B")
              None) as (_ & _ & Hother); [discriminate|].
  destruct Hother as [Hall _]; [discriminate|].
  rewrite Hall. cbn [subject_matches]. now rewrite filter_true.
Defined.

(** X25. The two listings of registration requests are for admins only,
    and only one of them lists.  [/api/auth/register-requests] gives an
    admin every request in storage order; the listing of
    [routers/registration_requests] orders by
    [RegistrationRequest.created_at], which the class does not have, and
    raises [AttributeError] for every admin, whatever the filter.  Any
    other role is answered 403 by both. *)
Theorem registration_request_lists (db : DB) (actor : User.t)
    (status_filter : option string) :
  (User.role actor = "admin" ->
   auth.get_registration_requests db actor
   = (Return (registration_requests db), db)
   /\ registration_requests.get_registration_requests db actor status_filter
      = (Unhandled "AttributeError", db))
  /\ (User.role actor <> "admin" ->
      auth.get_registration_requests db actor
      = (HTTPException HTTP_403_FORBIDDEN
           "Only admins can view registration requests", db)
      /\ registration_requests.get_registration_requests db actor
           status_filter
         = (HTTPException HTTP_403_FORBIDDEN
              "Only admins can view registration requests", db)).
Proof.
  split.
  - intros Hadmin.
    unfold auth.get_registration_requests,
      registration_requests.get_registration_requests.
    rewrite Hadmin. cbn [String.eqb Ascii.eqb Bool.eqb negb].
    split; reflexivity.
  - intros Hrole. apply String.eqb_neq in Hrole.
    unfold auth.get_registration_requests,
      registration_requests.get_registration_requests.
    now rewrite Hrole.
Qed.

Lemma registration_request_lists_witness :
  map RegistrationRequest.id
    (registration_requests two_johns_db) = [1; 2]
  /\ fst (auth.get_registration_requests two_johns_db admin_user)
     = Return (registration_requests two_johns_db)
  /\ fst (registration_requests.get_registration_requests two_johns_db
            admin_user (Some "pending"))
     = Unhandled "AttributeError"
  /\ auth.get_registration_requests two_johns_db student1_user
     = (HTTPException HTTP_403_FORBIDDEN
          "Only admins can view registration requests", two_johns_db).
Proof.
  destruct (registration_request_lists two_johns_db student1_user None)
    as [_ Hrefused].
  destruct (registration_request_lists two_johns_db admin_user
              (Some "pending")) as [Hadmin _].
  destruct (Hadmin eq_refl) as [Hall Hraise].
  split; [reflexivity|].
  split; [now rewrite Hall|].
  split; [now rewrite Hraise|].
  apply Hrefused. discriminate.
Defined.

(** X26. Of the three review routes only
    [/api/auth/register-requests/{id}] stamps the request: there the
    answer carries the decision and the time of the review.
    [reject_registration_request] changes the status alone and leaves
    [processed_at] as it was, and [approve_registration_request] leaves
    the request as it found it. *)
Theorem review_stamps `{AuthUtils} (db : DB) (now : Z) (admin : User.t)
    (r : RegistrationRequest.t) :
  reachable db ->
  In r (registration_requests db) ->
  (forall decision answer db',
     auth.process_registration_request db now admin (RegistrationRequest.id r)
       (RegistrationRequestUpdate.mk decision) = (Return answer, db') ->
     answer = RegistrationRequest.set_status decision (Some now) r
     /\ Query.first
          (fun x => RegistrationRequest.id x =? RegistrationRequest.id r)
          (registration_requests db') = Some answer)
  /\ (forall answer db',
        registration_requests.reject_registration_request db admin
          (RegistrationRequest.id r) = (Return answer, db') ->
        Query.first
          (fun x => RegistrationRequest.id x =? RegistrationRequest.id r)
          (registration_requests db')
        = Some (RegistrationRequest.set_status "rejected"
                  (RegistrationRequest.processed_at r) r))
  /\ Query.first
       (fun x => RegistrationRequest.id x =? RegistrationRequest.id r)
       (registration_requests
          (snd (registration_requests.approve_registration_request db admin
                  (RegistrationRequest.id r))))
     = Some r.
Proof.
  intros Hreach Hin. apply reachable_consistent in Hreach.
  pose proof (first_by_pk RegistrationRequest.id _ r
                (registration_requests_pk db Hreach) Hin) as Hfound.
  split; [|split].
  - intros decision answer db'. unfold auth.process_registration_request.
    rewrite Hfound. cbn [RegistrationRequestUpdate.status].
    handler_cases; try discriminate.
    all: intros [= <- <-]; store_fields; split; [reflexivity|].
    all: now apply first_update.
  - intros answer db'.
    unfold registration_requests.reject_registration_request.
    rewrite Hfound. handler_cases; try discriminate.
    intros [= <- <-]. store_fields.
    now apply (first_update RegistrationRequest.id _
                 (fun x => RegistrationRequest.set_status "rejected"
                             (RegistrationRequest.processed_at x) x)).
  - assert (Hsame :
      snd (registration_requests.approve_registration_request db admin
             (RegistrationRequest.id r)) = db).
    { unfold registration_requests.approve_registration_request.
      handler_cases; reflexivity. }
    rewrite Hsame. exact Hfound.
Qed.

Lemma review_stamps_witness :
  Query.first (fun x => RegistrationRequest.id x =? 1)
    (registration_requests john_approved_db)
  = Some (RegistrationRequest.mk 1 "john" "john@a.com" "John A" "student"
            "approved" 4 (Some 5)).
Proof.
  pose (r := RegistrationRequest.mk 1 "john" "john@a.com" "John A" "student"
               "pending" 4 None).
  assert (Hin : In r (registration_requests john_pending_db))
    by (vm_compute; tauto).
  destruct (review_stamps (H := plain_auth_utils) john_pending_db 5
              admin_user r john_pending_reachable Hin) as [Hauth _].
  destruct (Hauth "approved"
              (RegistrationRequest.set_status "approved" (Some 5) r)
              john_approved_db eq_refl) as [_ Hstored].
  exact Hstored.
Defined.

(** ** Messaging *)

Section NoMessage.
Context `{AuthUtils}.

(** No request writes to the table of messages. *)
Lemma step_keeps_messages (db db' : DB) :
  step db db' -> messages db' = messages db.
Proof.
  intros [now a | now u a _].
  - destruct a; cbn [handle_public answer snd fst]; try reflexivity.
    + destruct (seed_only_users db now) as (us & ->). reflexivity.
    + unfold auth.login. handler_cases; reflexivity.
    + unfold auth.create_registration_request. handler_cases; reflexivity.
    + unfold registration_requests.create_registration_request.
      handler_cases; reflexivity.
  - destruct a; cbn [handle answer snd fst]; try reflexivity.
    all: unfold_handlers; handler_cases; reflexivity.
Qed.

Lemma reachable_no_messages (db : DB) : reachable db -> messages db = [].
Proof.
  induction 1 as [|db db' _ IH Hstep]; [reflexivity|].
  now rewrite (step_keeps_messages db db' Hstep).
Qed.
End NoMessage.

(** X1. No message is ever stored.  Every handler of [routers/messages.py]
    that would write or list messages reads an attribute the classes do
    not have: [send_message], the inbox, the sent list and the unread
    count raise [AttributeError] for every caller, and
    [send_message_to_teacher] does for a student or a parent and answers
    every other role 403.  So in every store the application reaches the
    table of messages is empty, and reading a message or marking it as
    read is answered 404 whatever the id. *)
Theorem no_message_is_ever_stored `{AuthUtils} (db : DB) :
  reachable db ->
  messages db = []
  /\ (forall user message_id,
        messages.get_message db user message_id
        = (HTTPException HTTP_404_NOT_FOUND "Message not found", db)
        /\ messages.mark_message_as_read db user message_id
           = (HTTPException HTTP_404_NOT_FOUND "Message not found", db))
  /\ (forall user message message_type unread_only,
        messages.send_message db user message
        = (Unhandled "AttributeError", db)
        /\ messages.get_messages db user message_type unread_only
           = (Unhandled "AttributeError", db)
        /\ messages.get_sent_messages db user
           = (Unhandled "AttributeError", db)
        /\ messages.get_unread_count db user
           = (Unhandled "AttributeError", db)
        /\ (User.role user = "student" \/ User.role user = "parent" ->
            messages.send_message_to_teacher db user message
            = (Unhandled "AttributeError", db))
        /\ (User.role user <> "student" -> User.role user <> "parent" ->
            messages.send_message_to_teacher db user message
            = (HTTPException HTTP_403_FORBIDDEN
                 "Only students and parents can send messages to teachers",
               db))).
Proof.
  intros Hreach. pose proof (reachable_no_messages db Hreach) as Hnone.
  split; [exact Hnone|]. split.
  - intros user message_id.
    unfold messages.get_message, messages.mark_message_as_read.
    rewrite Hnone. split; reflexivity.
  - intros user message message_type unread_only.
    repeat (split; [reflexivity|]).
    unfold messages.send_message_to_teacher. split.
    + intros [-> | ->]; reflexivity.
    + intros Hstudent Hparent.
      apply String.eqb_neq in Hstudent, Hparent.
      cbn [str_in existsb]. now rewrite Hstudent, Hparent.
Qed.

Lemma no_message_is_ever_stored_witness :
  messages submitted_db = []
  /\ messages.get_message submitted_db student1_user 1
     = (HTTPException HTTP_404_NOT_FOUND "Message not found", submitted_db)
  /\ messages.send_message_to_teacher submitted_db student1_user hello
     = (Unhandled "AttributeError", submitted_db).
Proof.
  destruct (no_message_is_ever_stored (H := plain_auth_utils) submitted_db
              submitted_reachable) as (Hnone & Hread & Hsend).
  split; [exact Hnone|]. split.
  - exact (proj1 (Hread student1_user 1)).
  - destruct (Hsend student1_user hello None false)
      as (_ & _ & _ & _ & Hteacher & _).
    apply Hteacher. left. reflexivity.
Defined.
